(** * Study Buddy: quiz scoring, session analysis and the school approval
      endpoint

    A shallow embedding of three pieces of the repository:

    - [src/components/StudyChat.tsx]: the quiz engine
      ([handleEndStudyClick], [handleQuizAnswer], [handleNextQuestion],
      [calculateQuizResults], [finishStudySession]) and the session
      analysis accumulator inside [getAIResponse];
    - [supabase/functions/school-student-approval/index.ts]: the request
      [handler].

    JavaScript values are modelled as the code has them: strings as
    [string], holding the bytes of their UTF-8 encoding, [undefined] as
    [None], arrays as lists, and every JavaScript
    number as an IEEE-754 binary64 value ([spec_float] with precision 53 and
    maximal exponent 1024), so that [correctCount / length * 100] and
    [Math.round] are computed the way the engine computes them. *)

From Stdlib Require Import ZArith List Bool Lia QArith Qpower Lqa String Ascii.
From Stdlib Require Import Floats.SpecFloat.
From stdpp Require Import base list strings gmap.

Open Scope Z_scope.

(** ** JavaScript primitives used by the sources *)

Module JS.

(** *** Strings.  A string is held as the bytes of its UTF-8 encoding, so
    that every character of the Basic Latin block is one byte and every
    other character is a sequence of bytes from 128 up.  Strict equality,
    concatenation and a search for an ASCII text come out the same on the
    bytes as on the characters.

    [toLowerCase] is the ASCII part of the Unicode mapping: it folds the
    letters A to Z and leaves every other byte alone.  It is the engine's
    result on every string whose characters outside ASCII have no lower-case
    form of their own; a statement that needs it on such letters says
    [ascii_only]. *)

Definition lower_char (c : ascii) : ascii :=
  let n := nat_of_ascii c in
  if ((65 <=? n) && (n <=? 90))%nat then ascii_of_nat (n + 32) else c.

Definition upper_char (c : ascii) : ascii :=
  let n := nat_of_ascii c in
  if ((97 <=? n) && (n <=? 122))%nat then ascii_of_nat (n - 32) else c.

Fixpoint toLowerCase (s : string) : string :=
  match s with
  | EmptyString => EmptyString
  | String c r => String (lower_char c) (toLowerCase r)
  end.

(** Every byte of the string is below 128. *)
Fixpoint ascii_only (s : string) : bool :=
  match s with
  | EmptyString => true
  | String c r => (nat_of_ascii c <? 128)%nat && ascii_only r
  end.

(** The characters removed by [String.prototype.trim] are the [WhiteSpace]
    and [LineTerminator] code points of ECMAScript, listed here by the
    length of their encoding.  One byte: U+0009 TAB, U+000A LF, U+000B VT,
    U+000C FF, U+000D CR and U+0020 SPACE. *)
Definition is_space (c : ascii) : bool :=
  let n := nat_of_ascii c in
  ((9 <=? n) && (n <=? 13) || (n =? 32))%nat.

(** Two bytes: U+00A0 NO-BREAK SPACE, encoded C2 A0. *)
Definition is_space2 (c1 c2 : ascii) : bool :=
  ((nat_of_ascii c1 =? 194) && (nat_of_ascii c2 =? 160))%nat.

(** Three bytes: U+1680 (E1 9A 80), U+2000 to U+200A (E2 80 80 to
    E2 80 8A), U+2028 and U+2029 (E2 80 A8, E2 80 A9), U+202F (E2 80 AF),
    U+205F (E2 81 9F), U+3000 (E3 80 80) and U+FEFF (EF BB BF). *)
Definition is_space3 (c1 c2 c3 : ascii) : bool :=
  let n1 := nat_of_ascii c1 in
  let n2 := nat_of_ascii c2 in
  let n3 := nat_of_ascii c3 in
  ((n1 =? 225) && (n2 =? 154) && (n3 =? 128)
   || (n1 =? 226) && (n2 =? 128)
      && ((128 <=? n3) && (n3 <=? 138) || (n3 =? 168) || (n3 =? 169) || (n3 =? 175))
   || (n1 =? 226) && (n2 =? 129) && (n3 =? 159)
   || (n1 =? 227) && (n2 =? 128) && (n3 =? 128)
   || (n1 =? 239) && (n2 =? 187) && (n3 =? 191))%nat.

(** The rest of the string after its first character, when that character
    is white space. *)
Definition strip_space (s : string) : option string :=
  match s with
  | String c1 r1 =>
      if is_space c1 then Some r1
      else match r1 with
           | String c2 r2 =>
               if is_space2 c1 c2 then Some r2
               else match r2 with
                    | String c3 r3 =>
                        if is_space3 c1 c2 c3 then Some r3 else None
                    | EmptyString => None
                    end
           | EmptyString => None
           end
  | EmptyString => None
  end.

(** [trimStart] drops white-space characters for as long as the string
    starts with one. *)
Fixpoint trimStart (s : string) : string :=
  match s with
  | EmptyString => EmptyString
  | String c1 r1 =>
      if is_space c1 then trimStart r1
      else match r1 with
           | EmptyString => s
           | String c2 r2 =>
               if is_space2 c1 c2 then trimStart r2
               else match r2 with
                    | EmptyString => s
                    | String c3 r3 =>
                        if is_space3 c1 c2 c3 then trimStart r3 else s
                    end
           end
  end.

(** Truthiness of a string: every string but the empty one. *)
Definition truthy (s : string) : bool :=
  match s with EmptyString => false | _ => true end.

(** [trimEnd] cuts the string where nothing but white space follows. *)
Fixpoint trimEnd (s : string) : string :=
  match s with
  | EmptyString => EmptyString
  | String c r =>
      if truthy (trimStart s) then String c (trimEnd r) else EmptyString
  end.

Definition trim (s : string) : string := trimEnd (trimStart s).

(** Truthiness of a possibly missing string. *)
Definition truthy_opt (o : option string) : bool :=
  match o with Some s => truthy s | None => false end.

(** [a || b] on strings. *)
Definition or_else (o : option string) (d : string) : string :=
  match o with
  | Some s => if truthy s then s else d
  | None => d
  end.

(** [Array.prototype.indexOf] on an array of strings: the first index
    holding a strictly equal value, or [-1]. *)
Fixpoint indexOf_from (l : list string) (x : string) (i : Z) : Z :=
  match l with
  | [] => -1
  | y :: l' => if bool_decide (y = x) then i else indexOf_from l' x (i + 1)
  end.

(** The searched value may be [undefined], which no string equals. *)
Definition indexOf (l : list string) (x : option string) : Z :=
  match x with
  | Some s => indexOf_from l s 0
  | None => -1
  end.

(** [String.prototype.includes]. *)
Fixpoint includes (s t : string) : bool :=
  String.prefix t s ||
  match s with
  | EmptyString => false
  | String _ r => includes r t
  end.

(** [[...new Set(l)]]: the distinct elements of [l] in order of first
    occurrence. *)
Fixpoint Set_add_all (seen l : list string) : list string :=
  match l with
  | [] => seen
  | x :: l' =>
      Set_add_all (if bool_decide (x ∈ seen) then seen else seen ++ [x]) l'
  end.

Definition spread_new_Set (l : list string) : list string := Set_add_all [] l.

(** *** Numbers: IEEE-754 binary64. *)

Definition Number := spec_float.
Definition prec : Z := 53.
Definition emax : Z := 1024.

(** The number holding the integer [z] (exact below [2^53]). *)
Definition Z2SF (z : Z) : Number := binary_normalize prec emax z 0 false.

Definition Num_div (x y : Number) : Number := SFdiv prec emax x y.
Definition Num_mul (x y : Number) : Number := SFmul prec emax x y.

(** [x >= y]; false as soon as one side is NaN. *)
Definition Num_ge (x y : Number) : bool := SFleb y x.

(** [Math.round]: the integer [floor (x + 1/2)], computed exactly; NaN and
    the infinities are returned unchanged, and a zero result keeps the
    sign of [x]. *)
Definition Math_round (x : Number) : Number :=
  match x with
  | S754_finite s m e =>
      let v := if s then Z.neg m else Z.pos m in
      let r := match e with
               | Z.neg p => (2 * v + 2 ^ Z.pos p) / 2 ^ (Z.pos p + 1)
               | _ => v * 2 ^ e
               end in
      match r with
      | 0 => S754_zero s
      | _ => Z2SF r
      end
  | _ => x
  end.

(** [Math.max] of two numbers. *)
Definition Math_max (x y : Number) : Number :=
  match SFcompare x y with
  | None => S754_nan
  | Some Lt => y
  | Some Gt => x
  | Some Eq => match x with S754_zero true => y | _ => x end
  end.

End JS.

(** ** The chat component: [src/components/StudyChat.tsx] *)

Module StudyChat.
Import JS.

Inductive Role := user | assistant.

(** [RealTimeAnalysis.currentUnderstanding]. *)
Inductive Understanding := u_weak | u_average | u_good | u_excellent.

(** [quizResult.understanding]. *)
Inductive Verdict := strong | partial | weak.

Inductive QuestionType := mcq | true_false | fill_blank | short_answer.

Record RealTimeAnalysis := {
  weakAreas : list string;
  strongAreas : list string;
  currentUnderstanding : Understanding;
  topicsCovered : list string
}.

(** [data.sessionAnalysis] as returned by the [study-chat] function; a
    missing, [null] or empty entry is [None]. *)
Record SessionAnalysis := {
  sa_weakAreas : option (list string);
  sa_strongAreas : option (list string);
  sa_understanding : option Understanding;
  sa_topics : option (list string)
}.

Record QuizQuestion := {
  q_id : Z;
  q_type : QuestionType;
  question : string;
  options : option (list string);
  correct_answer : string;
  explanation : string;
  difficulty : string;
  q_topic : string
}.

(** Message texts built from template literals keep their parameters. *)
Inductive Content :=
| Text (s : string)
| Greeting
| QuizIntro (n : nat)
| ResultMessage (correct total : nat) (u : Verdict)
| FallbackReply
| ConnectionProblem.

Record ChatMessage := {
  m_id : Z;
  role : Role;
  content : Content;
  timestamp : Z;
  imageUrl : option string
}.

Record QuizResult := {
  correctCount : nat;
  totalQuestions : nat;
  accuracy : Number;
  understanding : Verdict;
  questions : list QuizQuestion;
  answers : list string
}.

(** The argument of [onEndStudy]; [quizResult] is an optional field. *)
Record Summary := {
  topic : string;
  timeSpent : Number;
  messages : list ChatMessage;
  analysis : RealTimeAnalysis;
  quizResult : option QuizResult
}.

Inductive Effect :=
| OnEndStudy (s : Summary)
| Toast (title : string).

(** Result of [supabase.functions.invoke]: the call throws, or resolves to
    [{ data, error }]. *)
Inductive Invoke (A : Type) :=
| Threw
| Returned (data : option A) (error : bool).
Arguments Threw {A}.
Arguments Returned {A} data error.

(** Reply of [study-chat]. *)
Record AIData := {
  ai_error : option string;
  sessionAnalysis : option SessionAnalysis;
  response : option string
}.

(** Reply of [generate-quiz]; [quiz_questions] is [data.quiz.questions],
    [None] when [quiz] or [questions] is missing. *)
Record QuizData := {
  success : bool;
  quiz_questions : option (list QuizQuestion)
}.

(** The [useState] cells read or written by the handlers below. *)
Record State := {
  st_messages : list ChatMessage;
  currentTopic : string;
  st_analysis : RealTimeAnalysis;
  startTime : Z;
  isQuizMode : bool;
  quizQuestions : list QuizQuestion;
  currentQuestionIndex : nat;
  userAnswers : list string;
  showResult : bool;
  quizLoading : bool;
  selectedOption : option string;
  showExplanation : bool
}.

Definition initialState (start : Z) : State := {|
  st_messages := [ {| m_id := 1; role := assistant; content := Greeting;
                      timestamp := start; imageUrl := None |} ];
  currentTopic := "";
  st_analysis := {| weakAreas := []; strongAreas := [];
                    currentUnderstanding := u_average; topicsCovered := [] |};
  startTime := start;
  isQuizMode := false;
  quizQuestions := [];
  currentQuestionIndex := 0;
  userAnswers := [];
  showResult := false;
  quizLoading := false;
  selectedOption := None;
  showExplanation := false
|}.

(** *** Session analysis accumulator ([getAIResponse], lines 207-214) *)

(** The updater passed to [setAnalysis]. *)
Definition mergeAnalysis (prev : RealTimeAnalysis) (sa : SessionAnalysis)
  : RealTimeAnalysis := {|
  weakAreas := spread_new_Set (weakAreas prev ++ default [] (sa_weakAreas sa));
  strongAreas := spread_new_Set (strongAreas prev ++ default [] (sa_strongAreas sa));
  currentUnderstanding := default (currentUnderstanding prev) (sa_understanding sa);
  topicsCovered := spread_new_Set (topicsCovered prev ++ default [] (sa_topics sa))
|}.

(** [getAIResponse]: the new analysis, the reply text and the toasts. *)
Definition getAIResponse (prev : RealTimeAnalysis) (res : Invoke AIData)
  : RealTimeAnalysis * Content * list Effect :=
  match res with
  | Returned data false =>
      let toasts :=
        match data with
        | Some d => if truthy_opt (ai_error d) then [Toast "AI Error"] else []
        | None => []
        end in
      let analysis' :=
        match data with
        | Some {| sessionAnalysis := Some sa |} => mergeAnalysis prev sa
        | _ => prev
        end in
      let reply :=
        match data with
        | Some {| response := Some r |} => if truthy r then Text r else FallbackReply
        | _ => FallbackReply
        end in
      (analysis', reply, toasts)
  | _ => (prev, ConnectionProblem, [])
  end.

(** The analysis after a sequence of assistant turns. *)
Definition analysis_after (turns : list (Invoke AIData)) (a : RealTimeAnalysis)
  : RealTimeAnalysis :=
  fold_left (fun acc res => (getAIResponse acc res).1.1) turns a.

(** *** Quiz scoring ([calculateQuizResults], lines 401-417) *)

(** The test of the [forEach] body for question [q] and [userAnswers[i]]. *)
Definition countsAsCorrect (q : QuizQuestion) (ua : option string) : bool :=
  let userAnswer := (fun s => trim (toLowerCase s)) <$> ua in
  let correctAnswer := trim (toLowerCase (correct_answer q)) in
  bool_decide (userAnswer = Some correctAnswer) ||
  match options q with
  | Some opts =>
      bool_decide (indexOf opts ua
                   = indexOf (toLowerCase <$> opts) (Some correctAnswer))
  | None => false
  end.

(** [quizQuestions.forEach((q, i) => ...)] from index [i] on, threading the
    counter. *)
Fixpoint forEach_count (qs : list QuizQuestion) (i : nat)
    (userAnswers : list string) (count : nat) : nat :=
  match qs with
  | [] => count
  | q :: qs' =>
      forEach_count qs' (S i) userAnswers
        (if countsAsCorrect q (userAnswers !! i) then S count else count)
  end.

Definition countCorrect (qs : list QuizQuestion) (userAnswers : list string) : nat :=
  forEach_count qs 0 userAnswers 0.

(** The test of the loop body at index [i]. *)
Definition countsAsCorrect_at (qs : list QuizQuestion) (userAnswers : list string)
    (i : nat) : bool :=
  match qs !! i with
  | Some q => countsAsCorrect q (userAnswers !! i)
  | None => false
  end.

(** [Math.round((correctCount / quizQuestions.length) * 100)]. *)
Definition accuracy_of (count total : nat) : Number :=
  Math_round
    (Num_mul (Num_div (Z2SF (Z.of_nat count)) (Z2SF (Z.of_nat total))) (Z2SF 100)).

Definition understanding_of (acc : Number) : Verdict :=
  if Num_ge acc (Z2SF 70) then strong
  else if Num_ge acc (Z2SF 40) then partial
  else weak.

Definition quizResult_of (qs : list QuizQuestion) (userAnswers : list string)
  : QuizResult :=
  let count := countCorrect qs userAnswers in
  let acc := accuracy_of count (length qs) in
  {| correctCount := count;
     totalQuestions := length qs;
     accuracy := acc;
     understanding := understanding_of acc;
     questions := qs;
     answers := userAnswers |}.

(** *** Ending the session *)

(** [Math.max(Math.round((now - startTime) / 60000), 1)]. *)
Definition minutesSpent (st : State) (now : Z) : Number :=
  Math_max (Math_round (Num_div (Z2SF (now - startTime st)) (Z2SF 60000))) (Z2SF 1).

Definition topic_or_default (st : State) : string :=
  if truthy (currentTopic st) then currentTopic st else "General Study".

Definition finishStudySession (st : State) (now : Z) : list Effect :=
  [ OnEndStudy {| topic := topic_or_default st;
                  timeSpent := minutesSpent st now;
                  messages := st_messages st;
                  analysis := st_analysis st;
                  quizResult := None |} ].

(** [handleEndStudyClick], with the reply of [generate-quiz] as [res]. *)
Definition handleEndStudyClick (st : State) (res : Invoke QuizData) (now : Z)
  : State * list Effect :=
  let idle := {|
    st_messages := st_messages st; currentTopic := currentTopic st;
    st_analysis := st_analysis st; startTime := startTime st;
    isQuizMode := isQuizMode st; quizQuestions := quizQuestions st;
    currentQuestionIndex := currentQuestionIndex st;
    userAnswers := userAnswers st; showResult := showResult st;
    quizLoading := false;
    selectedOption := selectedOption st; showExplanation := showExplanation st |} in
  match res with
  | Returned data false =>
      match data with
      | Some {| success := true; quiz_questions := Some (q :: qs) |} =>
          ({| st_messages :=
                st_messages st ++
                [ {| m_id := now; role := assistant;
                     content := QuizIntro (length (q :: qs));
                     timestamp := now; imageUrl := None |} ];
              currentTopic := currentTopic st;
              st_analysis := st_analysis st; startTime := startTime st;
              isQuizMode := true;
              quizQuestions := q :: qs;
              currentQuestionIndex := 0;
              userAnswers := [];
              showResult := showResult st;
              quizLoading := false;
              selectedOption := selectedOption st;
              showExplanation := showExplanation st |}, [])
      | _ => (idle, finishStudySession st now)
      end
  | _ => (idle, Toast "Quiz Error" :: finishStudySession st now)
  end.

(** *** Walking through the questions *)

Definition handleQuizAnswer (st : State) (answer : string) : State := {|
  st_messages := st_messages st; currentTopic := currentTopic st;
  st_analysis := st_analysis st; startTime := startTime st;
  isQuizMode := isQuizMode st; quizQuestions := quizQuestions st;
  currentQuestionIndex := currentQuestionIndex st;
  userAnswers := userAnswers st ++ [answer];
  showResult := showResult st; quizLoading := quizLoading st;
  selectedOption := Some answer;
  showExplanation := true
|}.

(** [calculateQuizResults]: shows the result, appends the result message
    and, when its timer fires, calls [onEndStudy] with the messages and
    analysis captured when it was called.  Here the timer fires at once,
    at the time [now] of the click; [Live] has the timer as an event of its
    own, with its own time. *)
Definition calculateQuizResults (st : State) (now : Z) : State * list Effect :=
  let r := quizResult_of (quizQuestions st) (userAnswers st) in
  ({| st_messages :=
        st_messages st ++
        [ {| m_id := now; role := assistant;
             content := ResultMessage (correctCount r) (totalQuestions r)
                          (understanding r);
             timestamp := now; imageUrl := None |} ];
      currentTopic := currentTopic st;
      st_analysis := st_analysis st; startTime := startTime st;
      isQuizMode := isQuizMode st; quizQuestions := quizQuestions st;
      currentQuestionIndex := currentQuestionIndex st;
      userAnswers := userAnswers st;
      showResult := true;
      quizLoading := quizLoading st;
      selectedOption := selectedOption st;
      showExplanation := showExplanation st |},
   [ OnEndStudy {| topic := topic_or_default st;
                   timeSpent := minutesSpent st now;
                   messages := st_messages st;
                   analysis := st_analysis st;
                   quizResult := Some r |} ]).

Definition handleNextQuestion (st : State) (now : Z) : State * list Effect :=
  let st1 := {|
    st_messages := st_messages st; currentTopic := currentTopic st;
    st_analysis := st_analysis st; startTime := startTime st;
    isQuizMode := isQuizMode st; quizQuestions := quizQuestions st;
    currentQuestionIndex := currentQuestionIndex st;
    userAnswers := userAnswers st;
    showResult := showResult st; quizLoading := quizLoading st;
    selectedOption := None;
    showExplanation := false |} in
  if Z.of_nat (currentQuestionIndex st) <? Z.of_nat (length (quizQuestions st)) - 1
  then
    ({| st_messages := st_messages st1; currentTopic := currentTopic st1;
        st_analysis := st_analysis st1; startTime := startTime st1;
        isQuizMode := isQuizMode st1; quizQuestions := quizQuestions st1;
        currentQuestionIndex := S (currentQuestionIndex st1);
        userAnswers := userAnswers st1;
        showResult := showResult st1; quizLoading := quizLoading st1;
        selectedOption := selectedOption st1;
        showExplanation := showExplanation st1 |}, [])
  else calculateQuizResults st1 now.

(** *** Sending a chat message ([handleSendMessage]); persistence calls
    are left out, they write none of the cells above. *)

Definition topicKeywords : list string :=
  [ "physics"; "chemistry"; "maths"; "math"; "biology"; "history";
    "geography"; "english"; "hindi"; "science"; "social" ].

Definition capitalize (s : string) : string :=
  match s with
  | EmptyString => EmptyString
  | String c r => String (upper_char c) r
  end.

Definition handleSendMessage (st : State) (inputValue : string)
    (selectedImage : option string) (res : Invoke AIData) (now now' : Z)
  : State * list Effect :=
  if negb (truthy (trim inputValue)) && negb (truthy_opt selectedImage)
  then (st, [])
  else
    let userMessage :=
      {| m_id := now; role := user; content := Text inputValue;
         timestamp := now;
         imageUrl := if truthy_opt selectedImage then selectedImage else None |} in
    let foundTopic :=
      List.find (fun t => includes (toLowerCase inputValue) t) topicKeywords in
    let topic' :=
      match foundTopic with
      | Some t => if truthy (currentTopic st) then currentTopic st else capitalize t
      | None => currentTopic st
      end in
    let '(analysis', reply, toasts) := getAIResponse (st_analysis st) res in
    let aiResponse :=
      {| m_id := now' + 1; role := assistant; content := reply;
         timestamp := now'; imageUrl := None |} in
    ({| st_messages := st_messages st ++ [userMessage; aiResponse];
        currentTopic := topic';
        st_analysis := analysis'; startTime := startTime st;
        isQuizMode := isQuizMode st; quizQuestions := quizQuestions st;
        currentQuestionIndex := currentQuestionIndex st;
        userAnswers := userAnswers st;
        showResult := showResult st; quizLoading := quizLoading st;
        selectedOption := selectedOption st;
        showExplanation := showExplanation st |}, toasts).

(** *** The rendered controls (JSX, lines 533-541 and 682-793)

    An event is enabled only when its control is rendered and not
    disabled; [ui_step] returns [None] otherwise.  An event stands for a
    handler run to its end, request and reply included, before the next
    one starts; [Live] takes the handlers apart where they wait. *)

Inductive Event :=
| ClickEndStudy (res : Invoke QuizData) (now : Z)
| SendMessage (inputValue : string) (selectedImage : option string)
    (res : Invoke AIData) (now now' : Z)
| ClickOption (option : string)
| ClickTrueFalse (option : string)
| ChangeAnswerInput (value : string)
| SubmitAnswerInput
| ClickNext (now : Z).

(** [quizQuestions[currentQuestionIndex]]. *)
Definition currentQuestion (st : State) : option QuizQuestion :=
  quizQuestions st !! currentQuestionIndex st.

(** The mark the panel puts on an option button once the explanation is
    shown (lines 699 and 734). *)
Definition isCorrect (option : string) (q : QuizQuestion) : bool :=
  bool_decide (toLowerCase option = toLowerCase (correct_answer q)).

(** The question shown by the quiz panel, rendered when
    [isQuizMode && currentQuestion && !showResult]. *)
Definition quizPanel (st : State) : option QuizQuestion :=
  if isQuizMode st && negb (showResult st) then currentQuestion st else None.

Definition is_text_question (q : QuizQuestion) : bool :=
  match q_type q with
  | fill_blank | short_answer => true
  | _ => false
  end.

Definition setSelectedOption (st : State) (v : option string) : State := {|
  st_messages := st_messages st; currentTopic := currentTopic st;
  st_analysis := st_analysis st; startTime := startTime st;
  isQuizMode := isQuizMode st; quizQuestions := quizQuestions st;
  currentQuestionIndex := currentQuestionIndex st;
  userAnswers := userAnswers st;
  showResult := showResult st; quizLoading := quizLoading st;
  selectedOption := v;
  showExplanation := showExplanation st
|}.

Definition ui_step (st : State) (ev : Event) : option (State * list Effect) :=
  match ev with
  | ClickEndStudy res now =>
      if negb (isQuizMode st) && negb (quizLoading st)
      then Some (handleEndStudyClick st res now) else None
  | SendMessage inputValue selectedImage res now now' =>
      if negb (isQuizMode st)
      then Some (handleSendMessage st inputValue selectedImage res now now')
      else None
  | ClickOption o =>
      match quizPanel st with
      | Some q =>
          match q_type q, options q with
          | mcq, Some opts =>
              if bool_decide (o ∈ opts) && negb (showExplanation st)
              then Some (handleQuizAnswer st o, []) else None
          | _, _ => None
          end
      | None => None
      end
  | ClickTrueFalse o =>
      match quizPanel st with
      | Some q =>
          match q_type q with
          | true_false =>
              if bool_decide (o ∈ ["True"; "False"]) && negb (showExplanation st)
              then Some (handleQuizAnswer st o, []) else None
          | _ => None
          end
      | None => None
      end
  | ChangeAnswerInput v =>
      match quizPanel st with
      | Some q =>
          if is_text_question q && negb (showExplanation st)
          then Some (setSelectedOption st (Some v), []) else None
      | None => None
      end
  | SubmitAnswerInput =>
      match quizPanel st with
      | Some q =>
          if is_text_question q && negb (showExplanation st)
          then match selectedOption st with
               | Some s => if truthy s then Some (handleQuizAnswer st s, []) else None
               | None => None
               end
          else None
      | None => None
      end
  | ClickNext now =>
      match quizPanel st with
      | Some _ =>
          if showExplanation st then Some (handleNextQuestion st now) else None
      | None => None
      end
  end.

(** States the component can be in after it is mounted at time [start]. *)
Inductive reachable (start : Z) : State -> Prop :=
| reachable_init : reachable start (initialState start)
| reachable_step st ev st' effs :
    reachable start st ->
    ui_step st ev = Some (st', effs) ->
    reachable start st'.

(** The events that submit an answer, with the answer they submit. *)
Definition is_submission (ev : Event) : bool :=
  match ev with
  | ClickOption _ | ClickTrueFalse _ | SubmitAnswerInput => true
  | _ => false
  end.

Definition submitted_answer (st : State) (ev : Event) : option string :=
  match ev with
  | ClickOption o | ClickTrueFalse o => Some o
  | SubmitAnswerInput => selectedOption st
  | _ => None
  end.

(** Quiz generation failed: the call threw, returned an error or no data,
    or reported no success. *)
Definition generation_failed (res : Invoke QuizData) : Prop :=
  match res with
  | Returned (Some d) false => success d = false
  | _ => True
  end.

(** The question list of the reply, when there is one. *)
Definition generated_questions (res : Invoke QuizData) : option (list QuizQuestion) :=
  match res with
  | Returned (Some d) false => quiz_questions d
  | _ => None
  end.

(** How the answers, the index and the two flags of the quiz panel relate
    in every state of the component. *)
Definition quiz_invariant (st : State) : Prop :=
  match isQuizMode st, showResult st with
  | false, _ =>
      userAnswers st = [] /\ showExplanation st = false /\ showResult st = false
  | true, false =>
      (currentQuestionIndex st < length (quizQuestions st))%nat /\
      length (userAnswers st)
      = (currentQuestionIndex st + (if showExplanation st then 1 else 0))%nat
  | true, true =>
      length (userAnswers st) = length (quizQuestions st)
  end.

End StudyChat.

(** ** Quiz scoring as the specification words it

    The count of section 4.1: an index is correct when the answer equals
    [correct_answer] up to case and surrounding white space, or, for a
    multiple-choice question with options, when the answer and the correct
    answer sit at the same index of the options, compared without regard to
    case. *)

Module Claimed.
Import JS StudyChat.

Definition option_index_match (opts : list string) (a correct : string) : bool :=
  let lowered := toLowerCase <$> opts in
  bool_decide (indexOf lowered (Some (toLowerCase a))
               = indexOf lowered (Some (toLowerCase correct))).

Definition answer_matches (q : QuizQuestion) (a : string) : bool :=
  bool_decide (trim (toLowerCase a) = trim (toLowerCase (correct_answer q))) ||
  match q_type q, options q with
  | mcq, Some opts => option_index_match opts a (correct_answer q)
  | _, _ => false
  end.

(** Number of indices [i] at which the aligned answer matches. *)
Fixpoint matching_indices (qs : list QuizQuestion) (ans : list string) : nat :=
  match qs, ans with
  | q :: qs', a :: ans' =>
      (if answer_matches q a then 1 else 0) + matching_indices qs' ans'
  | _, _ => 0
  end%nat.

(** The accuracy as the specification words it,
    [round(100 * correct / total)]: the percentage rounded to the nearest
    integer, a half going up as [Math.round] takes it. *)
Definition rounded_percent (correct total : nat) : Z :=
  (200 * Z.of_nat correct + Z.of_nat total) / (2 * Z.of_nat total).

End Claimed.

(** ** The approval endpoint:
       [supabase/functions/school-student-approval/index.ts] *)

Module Approval.
Import JS.

(** Rows of the [schools] and [students] tables, with the columns the
    handler selects, filters on or updates. *)
Record School := {
  sch_id : string;
  sch_name : string;
  school_id : string;
  password_hash : string
}.

Record Student := {
  stu_id : string;
  stu_school_id : option string;
  is_approved : bool;
  approved_at : option string;
  rejection_reason : option string
}.

Record Database := {
  schools : list School;
  students : list Student
}.

(** What the function reads besides the request: its environment
    variables, the clock ([new Date().toISOString()]) and whether a
    database call reports an error of its own. *)
Record Env := {
  SUPABASE_URL : option string;
  SUPABASE_SERVICE_ROLE_KEY : option string;
  now_iso : string;
  school_lookup_fails : bool;
  student_lookup_fails : bool;
  update_fails : bool
}.

(** [SchoolStudentApprovalRequest] as the interface declares it: every
    member a string; an absent or [null] member is [None].  The cast of
    line 23 checks nothing; members of other types are taken up in
    [Wire]. *)
Record Body := {
  action : option string;
  schoolId : option string;
  schoolPassword : option string;
  studentId : option string;
  rejectionReason : option string
}.

(** Outcome of [req.json()]: it throws with a message, or yields a value
    ([None] for [null]). *)
Inductive Payload :=
| BadJson (message : string)
| Json (body : option Body).

Record Request := {
  method : string;
  payload : Payload
}.

Record JsonBody := {
  success : bool;
  status : option string;
  error : option string
}.

Record Response := {
  http_status : Z;
  body : option JsonBody
}.

Definition failure (code : Z) (msg : string) : Response :=
  {| http_status := code;
     body := Some {| success := false; status := None; error := Some msg |} |}.

Definition ok (st : string) : Response :=
  {| http_status := 200;
     body := Some {| success := true; status := Some st; error := None |} |}.

(** [.maybeSingle()]: no row gives [null], one row gives the row, several
    rows give an error. *)
Inductive QueryResult (A : Type) :=
| QueryError
| QueryData (row : option A).
Arguments QueryError {A}.
Arguments QueryData {A} row.

Definition maybeSingle {A} (fails : bool) (rows : list A) : QueryResult A :=
  if fails then QueryError
  else match rows with
       | [] => QueryData None
       | [r] => QueryData (Some r)
       | _ => QueryError
       end.

Definition school_matches (sid pwd : string) (s : School) : bool :=
  bool_decide (school_id s = sid) && bool_decide (password_hash s = pwd).

(** [.update(f).eq("id", sid)] on [students]. *)
Definition update_students (f : Student -> Student) (sid : string)
    (rows : list Student) : list Student :=
  (fun s => if bool_decide (stu_id s = sid) then f s else s) <$> rows.

Definition approve (now : string) (s : Student) : Student := {|
  stu_id := stu_id s; stu_school_id := stu_school_id s;
  is_approved := true;
  approved_at := Some now;
  rejection_reason := None
|}.

Definition reject (reason : string) (s : Student) : Student := {|
  stu_id := stu_id s; stu_school_id := stu_school_id s;
  is_approved := false;
  approved_at := approved_at s;
  rejection_reason := Some reason
|}.

Definition with_students (db : Database) (rows : list Student) : Database :=
  {| schools := schools db; students := rows |}.

(** The credentials of the request match no stored school record. *)
Definition credentials_unmatched (db : Database) (b : Body) : Prop :=
  forall s : School,
    s ∈ schools db ->
    ~ (Some (school_id s) = schoolId b /\ Some (password_hash s) = schoolPassword b).

(** The response reports success. *)
Definition succeeded (r : Response) : Prop :=
  success <$> body r = Some true.

Definition handler (env : Env) (db : Database) (req : Request)
  : Response * Database :=
  if bool_decide (method req = "OPTIONS")
  then ({| http_status := 200; body := None |}, db)
  else
    match payload req with
    | BadJson message => (failure 500 message, db)
    | Json None => (failure 400 "Missing required fields", db)
    | Json (Some b) =>
        if negb (truthy_opt (action b)) || negb (truthy_opt (schoolId b))
           || negb (truthy_opt (schoolPassword b)) || negb (truthy_opt (studentId b))
        then (failure 400 "Missing required fields", db)
        else if negb (truthy_opt (SUPABASE_URL env))
                || negb (truthy_opt (SUPABASE_SERVICE_ROLE_KEY env))
        then (failure 500 "Backend configuration error", db)
        else
          let sid := default "" (schoolId b) in
          let pwd := default "" (schoolPassword b) in
          let stu := default "" (studentId b) in
          match maybeSingle (school_lookup_fails env)
                  (List.filter (school_matches sid pwd) (schools db)) with
          | QueryError => (failure 500 "School validation failed", db)
          | QueryData None => (failure 401 "Invalid school credentials", db)
          | QueryData (Some school) =>
              match maybeSingle (student_lookup_fails env)
                      (List.filter (fun s => bool_decide (stu_id s = stu))
                         (students db)) with
              | QueryError => (failure 500 "Student lookup failed", db)
              | QueryData None => (failure 404 "Student not found for this school", db)
              | QueryData (Some student) =>
                  if negb (bool_decide (stu_school_id student = Some (sch_id school)))
                  then (failure 404 "Student not found for this school", db)
                  else if bool_decide (action b = Some "approve")
                  then
                    if update_fails env
                    then (failure 500 "Failed to approve student", db)
                    else (ok "approved",
                          with_students db
                            (update_students (approve (now_iso env)) stu (students db)))
                  else
                    let reason := trim (or_else (rejectionReason b) "No reason provided") in
                    if update_fails env
                    then (failure 500 "Failed to reject student", db)
                    else (ok "rejected",
                          with_students db
                            (update_students (reject reason) stu (students db)))
              end
          end
    end.

End Approval.

(** ** Auxiliary definitions for the proofs *)

(** Rational value of a binary64 mantissa and exponent. *)
Module NumberValue.

Definition pow2 (e : Z) : Q := Qpower (2 # 1) e.

(** The value [m * 2^e]. *)
Definition F2Q (m e : Z) : Q := (inject_Z m * pow2 e)%Q.

(** Relative error bound used for one rounding: [2^-52]. *)
Definition u52 : Q := 1 # (2 ^ 52).

(** The value of a number, when it is neither NaN nor infinite. *)
Definition SF2Q (x : spec_float) : option Q :=
  match x with
  | S754_zero _ => Some 0%Q
  | S754_finite s m e => Some (F2Q (if s then Z.neg m else Z.pos m) e)
  | _ => None
  end.

End NumberValue.

(** Concrete quizzes, states and requests used to instantiate the results. *)
Module Samples.
Import JS StudyChat.

Definition text_question (n : Z) (answer : string) : QuizQuestion := {|
  q_id := n; q_type := short_answer; question := "Name the capital.";
  options := None; correct_answer := answer;
  explanation := ""; difficulty := "easy"; q_topic := "Geography"
|}.

Definition five_questions : list QuizQuestion :=
  [ text_question 1 "Paris"; text_question 2 "Rome"; text_question 3 "Oslo";
    text_question 4 "Lima"; text_question 5 "Cairo" ].

Definition four_right : list string :=
  [ " paris"; "ROME"; "oslo "; "Lima"; "Kairo" ].

(** A quiz of forty questions with the first twenty-three answered right,
    and one of eight questions with the first answered right. *)
Definition forty_questions : list QuizQuestion :=
  (fun n => text_question (Z.of_nat n) "Paris") <$> seq 1 40.

Definition twenty_three_right : list string :=
  replicate 23 "Paris" ++ replicate 17 "Rome".

Definition eight_questions : list QuizQuestion :=
  (fun n => text_question (Z.of_nat n) "Paris") <$> seq 1 8.

Definition one_right : list string :=
  "Paris" :: replicate 7 "Rome".

(** U+00A0 NO-BREAK SPACE and U+3000 IDEOGRAPHIC SPACE. *)
Definition no_break_space : string :=
  String "194" (String "160" EmptyString).

Definition ideographic_space : string :=
  String "227" (String "128" (String "128" EmptyString)).

(** A fill-in-the-blank question that comes with a word bank. *)
Definition word_bank_question : QuizQuestion := {|
  q_id := 1; q_type := fill_blank;
  question := "The capital of the United Kingdom is ____.";
  options := Some ["Paris"; "Rome"]; correct_answer := "London";
  explanation := ""; difficulty := "easy"; q_topic := "Geography"
|}.

(** A short-answer question whose options array is present but empty. *)
Definition empty_options_question : QuizQuestion := {|
  q_id := 2; q_type := short_answer;
  question := "Which process turns light into chemical energy?";
  options := Some []; correct_answer := "photosynthesis";
  explanation := ""; difficulty := "easy"; q_topic := "Biology"
|}.

(** A true/false question that carries its own wording of the two
    options. *)
Definition yes_no_question : QuizQuestion := {|
  q_id := 5; q_type := true_false;
  question := "Rome is the capital of Italy.";
  options := Some ["Yes"; "No"]; correct_answer := "True";
  explanation := ""; difficulty := "easy"; q_topic := "Geography"
|}.

(** A multiple-choice question whose correct answer is given as a letter. *)
Definition lettered_question : QuizQuestion := {|
  q_id := 3; q_type := mcq;
  question := "What is the capital of France?";
  options := Some ["Paris"; "Rome"]; correct_answer := "A";
  explanation := ""; difficulty := "easy"; q_topic := "Geography"
|}.

(** A reply of [generate-quiz] that reports success with no question. *)
Definition empty_quiz_reply : Invoke QuizData :=
  Returned (Some {| success := true; quiz_questions := Some [] |}) false.

Definition true_false_question : QuizQuestion := {|
  q_id := 4; q_type := true_false;
  question := "Rome is the capital of Italy.";
  options := None; correct_answer := "True";
  explanation := ""; difficulty := "easy"; q_topic := "Geography"
|}.

Definition one_question_reply : Invoke QuizData :=
  Returned (Some {| success := true; quiz_questions := Some [true_false_question] |})
    false.

(** The state once the learner has asked for the quiz above. *)
Definition quiz_started : State :=
  (handleEndStudyClick (initialState 0) one_question_reply 60000).1.

Definition reported_analysis : SessionAnalysis := {|
  sa_weakAreas := Some ["fractions"; "decimals"];
  sa_strongAreas := None;
  sa_understanding := Some u_good;
  sa_topics := Some ["maths"]
|}.

Definition analysis_reply : AIData := {|
  ai_error := None;
  sessionAnalysis := Some reported_analysis;
  response := Some "Theek hai!"
|}.

Definition earlier_analysis : RealTimeAnalysis := {|
  weakAreas := ["fractions"];
  strongAreas := ["algebra"];
  currentUnderstanding := u_average;
  topicsCovered := ["maths"]
|}.

End Samples.

Module ApprovalSamples.
Import JS Approval.

Definition sample_school : School := {|
  sch_id := "5a0c"; sch_name := "Hill School";
  school_id := "SCH001"; password_hash := "secret"
|}.

Definition sample_student : Student := {|
  stu_id := "stu-1"; stu_school_id := Some "5a0c";
  is_approved := false; approved_at := Some "2025-12-01T09:00:00.000Z";
  rejection_reason := Some "Duplicate account"
|}.

Definition sample_db : Database := {|
  schools := [sample_school];
  students := [sample_student]
|}.

Definition sample_env : Env := {|
  SUPABASE_URL := Some "https://project.supabase.co";
  SUPABASE_SERVICE_ROLE_KEY := Some "service-role-key";
  now_iso := "2025-12-31T04:56:44.000Z";
  school_lookup_fails := false;
  student_lookup_fails := false;
  update_fails := false
|}.

(** The same backend without its service key, and with a school lookup
    that reports an error. *)
Definition unconfigured_env : Env := {|
  SUPABASE_URL := Some "https://project.supabase.co";
  SUPABASE_SERVICE_ROLE_KEY := None;
  now_iso := "2025-12-31T04:56:44.000Z";
  school_lookup_fails := false;
  student_lookup_fails := false;
  update_fails := false
|}.

Definition failing_lookup_env : Env := {|
  SUPABASE_URL := Some "https://project.supabase.co";
  SUPABASE_SERVICE_ROLE_KEY := Some "service-role-key";
  now_iso := "2025-12-31T04:56:44.000Z";
  school_lookup_fails := true;
  student_lookup_fails := false;
  update_fails := false
|}.

Definition post (b : Body) : Request := {| method := "POST"; payload := Json (Some b) |}.

(** Approval request whose password is the empty string. *)
Definition empty_password_body : Body := {|
  action := Some "approve"; schoolId := Some "SCH001";
  schoolPassword := Some ""; studentId := Some "stu-1";
  rejectionReason := None
|}.

Definition wrong_password_body : Body := {|
  action := Some "approve"; schoolId := Some "SCH001";
  schoolPassword := Some "guess"; studentId := Some "stu-1";
  rejectionReason := None
|}.

Definition approve_body : Body := {|
  action := Some "approve"; schoolId := Some "SCH001";
  schoolPassword := Some "secret"; studentId := Some "stu-1";
  rejectionReason := None
|}.

(** A rejection whose reason is padded with U+00A0, spaces and U+3000. *)
Definition reject_body : Body := {|
  action := Some "reject"; schoolId := Some "SCH001";
  schoolPassword := Some "secret"; studentId := Some "stu-1";
  rejectionReason :=
    Some (Samples.no_break_space +:+ " Wrong class " +:+ Samples.ideographic_space)
|}.

End ApprovalSamples.

(** ** Message reactions: [handleReaction]
       ([src/components/StudyChat.tsx], lines 8-14, 97 and 111-147) *)

Module Reactions.
Import JS StudyChat.
















End Reactions.

(** ** Saving the conversation: [saveMessageToDb], [ensureSession] and the
       calls to them in [handleSendMessage]
       ([src/components/StudyChat.tsx], lines 223-265 and 290-310) *)

Module Persistence.
Import JS StudyChat.

(** Rows of [study_sessions] and [chat_messages], with the columns the
    component writes or reads back. *)
Record SessionRow := {
  ss_id : string;
  student_id : string;
  session_topic : string;
  start_time : Z
}.

Record MessageRow := {
  session_id : string;
  row_role : Role;
  row_content : Content;
  image_url : option string
}.

Record Backend := {
  study_sessions : list SessionRow;
  chat_messages : list MessageRow
}.

(** Outcome of [insert(...).select("id").single()]: the id of the created
    row, or an error (reported or thrown), in which case no row exists. *)
Inductive InsertReply :=
| Created (new_id : string)
| Failed.

(** How the backend answers the (at most three) writes of one
    [handleSendMessage]. *)
Record Replies := {
  session_reply : InsertReply;
  user_stored : bool;
  ai_stored : bool
}.

(** The component: the cells of [State] and the [sessionId] cell. *)
Record Component := {
  ui : State;
  sessionId : option string
}.

Definition mount (start : Z) : Component :=
  {| ui := initialState start; sessionId := None |}.

(** The row [saveMessageToDb] inserts for a message. *)
Definition row_of (sessId : string) (message : ChatMessage) : MessageRow :=
  {| session_id := sessId;
     row_role := role message;
     row_content := content message;
     image_url := if truthy_opt (imageUrl message) then imageUrl message else None |}.

(** [saveMessageToDb]; a failed insert is logged and otherwise ignored. *)
Definition saveMessageToDb (message : ChatMessage) (sessId : string)
    (stored : bool) (db : Backend) : Backend :=
  if stored
  then {| study_sessions := study_sessions db;
          chat_messages := chat_messages db ++ [ row_of sessId message ] |}
  else db.

(** [ensureSession]: the returned id, the [sessionId] cell and the backend
    afterwards.  [currentTopic] and [startTime] are those of the render
    that created the handler. *)
Definition ensureSession (studentId : option string) (c : Component)
    (reply : InsertReply) (db : Backend)
  : option string * option string * Backend :=
  if truthy_opt (sessionId c) then (sessionId c, sessionId c, db)
  else if negb (truthy_opt studentId) then (None, sessionId c, db)
  else
    match reply with
    | Created new_id =>
        (Some new_id, Some new_id,
         {| study_sessions :=
              study_sessions db ++
              [ {| ss_id := new_id;
                   student_id := default "" studentId;
                   session_topic := topic_or_default (ui c);
                   start_time := startTime (ui c) |} ];
            chat_messages := chat_messages db |})
    | Failed => (None, sessionId c, db)
    end.

(** The two messages built by [handleSendMessage]. *)
Definition userMessage_of (inputValue : string) (selectedImage : option string)
    (now : Z) : ChatMessage :=
  {| m_id := now; role := user; content := Text inputValue;
     timestamp := now;
     imageUrl := if truthy_opt selectedImage then selectedImage else None |}.

Definition aiResponse_of (st : State) (res : Invoke AIData) (now' : Z)
  : ChatMessage :=
  {| m_id := now' + 1; role := assistant;
     content := (getAIResponse (st_analysis st) res).1.2;
     timestamp := now'; imageUrl := None |}.

(** [handleSendMessage] with its persistence calls: the cells of [State]
    change as in [StudyChat.handleSendMessage]; the user message is saved
    before the assistant is asked, the reply after it has arrived, both
    only when [ensureSession] returned a non-empty id. *)
Definition handleSendMessage_saving (studentId : option string) (c : Component)
    (db : Backend) (inputValue : string) (selectedImage : option string)
    (res : Invoke AIData) (now now' : Z) (r : Replies)
  : Component * Backend * list Effect :=
  if negb (truthy (trim inputValue)) && negb (truthy_opt selectedImage)
  then (c, db, [])
  else
    let '(sessId, sessionId', db1) :=
      ensureSession studentId c (session_reply r) db in
    let db2 :=
      match sessId with
      | Some s =>
          if truthy s
          then saveMessageToDb (userMessage_of inputValue selectedImage now) s
                 (user_stored r) db1
          else db1
      | None => db1
      end in
    let '(st', effs) :=
      handleSendMessage (ui c) inputValue selectedImage res now now' in
    let db3 :=
      match sessId with
      | Some s =>
          if truthy s
          then saveMessageToDb (aiResponse_of (ui c) res now') s (ai_stored r) db2
          else db2
      | None => db2
      end in
    ({| ui := st'; sessionId := sessionId' |}, db3, effs).

(** One event of the component; only a sent message reaches the backend. *)
Definition step_saving (studentId : option string) (c : Component) (db : Backend)
    (ev : Event) (r : Replies) : option (Component * Backend * list Effect) :=
  match ev with
  | SendMessage inputValue selectedImage res now now' =>
      if negb (isQuizMode (ui c))
      then Some (handleSendMessage_saving studentId c db inputValue selectedImage
                   res now now' r)
      else None
  | _ =>
      match ui_step (ui c) ev with
      | Some (st', effs) => Some ({| ui := st'; sessionId := sessionId c |}, db, effs)
      | None => None
      end
  end.

(** A sequence of events, each with the backend's answers; [None] when one
    of them is not enabled. *)
Fixpoint run_saving (studentId : option string) (c : Component) (db : Backend)
    (events : list (Event * Replies)) : option (Component * Backend) :=
  match events with
  | [] => Some (c, db)
  | (ev, r) :: rest =>
      match step_saving studentId c db ev r with
      | Some (c', db', _) => run_saving studentId c' db' rest
      | None => None
      end
  end.

(** Every session id handed out by the backend is a non-empty string. *)
Definition ids_nonempty (events : list (Event * Replies)) : Prop :=
  forall ev r new_id,
    (ev, r) ∈ events -> session_reply r = Created new_id -> truthy new_id = true.

(** What the backend holds for a component mounted at [start] over the
    backend [db0]: nothing new while the component has no session id;
    otherwise one new session row, carrying that id, and message rows that
    follow the chat. *)
Definition saved_consistently (studentId : option string) (start : Z)
    (db0 : Backend) (c : Component) (db : Backend) : Prop :=
  startTime (ui c) = start /\
  (truthy_opt studentId = false -> sessionId c = None) /\
  match sessionId c with
  | None => db = db0
  | Some i =>
      truthy i = true /\
      exists (t : string) (rows : list MessageRow),
        db = {| study_sessions :=
                  study_sessions db0 ++
                  [ {| ss_id := i; student_id := default "" studentId;
                       session_topic := t; start_time := start |} ];
                chat_messages := chat_messages db0 ++ rows |} /\
        rows `sublist_of` (row_of i <$> st_messages (ui c))
  end.

End Persistence.

(** ** The analysis panel (JSX, lines 548-586)

    The panel lists the first three topics covered and the first two strong
    and weak areas ([slice(0, 3)], [slice(0, 2)]). *)

Module AnalysisPanel.
Import JS StudyChat.

Definition shownTopics (a : RealTimeAnalysis) : list string :=
  take 3 (topicsCovered a).

Definition shownStrong (a : RealTimeAnalysis) : list string :=
  take 2 (strongAreas a).

Definition shownWeak (a : RealTimeAnalysis) : list string :=
  take 2 (weakAreas a).

(** The three lists hold no value twice. *)
Definition duplicate_free (a : RealTimeAnalysis) : Prop :=
  NoDup (weakAreas a) /\ NoDup (strongAreas a) /\ NoDup (topicsCovered a).

(** Each list of [a] is an initial part of the same list of [b]. *)
Definition extended_by (a b : RealTimeAnalysis) : Prop :=
  weakAreas a `prefix_of` weakAreas b /\
  strongAreas a `prefix_of` strongAreas b /\
  topicsCovered a `prefix_of` topicsCovered b.

End AnalysisPanel.

(** ** Runs of the chat component *)

Module Runs.
Import JS StudyChat.

(** The states and effects along a sequence of events; [None] when one of
    them is not enabled. *)
Fixpoint run (st : State) (events : list Event) : option (State * list Effect) :=
  match events with
  | [] => Some (st, [])
  | ev :: rest =>
      match ui_step st ev with
      | Some (st', effs) =>
          match run st' rest with
          | Some (st'', effs') => Some (st'', effs ++ effs')
          | None => None
          end
      | None => None
      end
  end.

(** A question the panel offers a control for: a multiple-choice question
    needs at least one option. *)
Definition answerable (q : QuizQuestion) : bool :=
  match q_type q, options q with
  | mcq, Some (_ :: _) => true
  | mcq, _ => false
  | _, _ => true
  end.

(** The summaries handed to [onEndStudy] by a list of effects. *)
Definition summaries (effs : list Effect) : list Summary :=
  omap (fun e => match e with OnEndStudy s => Some s | Toast _ => None end) effs.

(** What a step keeps: the start time, the messages already in the chat,
    a topic once it is set, and, during the quiz, the questions, the
    answers given so far, the topic and the analysis. *)
Definition step_keeps (st st' : State) (effs : list Effect) : Prop :=
  startTime st' = startTime st /\
  st_messages st `prefix_of` st_messages st' /\
  (truthy (currentTopic st) = true -> currentTopic st' = currentTopic st) /\
  (currentTopic st' = currentTopic st \/
   exists t, t ∈ topicKeywords /\ currentTopic st' = capitalize t) /\
  (forall s, OnEndStudy s ∈ effs ->
     topic s = topic_or_default st /\ messages s = st_messages st /\
     analysis s = st_analysis st) /\
  (isQuizMode st = true ->
     isQuizMode st' = true /\ quizQuestions st' = quizQuestions st /\
     userAnswers st `prefix_of` userAnswers st' /\
     (currentQuestionIndex st <= currentQuestionIndex st')%nat /\
     currentTopic st' = currentTopic st /\ st_analysis st' = st_analysis st).

End Runs.

(** ** The component with its requests in flight

    [handleSendMessage] and [handleEndStudyClick] are asynchronous and
    [calculateQuizResults] sets a timer, so a handler can start while
    another one waits: End Study is disabled by [quizLoading] only (line
    538) and the chat input by [isLoading] only (lines 851 and 856).  A
    handler runs on the cells of the render that was clicked; when it
    resumes, its updater functions ([setMessages(prev => ...)],
    [setAnalysis(prev => ...)]) act on the cells of that moment, while the
    names it reads ([messages], [currentTopic], [analysis],
    [finishStudySession]) are still those of the render that was clicked.
    A click is taken to reach the latest render. *)

Module Live.
Import JS StudyChat Runs.

(** Where [handleSendMessage] stands: not running, waiting for
    [study-chat], or past [setMessages] and saving the reply. *)
Inductive SendPhase := Idle | AwaitingReply | SavingReply.

Record LiveComponent := {
  cells : State;
  sending : SendPhase;
  (** [handleEndStudyClick] waits for [generate-quiz]; the cells of the
      render whose button was clicked *)
  awaitingQuiz : option State;
  (** the timer set by [calculateQuizResults]; the cells of the render
      whose handler set it *)
  resultTimer : option State
}.

Definition mounted (start : Z) : LiveComponent :=
  {| cells := initialState start; sending := Idle;
     awaitingQuiz := None; resultTimer := None |}.

(** [isLoading] is true from [setIsLoading(true)] (line 282) to
    [setIsLoading(false)] (line 312). *)
Definition isLoading (c : LiveComponent) : bool :=
  match sending c with Idle => false | _ => true end.

Definition awaitingReply (c : LiveComponent) : bool :=
  match sending c with AwaitingReply => true | _ => false end.

(** [handleSendMessage] up to its first [await] (lines 270-288). *)
Definition sendStart (st : State) (inputValue : string)
    (selectedImage : option string) (now : Z) : State :=
  let userMessage :=
    {| m_id := now; role := user; content := Text inputValue;
       timestamp := now;
       imageUrl := if truthy_opt selectedImage then selectedImage else None |} in
  let foundTopic :=
    List.find (fun t => includes (toLowerCase inputValue) t) topicKeywords in
  {| st_messages := st_messages st ++ [userMessage];
     currentTopic :=
       match foundTopic with
       | Some t => if truthy (currentTopic st) then currentTopic st else capitalize t
       | None => currentTopic st
       end;
     st_analysis := st_analysis st; startTime := startTime st;
     isQuizMode := isQuizMode st; quizQuestions := quizQuestions st;
     currentQuestionIndex := currentQuestionIndex st;
     userAnswers := userAnswers st;
     showResult := showResult st; quizLoading := quizLoading st;
     selectedOption := selectedOption st;
     showExplanation := showExplanation st |}.

(** [handleSendMessage] from the return of [study-chat] to
    [setMessages(prev => [...prev, aiResponse])] (lines 196-306); [st] holds
    the cells at that moment. *)
Definition receiveReply (st : State) (res : Invoke AIData) (now' : Z)
  : State * list Effect :=
  let '(analysis', reply, toasts) := getAIResponse (st_analysis st) res in
  ({| st_messages :=
        st_messages st ++
        [ {| m_id := now' + 1; role := assistant; content := reply;
             timestamp := now'; imageUrl := None |} ];
      currentTopic := currentTopic st;
      st_analysis := analysis'; startTime := startTime st;
      isQuizMode := isQuizMode st; quizQuestions := quizQuestions st;
      currentQuestionIndex := currentQuestionIndex st;
      userAnswers := userAnswers st;
      showResult := showResult st; quizLoading := quizLoading st;
      selectedOption := selectedOption st;
      showExplanation := showExplanation st |}, toasts).

Definition setQuizLoading (st : State) (b : bool) : State := {|
  st_messages := st_messages st; currentTopic := currentTopic st;
  st_analysis := st_analysis st; startTime := startTime st;
  isQuizMode := isQuizMode st; quizQuestions := quizQuestions st;
  currentQuestionIndex := currentQuestionIndex st;
  userAnswers := userAnswers st;
  showResult := showResult st; quizLoading := b;
  selectedOption := selectedOption st;
  showExplanation := showExplanation st
|}.

(** The current question is the last one (line 393). *)
Definition onLastQuestion (st : State) : bool :=
  negb (Z.of_nat (currentQuestionIndex st)
        <? Z.of_nat (length (quizQuestions st)) - 1).

(** The summary handed over when the timer of [calculateQuizResults] fires
    at time [now] (lines 432-446); [cl] holds the cells of the render whose
    handler set the timer. *)
Definition timerSummary (cl : State) (now : Z) : Summary := {|
  topic := topic_or_default cl;
  timeSpent := minutesSpent cl now;
  messages := st_messages cl;
  analysis := st_analysis cl;
  quizResult := Some (quizResult_of (quizQuestions cl) (userAnswers cl))
|}.

Inductive Action :=
| PressSend (inputValue : string) (selectedImage : option string) (now : Z)
| ReplyArrives (res : Invoke AIData) (now' : Z)
| ReplySaved
| PressEndStudy
| QuizArrives (res : Invoke QuizData) (now : Z)
| Panel (ev : Event)
| TimerFires (now : Z).

Definition with_cells (c : LiveComponent) (st : State) : LiveComponent :=
  {| cells := st; sending := sending c;
     awaitingQuiz := awaitingQuiz c; resultTimer := resultTimer c |}.

(** One action of the user, the backend or the timer; [None] when the
    control is not rendered or disabled, or nothing is waiting for the
    event. *)
Definition live_step (c : LiveComponent) (a : Action)
  : option (LiveComponent * list Effect) :=
  match a with
  | PressSend inputValue selectedImage now =>
      if negb (isQuizMode (cells c)) && negb (isLoading c)
      then
        if negb (truthy (trim inputValue)) && negb (truthy_opt selectedImage)
        then Some (c, [])
        else Some ({| cells := sendStart (cells c) inputValue selectedImage now;
                      sending := AwaitingReply;
                      awaitingQuiz := awaitingQuiz c;
                      resultTimer := resultTimer c |}, [])
      else None
  | ReplyArrives res now' =>
      match sending c with
      | AwaitingReply =>
          Some ({| cells := (receiveReply (cells c) res now').1;
                   sending := SavingReply;
                   awaitingQuiz := awaitingQuiz c;
                   resultTimer := resultTimer c |},
                (receiveReply (cells c) res now').2)
      | _ => None
      end
  | ReplySaved =>
      match sending c with
      | SavingReply =>
          Some ({| cells := cells c; sending := Idle;
                   awaitingQuiz := awaitingQuiz c;
                   resultTimer := resultTimer c |}, [])
      | _ => None
      end
  | PressEndStudy =>
      if negb (isQuizMode (cells c)) && negb (quizLoading (cells c))
      then Some ({| cells := setQuizLoading (cells c) true;
                    sending := sending c;
                    awaitingQuiz := Some (cells c);
                    resultTimer := resultTimer c |}, [])
      else None
  | QuizArrives res now =>
      (* the updaters act on the cells of this moment, [finishStudySession]
         is that of the render that was clicked *)
      match awaitingQuiz c with
      | Some cl =>
          Some ({| cells := (handleEndStudyClick (cells c) res now).1;
                   sending := sending c;
                   awaitingQuiz := None;
                   resultTimer := resultTimer c |},
                (handleEndStudyClick cl res now).2)
      | None => None
      end
  | Panel (ClickEndStudy _ _) | Panel (SendMessage _ _ _ _ _) => None
  | Panel (ClickNext now) =>
      (* on the last question the result is shown and the timer set; the
         summary waits for the timer *)
      match ui_step (cells c) (ClickNext now) with
      | Some (st', _) =>
          Some ({| cells := st'; sending := sending c;
                   awaitingQuiz := awaitingQuiz c;
                   resultTimer :=
                     if onLastQuestion (cells c) then Some (cells c)
                     else resultTimer c |}, [])
      | None => None
      end
  | Panel ev =>
      match ui_step (cells c) ev with
      | Some (st', effs) => Some (with_cells c st', effs)
      | None => None
      end
  | TimerFires now =>
      match resultTimer c with
      | Some cl =>
          Some ({| cells := cells c; sending := sending c;
                   awaitingQuiz := awaitingQuiz c;
                   resultTimer := None |},
                [OnEndStudy (timerSummary cl now)])
      | None => None
      end
  end.

Fixpoint live_run (c : LiveComponent) (actions : list Action)
  : option (LiveComponent * list Effect) :=
  match actions with
  | [] => Some (c, [])
  | a :: rest =>
      match live_step c a with
      | Some (c', effs) =>
          match live_run c' rest with
          | Some (c'', effs') => Some (c'', effs ++ effs')
          | None => None
          end
      | None => None
      end
  end.

(** The message a press on Send puts into the chat, if it puts one. *)
Definition sent (a : Action) : option ChatMessage :=
  match a with
  | PressSend inputValue selectedImage now =>
      if negb (truthy (trim inputValue)) && negb (truthy_opt selectedImage)
      then None
      else Some {| m_id := now; role := user; content := Text inputValue;
                   timestamp := now;
                   imageUrl := if truthy_opt selectedImage
                               then selectedImage else None |}
  | _ => None
  end.

Definition from_user (m : ChatMessage) : bool :=
  match role m with user => true | assistant => false end.

(** An assistant message that answers a user message: the reply of
    [study-chat], the fallback or the connection notice. *)
Definition is_reply (m : ChatMessage) : bool :=
  match role m, content m with
  | assistant, (Text _ | FallbackReply | ConnectionProblem) => true
  | _, _ => false
  end.

(** The events of the quiz panel. *)
Definition panel_event (ev : Event) : bool :=
  match ev with
  | ClickEndStudy _ _ | SendMessage _ _ _ _ _ => false
  | _ => true
  end.

(** The number of user messages that wait for their reply. *)
Definition waiting (c : LiveComponent) : nat := if awaitingReply c then 1 else 0.

(** Every handler that is waiting was started on a render showing the
    topic [t]. *)
Definition started_with_topic (c : LiveComponent) (t : string) : Prop :=
  forall cl : State,
    awaitingQuiz c = Some cl \/ resultTimer c = Some cl -> currentTopic cl = t.

(** What holds of the handlers in flight in every state of the component:
    no quiz is awaited once the quiz has started. *)
Definition live_invariant (c : LiveComponent) : Prop :=
  isQuizMode (cells c) = true -> awaitingQuiz c = None.

End Live.

(** ** Letters of typed answers *)

Module Letters.
Import JS.

(** The other case of an ASCII letter; any other byte as it is. *)
Definition other_case (c : ascii) : ascii :=
  let n := nat_of_ascii c in
  if ((65 <=? n) && (n <=? 90))%nat then ascii_of_nat (n + 32)
  else if ((97 <=? n) && (n <=? 122))%nat then ascii_of_nat (n - 32)
  else c.

(** [s] with the case of its letters changed at the positions marked in
    [mask]. *)
Fixpoint recase (mask : list bool) (s : string) : string :=
  match s, mask with
  | String c r, b :: mask' =>
      String (if b then other_case c else c) (recase mask' r)
  | _, _ => s
  end.

End Letters.

(** ** The request body as it is parsed
       ([supabase/functions/school-student-approval/index.ts], lines 23-30)

    [req.json()] yields any JSON value and the cast to
    [SchoolStudentApprovalRequest] checks nothing, so the guard of line 25
    sees members of any type. *)

Module Wire.
Import JS Approval.

(** A member of the parsed object. *)
Inductive Value :=
| VNull
| VBool (b : bool)
| VNumber (x : Number)
| VString (s : string)
| VStructured.  (* an array or an object *)

(** The parsed body: an object, with its members in the order of the text,
    or a value without members of its own. *)
Inductive Parsed :=
| PObject (members : list (string * Value))
| POther.  (* null, a boolean, a number, a string or an array *)

(** [ToBoolean]: [null], [false], zero, NaN and the empty string are falsy,
    every array and object is truthy. *)
Definition ToBoolean (v : Value) : bool :=
  match v with
  | VNull => false
  | VBool b => b
  | VNumber (S754_zero _) | VNumber S754_nan => false
  | VNumber _ => true
  | VString s => truthy s
  | VStructured => true
  end.

(** [body?.k] for a member name [k] of the request: [undefined] unless the
    body is an object with a member of that name; of members with the same
    name [JSON.parse] keeps the last. *)
Definition member (v : Parsed) (k : string) : option Value :=
  match v with
  | PObject members =>
      snd <$> List.find (fun m => bool_decide (m.1 = k)) (rev members)
  | POther => None
  end.

(** [!body?.k]. *)
Definition falsy (o : option Value) : bool :=
  match o with
  | Some v => negb (ToBoolean v)
  | None => true
  end.

(** The test of line 25. *)
Definition missing_required (v : Parsed) : bool :=
  falsy (member v "action") || falsy (member v "schoolId")
  || falsy (member v "schoolPassword") || falsy (member v "studentId").

(** A member that is a string, as the interface declares it, or is absent
    or [null]. *)
Definition as_string (o : option Value) : option (option string) :=
  match o with
  | None | Some VNull => Some None
  | Some (VString s) => Some (Some s)
  | Some _ => None
  end.

(** The body as [Approval.handler] takes it: that of an object whose five
    members are strings where present; a value without members is handled
    as [null] is, every [body?.k] being [undefined]. *)
Definition typed (v : Parsed) : option (option Body) :=
  match v with
  | POther => Some None
  | PObject _ =>
      match as_string (member v "action"), as_string (member v "schoolId"),
            as_string (member v "schoolPassword"), as_string (member v "studentId"),
            as_string (member v "rejectionReason") with
      | Some a, Some sid, Some pwd, Some stu, Some reason =>
          Some (Some {| action := a; schoolId := sid; schoolPassword := pwd;
                        studentId := stu; rejectionReason := reason |})
      | _, _, _, _, _ => None
      end
  end.

(** The handler on a parsed value.  Lines 18-30 are covered for every
    value; past the guard the handler is that of [Approval] for a typed
    body, and [None] stands for a body that passes the guard with a member
    of another type, which is not modelled. *)
Definition handler_value (env : Env) (db : Database) (m : string) (v : Parsed)
  : option (Response * Database) :=
  if bool_decide (m = "OPTIONS")
  then Some ({| http_status := 200; body := None |}, db)
  else if missing_required v
  then Some (failure 400 "Missing required fields", db)
  else (fun ob => handler env db {| method := m; payload := Json ob |}) <$> typed v.

End Wire.

Module MoreSamples.
Import JS StudyChat Samples Reactions Persistence Runs.

Definition empty_backend : Backend := {| study_sessions := []; chat_messages := [] |}.

Definition all_stored (new_id : string) : Replies :=
  {| session_reply := Created new_id; user_stored := true; ai_stored := true |}.

Definition plain_reply (text : string) : Invoke AIData :=
  Returned (Some {| ai_error := None; sessionAnalysis := None;
                    response := Some text |}) false.

(** A later reply of the assistant that reports one more weak area. *)
Definition later_reply : AIData := {|
  ai_error := None;
  sessionAnalysis :=
    Some {| sa_weakAreas := Some ["algebra"]; sa_strongAreas := None;
            sa_understanding := None; sa_topics := None |};
  response := Some "Aur practice karo."
|}.

(** Two messages sent one after the other. *)
Definition two_sends : list (Event * Replies) :=
  [ (SendMessage "physics ka doubt hai" None (plain_reply "Bata bhai!") 1000 2000,
     all_stored "sess-1");
    (SendMessage "newton ka second law" None (plain_reply "F = ma") 3000 4000,
     all_stored "sess-2") ].

(** The component and the backend after the two messages, sent by a
    signed-in student. *)
Definition two_sends_component : Component :=
  match run_saving (Some "student-7") (mount 0) empty_backend two_sends with
  | Some (c, _) => c
  | None => mount 0
  end.

Definition two_sends_backend : Backend :=
  match run_saving (Some "student-7") (mount 0) empty_backend two_sends with
  | Some (_, db) => db
  | None => empty_backend
  end.

(** A quiz of one multiple-choice question that lists no option. *)
Definition optionless_question : QuizQuestion := {|
  q_id := 1; q_type := mcq;
  question := "What is the capital of France?";
  options := None; correct_answer := "Paris";
  explanation := ""; difficulty := "easy"; q_topic := "Geography"
|}.

Definition optionless_reply : Invoke QuizData :=
  Returned (Some {| success := true; quiz_questions := Some [optionless_question] |})
    false.

(** The state once the learner has asked for the quiz above. *)
Definition blocked_quiz : State :=
  (handleEndStudyClick (initialState 0) optionless_reply 60000).1.

(** A short session: one question about physics, then the quiz of one
    true/false question, answered and closed. *)
Definition sample_events : list Event :=
  [ SendMessage "physics ka doubt hai" None (plain_reply "Bata bhai!") 1000 2000;
    ClickEndStudy one_question_reply 60000;
    ClickTrueFalse "True";
    ClickNext 90000 ].

(** The state after the first message, and after the quiz has started. *)
Definition sample_named : State :=
  (handleSendMessage (initialState 0) "physics ka doubt hai" None
     (plain_reply "Bata bhai!") 1000 2000).1.

Definition sample_quiz : State :=
  (handleEndStudyClick sample_named one_question_reply 60000).1.

(** The state the session ends in, and what it has handed to its parent. *)
Definition sample_final : State :=
  (handleNextQuestion (handleQuizAnswer sample_quiz "True") 90000).1.

Definition sample_effects : list Effect :=
  (handleNextQuestion (handleQuizAnswer sample_quiz "True") 90000).2.

Definition sample_summary : Summary := {|
  topic := "Physics";
  timeSpent := minutesSpent sample_quiz 90000;
  messages := st_messages sample_quiz;
  analysis := st_analysis sample_quiz;
  quizResult := Some (quizResult_of [true_false_question] ["True"])
|}.

End MoreSamples.

(** Sessions of the component with requests in flight. *)
Module LiveSamples.
Import JS StudyChat Samples Runs Live MoreSamples.

(** End Study is clicked first; the learner then sends a message that
    names a subject, and the quiz service fails. *)
Definition topic_after_end_click : list Action :=
  [ PressEndStudy;
    PressSend "physics ka doubt hai" None 1000;
    ReplyArrives (plain_reply "Bata bhai!") 2000;
    QuizArrives Threw 3000 ].

(** End Study is clicked while a message waits for its reply; the quiz
    starts before the reply arrives, and the learner goes through it. *)
Definition reply_during_quiz : list Action :=
  [ PressSend "physics ka doubt hai" None 1000;
    PressEndStudy;
    QuizArrives one_question_reply 60000;
    ReplyArrives (Returned (Some later_reply) false) 61000;
    ReplySaved;
    Panel (ClickTrueFalse "True");
    Panel (ClickNext 90000);
    TimerFires 93000 ].

(** The component once the quiz of [reply_during_quiz] has started. *)
Definition quiz_with_reply_pending : LiveComponent :=
  match live_run (mounted 0) (take 3 reply_during_quiz) with
  | Some (c, _) => c
  | None => mounted 0
  end.

Definition after_reply_during_quiz : LiveComponent :=
  match live_run (mounted 0) reply_during_quiz with
  | Some (c, _) => c
  | None => mounted 0
  end.

Definition effects_of (c : LiveComponent) (actions : list Action) : list Effect :=
  match live_run c actions with
  | Some (_, effs) => effs
  | None => []
  end.

(** The component after one message about physics and its reply. *)
Definition physics_shown : LiveComponent :=
  match live_run (mounted 0) [ PressSend "physics ka doubt hai" None 1000;
                               ReplyArrives (plain_reply "Bata bhai!") 2000;
                               ReplySaved ] with
  | Some (c, _) => c
  | None => mounted 0
  end.

(** End Study is then clicked, a second message sent, and the quiz service
    reports no quiz. *)
Definition end_without_quiz : list Action :=
  [ PressEndStudy;
    PressSend "ab maths" None 3000;
    QuizArrives empty_quiz_reply 4000;
    ReplyArrives (plain_reply "Theek hai.") 5000 ].

Definition after_end_without_quiz : LiveComponent :=
  match live_run physics_shown end_without_quiz with
  | Some (c, _) => c
  | None => physics_shown
  end.

(** A message of white space only: spaces, U+00A0 and U+3000. *)
Definition blank_message : string :=
  " " +:+ no_break_space +:+ ideographic_space +:+ " ".

End LiveSamples.

Module MoreApprovalSamples.
Import JS Approval ApprovalSamples.

(** A request that spells the action with a capital letter. *)
Definition capital_approve_body : Body := {|
  action := Some "Approve"; schoolId := Some "SCH001";
  schoolPassword := Some "secret"; studentId := Some "stu-1";
  rejectionReason := None
|}.

(** A request for a student the backend does not know. *)
Definition unknown_student_body : Body := {|
  action := Some "approve"; schoolId := Some "SCH001";
  schoolPassword := Some "secret"; studentId := Some "stu-9";
  rejectionReason := None
|}.

(** The backend of [sample_env] one day later. *)
Definition later_env : Env := {|
  SUPABASE_URL := Some "https://project.supabase.co";
  SUPABASE_SERVICE_ROLE_KEY := Some "service-role-key";
  now_iso := "2026-01-01T04:56:44.000Z";
  school_lookup_fails := false;
  student_lookup_fails := false;
  update_fails := false
|}.

(** A request whose action is the number 0, and a well-typed one. *)
Definition zero_action_value : Wire.Parsed :=
  Wire.PObject [ ("action", Wire.VNumber (Z2SF 0));
                 ("schoolId", Wire.VString "SCH001");
                 ("schoolPassword", Wire.VString "secret");
                 ("studentId", Wire.VString "stu-1") ].

Definition approve_value : Wire.Parsed :=
  Wire.PObject [ ("action", Wire.VString "approve");
                 ("schoolId", Wire.VString "SCH001");
                 ("schoolPassword", Wire.VString "secret");
                 ("studentId", Wire.VString "stu-1") ].

End MoreApprovalSamples.

(** * Properties *)

(** ** Binary64 arithmetic: rounding, conversion, division, product *)

Module NumberFacts.
Import JS NumberValue.

(** *** Bit lengths and right shifts *)

(** [digits2_pos p] is the bit length of [p]. *)
Lemma digits2_pos_bounds (p : positive) :
  2 ^ (Z.pos (digits2_pos p) - 1) <= Z.pos p < 2 ^ Z.pos (digits2_pos p).
Proof.
  induction p as [p IH | p IH |]; cbn [digits2_pos].
  - rewrite Pos2Z.inj_succ.
    replace (Z.succ (Z.pos (digits2_pos p)) - 1) with (Z.succ (Z.pos (digits2_pos p) - 1)) by lia.
    rewrite !Z.pow_succ_r by lia. lia.
  - rewrite Pos2Z.inj_succ.
    replace (Z.succ (Z.pos (digits2_pos p)) - 1) with (Z.succ (Z.pos (digits2_pos p) - 1)) by lia.
    rewrite !Z.pow_succ_r by lia. lia.
  - cbn. lia.
Qed.

Lemma Zdigits2_unique (m d : Z) :
  2 ^ (d - 1) <= m < 2 ^ d -> 0 < d -> Zdigits2 m = d.
Proof.
  intros [Hlo Hhi] Hd.
  assert (0 < m) by (pose proof (Z.pow_pos_nonneg 2 (d - 1)); lia).
  destruct m as [|p|p]; try lia. cbn [Zdigits2].
  pose proof (digits2_pos_bounds p) as [Hl Hh].
  set (d' := Z.pos (digits2_pos p)) in *.
  destruct (Z.lt_trichotomy d' d) as [Hlt | [Heq | Hgt]]; [|exact Heq|].
  - assert (2 ^ d' <= 2 ^ (d - 1)) by (apply Z.pow_le_mono_r; lia). lia.
  - assert (2 ^ d <= 2 ^ (d' - 1)) by (apply Z.pow_le_mono_r; lia). lia.
Qed.

(** Shifting a rounding record right halves its mantissa, whatever its
    round and sticky bits are. *)
Lemma shr_1_m (mrs : shr_record) :
  0 <= shr_m mrs -> shr_m (shr_1 mrs) = shr_m mrs / 2.
Proof.
  destruct mrs as [m r s]. cbn [shr_m]. intros Hm.
  destruct m as [|[p|p|]|p]; cbn [shr_1 shr_m]; try lia.
  - reflexivity.
  - rewrite (Pos2Z.inj_xI p). apply Z.div_unique with (r := 1); lia.
  - rewrite (Pos2Z.inj_xO p). apply Z.div_unique with (r := 0); lia.
  - reflexivity.
Qed.

Lemma shr_iter_m (p : positive) : forall mrs : shr_record,
  0 <= shr_m mrs -> shr_m (SpecFloat.iter_pos shr_1 p mrs) = shr_m mrs / 2 ^ Z.pos p.
Proof.
  assert (Hnn : forall q mrs, 0 <= shr_m mrs ->
     (forall mrs, 0 <= shr_m mrs -> shr_m (SpecFloat.iter_pos shr_1 q mrs) = shr_m mrs / 2 ^ Z.pos q) ->
     0 <= shr_m (SpecFloat.iter_pos shr_1 q mrs)).
  { intros q mrs H IH. rewrite IH by assumption. apply Z.div_pos; [assumption|]. apply Z.pow_pos_nonneg; lia. }
  induction p as [p IH | p IH |]; intros mrs Hm; cbn [SpecFloat.iter_pos].
  - assert (H1 : 0 <= shr_m (shr_1 mrs)) by (rewrite shr_1_m by assumption; apply Z.div_pos; lia).
    rewrite IH by (apply Hnn; assumption). rewrite IH by assumption.
    rewrite shr_1_m by assumption.
    rewrite !Z.div_div by (try apply Z.pow_pos_nonneg; lia).
    f_equal. rewrite (Pos2Z.inj_xI p), Z.pow_add_r, Z.pow_twice_r, Z.pow_1_r by lia. ring.
  - rewrite IH by (apply Hnn; assumption). rewrite IH by assumption.
    rewrite !Z.div_div by (try apply Z.pow_pos_nonneg; lia).
    f_equal. rewrite (Pos2Z.inj_xO p), Z.pow_twice_r. ring.
  - apply shr_1_m; assumption.
Qed.

Lemma shr_spec (m : Z) (l : location) (e n : Z) :
  0 <= m -> 0 <= n ->
  exists r, shr (shr_record_of_loc m l) e n = (r, e + n) /\ shr_m r = m / 2 ^ n.
Proof.
  intros Hm Hn.
  assert (Hrec : shr_m (shr_record_of_loc m l) = m) by (destruct l as [|[]]; reflexivity).
  destruct n as [|p|p]; try lia.
  - exists (shr_record_of_loc m l). cbn [shr]. rewrite Z.add_0_r, Hrec, Z.pow_0_r, Z.div_1_r. split; reflexivity.
  - exists (SpecFloat.iter_pos shr_1 p (shr_record_of_loc m l)). cbn [shr]. split; [reflexivity|].
    rewrite shr_iter_m by lia. rewrite Hrec. reflexivity.
Qed.

(** Rounding to nearest even keeps the truncated mantissa or adds one. *)
Lemma round_nearest_even_range (m : Z) (l : location) :
  m <= round_nearest_even m l <= m + 1.
Proof.
  destruct l as [|[]]; cbn [round_nearest_even]; try lia.
  destruct (Z.even m); lia.
Qed.

Lemma Zdigits2_bounds (m : Z) :
  0 < m -> 2 ^ (Zdigits2 m - 1) <= m < 2 ^ Zdigits2 m.
Proof. destruct m as [|p|p]; try lia. intros _. apply digits2_pos_bounds. Qed.

Lemma fexp_normal (e : Z) : -1074 <= e - 53 -> fexp prec emax e = e - 53.
Proof. unfold fexp, emin, prec, emax. lia. Qed.

(** *** One rounding

    A positive mantissa of at least 53 bits, in the normal range, is rounded
    to a 53-bit mantissa that is at most one unit in the last place away. *)
Lemma binary_round_aux_spec (sx : bool) (mx ex : Z) (lx : location) :
  0 < mx -> 53 <= Zdigits2 mx ->
  -1074 <= Zdigits2 mx + ex - 53 -> Zdigits2 mx + ex - 53 < 971 ->
  exists (m : positive) (k : Z),
    binary_round_aux prec emax sx mx ex lx = S754_finite sx m (ex + k) /\
    2 ^ 52 <= Z.pos m < 2 ^ 53 /\
    Zdigits2 mx - 53 <= k <= Zdigits2 mx - 52 /\
    (Z.pos m - 1) * 2 ^ k <= mx <= (Z.pos m + 1) * 2 ^ k.
Proof.
  intros Hpos Hd Hlo Hhi.
  pose proof (Zdigits2_bounds mx Hpos) as [Hml Hmh].
  set (d := Zdigits2 mx) in *. set (s := d - 53).
  assert (HP : 0 < 2 ^ s) by (apply Z.pow_pos_nonneg; lia).
  assert (Hd1 : 2 ^ (d - 1) = 2 ^ s * 2 ^ 52)
    by (rewrite <- Z.pow_add_r by lia; f_equal; lia).
  assert (Hd2 : 2 ^ d = 2 ^ s * 2 ^ 53)
    by (rewrite <- Z.pow_add_r by lia; f_equal; lia).
  unfold binary_round_aux, shr_fexp. fold d.
  rewrite (fexp_normal (d + ex)) by lia.
  replace (d + ex - 53 - ex) with s by lia.
  destruct (shr_spec mx lx ex s) as (r1 & E1 & M1); [lia | lia |].
  rewrite E1.
  pose proof (round_nearest_even_range (shr_m r1) (loc_of_shr_record r1)) as Hrne.
  set (m1 := round_nearest_even (shr_m r1) (loc_of_shr_record r1)) in *.
  rewrite M1 in Hrne.
  assert (Hq1 : 2 ^ 52 <= mx / 2 ^ s) by (apply Z.div_le_lower_bound; lia).
  assert (Hq2 : mx / 2 ^ s < 2 ^ 53) by (apply Z.div_lt_upper_bound; lia).
  pose proof (Z.mul_div_le mx (2 ^ s) HP) as Hq3.
  pose proof (Z.mul_succ_div_gt mx (2 ^ s) HP) as Hq4.
  set (q := mx / 2 ^ s) in *.
  destruct (Z_lt_le_dec m1 (2 ^ 53)) as [Hlt | Hge].
  - assert (Hd53 : Zdigits2 m1 = 53) by (apply Zdigits2_unique; lia).
    rewrite Hd53, (fexp_normal (53 + (ex + s))) by lia.
    replace (53 + (ex + s) - 53 - (ex + s)) with 0 by lia.
    destruct (shr_spec m1 loc_Exact (ex + s) 0) as (r2 & E2 & M2); [lia | lia |].
    rewrite E2, M2, Z.pow_0_r, Z.div_1_r.
    destruct m1 as [|p|p] eqn:Em1; try lia.
    exists p, s. replace (ex + s + 0) with (ex + s) by lia.
    assert (Hle : (ex + s <=? emax - prec) = true) by (apply Z.leb_le; unfold emax, prec; lia).
    rewrite Hle. repeat split; try lia; nia.
  - assert (Em1 : m1 = 2 ^ 53) by lia.
    assert (Hd54 : Zdigits2 m1 = 54) by (rewrite Em1; reflexivity).
    rewrite Hd54, (fexp_normal (54 + (ex + s))) by lia.
    replace (54 + (ex + s) - 53 - (ex + s)) with 1 by lia.
    destruct (shr_spec m1 loc_Exact (ex + s) 1) as (r2 & E2 & M2); [lia | lia |].
    rewrite E2, M2, Em1.
    change (2 ^ 53 / 2 ^ 1) with (Z.pos (2 ^ 52)).
    exists (2 ^ 52)%positive, (s + 1). replace (ex + s + 1) with (ex + (s + 1)) by lia.
    assert (Hle : (ex + (s + 1) <=? emax - prec) = true) by (apply Z.leb_le; unfold emax, prec; lia).
    rewrite Hle.
    assert (Hs1 : 2 ^ (s + 1) = 2 * 2 ^ s) by (rewrite Z.pow_add_r by lia; lia).
    rewrite Hs1.
    assert (Hq5 : (2 ^ 53 - 1) * 2 ^ s <= q * 2 ^ s)
      by (apply Z.mul_le_mono_nonneg_r; lia).
    change (Z.pos (2 ^ 52)) with (2 ^ 52).
    repeat split; try lia.
Qed.


(** The same bound on values, as a relative error of [2^-52]. *)
Lemma pow2_pos (e : Z) : (0 < pow2 e)%Q.
Proof. apply Qpower_0_lt. reflexivity. Qed.

Lemma pow2_add (a b : Z) : (pow2 (a + b) == pow2 a * pow2 b)%Q.
Proof. apply Qpower_plus. discriminate. Qed.

Lemma pow2_Z (k : Z) : 0 <= k -> (pow2 k == inject_Z (2 ^ k))%Q.
Proof. intros Hk. rewrite Zpower_Qpower by assumption. reflexivity. Qed.

Lemma F2Q_shift (m e k : Z) : 0 <= k -> (F2Q (m * 2 ^ k) e == F2Q m (e + k))%Q.
Proof.
  intros Hk. unfold F2Q.
  rewrite inject_Z_mult, pow2_add, (pow2_Z k Hk). ring.
Qed.

Lemma Z_ineq_Q (a b : Z) : a <= b -> (inject_Z a <= inject_Z b)%Q.
Proof. rewrite Zle_Qle. trivial. Qed.

Lemma binary_round_aux_rel (sx : bool) (mx ex : Z) (lx : location) :
  0 < mx -> 53 <= Zdigits2 mx ->
  -1074 <= Zdigits2 mx + ex - 53 -> Zdigits2 mx + ex - 53 < 971 ->
  exists (m : positive) (e : Z),
    binary_round_aux prec emax sx mx ex lx = S754_finite sx m e /\
    2 ^ 52 <= Z.pos m < 2 ^ 53 /\
    Zdigits2 mx + ex - 53 <= e <= Zdigits2 mx + ex - 52 /\
    ((1 - u52) * F2Q (Z.pos m) e <= F2Q mx ex <= (1 + u52) * F2Q (Z.pos m) e)%Q.
Proof.
  intros Hpos Hd Hlo Hhi.
  destruct (binary_round_aux_spec sx mx ex lx Hpos Hd Hlo Hhi)
    as (m & k & Heq & Hm & Hk & Hb1 & Hb2).
  exists m, (ex + k). split; [exact Heq|]. split; [exact Hm|]. split; [lia|].
  assert (Hk0 : 0 <= k) by lia.
  rewrite <- (F2Q_shift (Z.pos m) ex k Hk0). unfold F2Q.
  apply Z_ineq_Q in Hb1, Hb2.
  assert (Hw : (inject_Z (2 ^ 52 * 2 ^ k) <= inject_Z (Z.pos m * 2 ^ k))%Q).
  { apply Z_ineq_Q. apply Z.mul_le_mono_nonneg_r; [apply Z.pow_nonneg|]; lia. }
  replace ((Z.pos m - 1) * 2 ^ k) with (Z.pos m * 2 ^ k - 2 ^ k) in Hb1 by ring.
  replace ((Z.pos m + 1) * 2 ^ k) with (Z.pos m * 2 ^ k + 2 ^ k) in Hb2 by ring.
  unfold Z.sub in Hb1. rewrite inject_Z_plus, inject_Z_opp in Hb1.
  rewrite inject_Z_plus in Hb2. rewrite (inject_Z_mult (2 ^ 52)) in Hw.
  set (V := inject_Z (Z.pos m * 2 ^ k)) in *.
  set (W := inject_Z (2 ^ k)) in *.
  set (X := inject_Z mx) in *.
  pose proof (pow2_pos ex) as HT. set (T := pow2 ex) in *.
  change (inject_Z (2 ^ 52)) with (4503599627370496 # 1)%Q in Hw.
  unfold u52. change (2 ^ 52)%positive with 4503599627370496%positive.
  split.
  - rewrite Qmult_assoc. apply Qmult_le_compat_r; lra.
  - rewrite Qmult_assoc. apply Qmult_le_compat_r; lra.
Qed.

(** *** Integers held in numbers

    A 53-bit mantissa with no lost bit is returned as it is. *)
Lemma binary_round_aux_exact (sx : bool) (m : positive) (ex : Z) :
  Zdigits2 (Z.pos m) = 53 -> -1074 <= ex -> ex <= 971 ->
  binary_round_aux prec emax sx (Z.pos m) ex loc_Exact = S754_finite sx m ex.
Proof.
  intros Hd Hlo Hhi.
  unfold binary_round_aux, shr_fexp. rewrite Hd.
  rewrite (fexp_normal (53 + ex)) by lia.
  replace (53 + ex - 53 - ex) with 0 by lia.
  cbn [shr shr_record_of_loc shr_m loc_of_shr_record round_nearest_even].
  rewrite Hd, (fexp_normal (53 + ex)) by lia.
  replace (53 + ex - 53 - ex) with 0 by lia.
  cbn [shr shr_record_of_loc shr_m].
  assert (Hle : (ex <=? emax - prec) = true) by (apply Z.leb_le; unfold emax, prec; lia).
  rewrite Hle. reflexivity.
Qed.

Lemma Pos_iter_xO (p d : positive) :
  Z.pos (Pos.iter xO p d) = Z.pos p * 2 ^ Z.pos d.
Proof.
  induction d as [|d IH] using Pos.peano_ind.
  - cbn [Pos.iter]. rewrite (Pos2Z.inj_xO p). change (2 ^ 1) with 2. ring.
  - rewrite Pos.iter_succ, (Pos2Z.inj_xO (Pos.iter xO p d)), IH.
    rewrite Pos2Z.inj_succ, Z.pow_succ_r by lia. ring.
Qed.

(** A positive integer below [2^53] is held exactly, with a normalised
    mantissa. *)
Lemma Z2SF_spec (z : Z) :
  0 < z < 2 ^ 53 ->
  exists (m : positive) (e : Z),
    Z2SF z = S754_finite false m e /\
    2 ^ 52 <= Z.pos m < 2 ^ 53 /\
    e = Zdigits2 z - 53 /\ -52 <= e <= 0 /\
    Z.pos m = z * 2 ^ (- e).
Proof.
  intros [Hz1 Hz2]. destruct z as [|p|p]; try lia.
  pose proof (digits2_pos_bounds p) as [Hl Hh].
  unfold Z2SF, binary_normalize, binary_round, shl_align.
  cbn [Zdigits2]. set (d := Z.pos (digits2_pos p)) in *.
  assert (Hd53 : d <= 53).
  { destruct (Z_le_gt_dec d 53) as [H|H]; [exact H|].
    assert (2 ^ 53 <= 2 ^ (d - 1)) by (apply Z.pow_le_mono_r; lia). lia. }
  assert (Hd1 : 1 <= d) by (unfold d; lia).
  rewrite (fexp_normal (d + 0)) by lia.
  destruct (d + 0 - 53 - 0) as [|q|q] eqn:Es; try lia.
  - assert (Ed : d = 53) by lia.
    exists p, 0. rewrite binary_round_aux_exact by (cbn [Zdigits2]; fold d; lia).
    rewrite Ed in *. repeat split; try lia.
  - assert (Ed : d - 53 = Z.neg q) by lia.
    assert (Hq : Z.pos q = 53 - d) by lia.
    assert (Hm : Z.pos (Pos.iter xO p q) = Z.pos p * 2 ^ (53 - d))
      by (rewrite Pos_iter_xO, Hq; reflexivity).
    assert (Hp52 : 2 ^ 52 = 2 ^ (d - 1) * 2 ^ (53 - d))
      by (rewrite <- Z.pow_add_r by lia; f_equal; lia).
    assert (Hp53 : 2 ^ 53 = 2 ^ d * 2 ^ (53 - d))
      by (rewrite <- Z.pow_add_r by lia; f_equal; lia).
    assert (HP : 0 < 2 ^ (53 - d)) by (apply Z.pow_pos_nonneg; lia).
    assert (Hrange : 2 ^ 52 <= Z.pos (Pos.iter xO p q) < 2 ^ 53).
    { rewrite Hm, Hp52, Hp53. split.
      - apply Z.mul_le_mono_nonneg_r; lia.
      - apply Z.mul_lt_mono_pos_r; lia. }
    exists (Pos.iter xO p q), (d + 0 - 53).
    rewrite binary_round_aux_exact; [| apply Zdigits2_unique; lia | lia | lia].
    repeat split; try lia.
    rewrite Hm. f_equal. f_equal. lia.
Qed.

Lemma Z2SF_value (z : Z) (m : positive) (e : Z) :
  -52 <= e <= 0 -> Z.pos m = z * 2 ^ (- e) -> (F2Q (Z.pos m) e == inject_Z z)%Q.
Proof.
  intros He Hm. rewrite Hm, F2Q_shift by lia.
  unfold F2Q. replace (e + - e) with 0 by lia. change (pow2 0) with 1%Q. ring.
Qed.

Lemma Zdigits2_range (m a b : Z) :
  0 <= a -> 2 ^ a <= m < 2 ^ b -> a < Zdigits2 m <= b.
Proof.
  intros Ha [Hl Hh].
  assert (Hm : 0 < m) by (pose proof (Z.pow_pos_nonneg 2 a); lia).
  pose proof (Zdigits2_bounds m Hm) as [Hdl Hdh].
  assert (Hdpos : 0 < Zdigits2 m) by (destruct m; cbn; lia).
  split.
  - destruct (Z_lt_le_dec a (Zdigits2 m)) as [H|H]; [exact H|].
    assert (2 ^ Zdigits2 m <= 2 ^ a) by (apply Z.pow_le_mono_r; lia). lia.
  - destruct (Z_le_gt_dec (Zdigits2 m) b) as [H|H]; [exact H|].
    assert (2 ^ b <= 2 ^ (Zdigits2 m - 1)) by (apply Z.pow_le_mono_r; lia). lia.
Qed.

(** *** Quotient and product of two normal numbers

    Both operands are positive, with full 53-bit mantissas and exponents far
    from the ends of the range; the result is then within a few units of
    [2^-52], relatively, of the exact quotient or product. *)

Section NormalOperands.

Variables (mx my : positive) (ex ey : Z).
Hypothesis Hmx : 2 ^ 52 <= Z.pos mx < 2 ^ 53.
Hypothesis Hmy : 2 ^ 52 <= Z.pos my < 2 ^ 53.
Hypothesis Hex : -400 <= ex <= 400.
Hypothesis Hey : -400 <= ey <= 400.

Lemma SFdiv_rel :
  exists (m : positive) (e : Z),
    SFdiv prec emax (S754_finite false mx ex) (S754_finite false my ey)
      = S754_finite false m e /\
    2 ^ 52 <= Z.pos m < 2 ^ 53 /\
    ex - ey - 53 <= e <= ex - ey - 51 /\
    ((1 - u52) * (F2Q (Z.pos m) e * F2Q (Z.pos my) ey) <= F2Q (Z.pos mx) ex)%Q /\
    (F2Q (Z.pos mx) ex <=
       (1 + u52) * (1 + u52) * (F2Q (Z.pos m) e * F2Q (Z.pos my) ey))%Q.
Proof.
  unfold SFdiv, SFdiv_core_binary. cbn [xorb].
  rewrite (Zdigits2_unique (Z.pos mx) 53), (Zdigits2_unique (Z.pos my) 53) by lia.
  rewrite (fexp_normal (53 + ex - (53 + ey))) by lia.
  rewrite Z.min_l by lia.
  replace (ex - ey - (53 + ex - (53 + ey) - 53)) with 53 by lia.
  replace (53 + ex - (53 + ey) - 53) with (ex - ey - 53) by lia.
  cbv iota. rewrite Z.shiftl_mul_pow2 by lia.
  set (n := Z.pos mx * 2 ^ 53).
  pose proof (Z.div_eucl_eq n (Z.pos my) ltac:(lia)) as Heucl.
  pose proof (Z.mod_pos_bound n (Z.pos my) ltac:(lia)) as Hmod.
  unfold Z.modulo in Hmod.
  destruct (Z.div_eucl n (Z.pos my)) as [q r].
  assert (Hq1 : 2 ^ 52 <= q) by (unfold n in *; nia).
  assert (Hq2 : q < 2 ^ 54) by (unfold n in *; nia).
  assert (Hdq : 52 < Zdigits2 q <= 54) by (apply Zdigits2_range; lia).
  destruct (binary_round_aux_rel false q (ex - ey - 53) (new_location (Z.pos my) r))
    as (m & e & Heq & Hm & He & Hr1 & Hr2); try lia.
  exists m, e. split; [exact Heq|]. split; [exact Hm|]. split; [lia|].
  (* value bookkeeping *)
  pose proof (pow2_pos (ex - 53)) as HT.
  assert (HX : (F2Q (Z.pos mx) ex == inject_Z n * pow2 (ex - 53))%Q).
  { unfold n. fold (F2Q (Z.pos mx * 2 ^ 53) (ex - 53)). rewrite F2Q_shift by lia.
    replace (ex - 53 + 53) with ex by lia. reflexivity. }
  assert (HA : (F2Q q (ex - ey - 53) * F2Q (Z.pos my) ey
                == inject_Z (q * Z.pos my) * pow2 (ex - 53))%Q).
  { unfold F2Q. rewrite inject_Z_mult.
    replace (ex - 53) with ((ex - ey - 53) + ey) by lia. rewrite pow2_add. ring. }
  assert (HY : (0 < F2Q (Z.pos my) ey)%Q).
  { unfold F2Q. apply Qmult_lt_0_compat; [|apply pow2_pos].
    change 0%Q with (inject_Z 0). rewrite <- Zlt_Qlt. lia. }
  assert (Hz1 : (inject_Z (q * Z.pos my) <= inject_Z n)%Q) by (apply Z_ineq_Q; lia).
  assert (Hz2 : (inject_Z n <= inject_Z (q * Z.pos my) + inject_Z (Z.pos my))%Q)
    by (rewrite <- inject_Z_plus; apply Z_ineq_Q; lia).
  assert (Hz3 : (inject_Z (2 ^ 52) * inject_Z (Z.pos my) <= inject_Z (q * Z.pos my))%Q)
    by (rewrite <- inject_Z_mult; apply Z_ineq_Q; nia).
  change (inject_Z (2 ^ 52)) with (4503599627370496 # 1)%Q in Hz3.
  assert (HA1 : (F2Q q (ex - ey - 53) * F2Q (Z.pos my) ey <= F2Q (Z.pos mx) ex)%Q).
  { rewrite HA, HX. apply Qmult_le_compat_r; lra. }
  assert (HA2 : (F2Q (Z.pos mx) ex
                 <= (1 + u52) * (F2Q q (ex - ey - 53) * F2Q (Z.pos my) ey))%Q).
  { rewrite HA, HX, Qmult_assoc. apply Qmult_le_compat_r; [|lra].
    unfold u52. change (2 ^ 52)%positive with 4503599627370496%positive. lra. }
  assert (HB1 : ((1 - u52) * F2Q (Z.pos m) e * F2Q (Z.pos my) ey
                 <= F2Q q (ex - ey - 53) * F2Q (Z.pos my) ey)%Q)
    by (apply Qmult_le_compat_r; lra).
  assert (HB2 : (F2Q q (ex - ey - 53) * F2Q (Z.pos my) ey
                 <= (1 + u52) * F2Q (Z.pos m) e * F2Q (Z.pos my) ey)%Q)
    by (apply Qmult_le_compat_r; lra).
  set (A := (F2Q q (ex - ey - 53) * F2Q (Z.pos my) ey)%Q) in *.
  set (R := F2Q (Z.pos m) e) in *. set (Y := F2Q (Z.pos my) ey) in *.
  set (X := F2Q (Z.pos mx) ex) in *.
  unfold u52 in *. change (2 ^ 52)%positive with 4503599627370496%positive in *.
  split; nra.
Qed.

Lemma SFmul_rel :
  exists (m : positive) (e : Z),
    SFmul prec emax (S754_finite false mx ex) (S754_finite false my ey)
      = S754_finite false m e /\
    2 ^ 52 <= Z.pos m < 2 ^ 53 /\
    ex + ey + 52 <= e <= ex + ey + 54 /\
    ((1 - u52) * F2Q (Z.pos m) e <= F2Q (Z.pos mx) ex * F2Q (Z.pos my) ey)%Q /\
    (F2Q (Z.pos mx) ex * F2Q (Z.pos my) ey <= (1 + u52) * F2Q (Z.pos m) e)%Q.
Proof.
  unfold SFmul. cbn [xorb]. rewrite Pos2Z.inj_mul.
  assert (H104 : 2 ^ 104 <= Z.pos mx * Z.pos my) by nia.
  assert (H106 : Z.pos mx * Z.pos my < 2 ^ 106) by nia.
  assert (Hd : 104 < Zdigits2 (Z.pos mx * Z.pos my) <= 106)
    by (apply Zdigits2_range; lia).
  destruct (binary_round_aux_rel false (Z.pos mx * Z.pos my) (ex + ey) loc_Exact)
    as (m & e & Heq & Hm & He & Hr1 & Hr2); try lia.
  exists m, e. split; [exact Heq|]. split; [exact Hm|]. split; [lia|].
  assert (HP : (F2Q (Z.pos mx * Z.pos my) (ex + ey)
                == F2Q (Z.pos mx) ex * F2Q (Z.pos my) ey)%Q).
  { unfold F2Q. rewrite inject_Z_mult, pow2_add. ring. }
  rewrite <- HP. split; assumption.
Qed.

End NormalOperands.


(** *** [Math.round] and the percentage

    On a positive number with a negative exponent [Math.round] returns the
    integer [r] with [r <= x + 1/2 < r + 1]. *)
Lemma Math_round_pos (m : positive) (e : Z) :
  e < 0 ->
  exists r : Z,
    Math_round (S754_finite false m e) = Z2SF r /\
    (inject_Z r <= F2Q (Z.pos m) e + (1 # 2))%Q /\
    (F2Q (Z.pos m) e + (1 # 2) < inject_Z r + 1)%Q.
Proof.
  intros He. destruct e as [|p|p]; try lia.
  cbn [Math_round].
  set (r := (2 * Z.pos m + 2 ^ Z.pos p) / 2 ^ (Z.pos p + 1)).
  exists r. split.
  - destruct r; reflexivity.
  - assert (HP : 0 < 2 ^ (Z.pos p + 1)) by (apply Z.pow_pos_nonneg; lia).
    pose proof (Z.mul_div_le (2 * Z.pos m + 2 ^ Z.pos p) _ HP) as H1.
    pose proof (Z.mul_succ_div_gt (2 * Z.pos m + 2 ^ Z.pos p) _ HP) as H2.
    fold r in H1, H2.
    rewrite Z.pow_add_r, Z.pow_1_r in H1, H2 by lia.
    assert (HT : 0 < 2 ^ Z.pos p) by (apply Z.pow_pos_nonneg; lia).
    assert (HV : (F2Q (Z.pos m) (Z.neg p) * inject_Z (2 ^ Z.pos p) == inject_Z (Z.pos m))%Q).
    { unfold F2Q. rewrite <- (pow2_Z (Z.pos p)) by lia.
      rewrite <- Qmult_assoc, <- pow2_add.
      replace (Z.neg p + Z.pos p) with 0 by lia. change (pow2 0) with 1%Q. ring. }
    apply Z_ineq_Q in H1. rewrite Zlt_Qlt in H2, HT.
    replace (Z.succ r) with (r + 1) in H2 by lia.
    rewrite !inject_Z_mult, !inject_Z_plus, ?inject_Z_mult in H1, H2.
    change (inject_Z 2) with 2%Q in *. change (inject_Z 1) with 1%Q in *.
    change (inject_Z 0) with 0%Q in *.
    set (T := inject_Z (2 ^ Z.pos p)) in *.
    set (V := F2Q (Z.pos m) (Z.neg p)) in *.
    set (M := inject_Z (Z.pos m)) in *.
    rewrite (inject_Z_plus r 1) in H2. change (inject_Z 1) with 1%Q in H2.
    set (Rq := inject_Z r) in *.
    clearbody T V M Rq.
    assert (H2T : (0 < 2 * T)%Q) by lra.
    split.
    + apply (Qmult_le_r _ _ (2 * T) H2T). nra.
    + apply (Qmult_lt_r _ _ (2 * T) H2T). nra.
Qed.


(** [Math.round((c / n) * 100)] for integers [0 <= c <= n < 2^32]: the
    two roundings move the percentage by less than [1 / (2 * n)], so the
    result is an integer within one half of [100 * c / n]. *)
Lemma percent_round_nearest (c n : Z) :
  0 <= c <= n -> 0 < n < 2 ^ 32 ->
  exists a : Z, Math_round (Num_mul (Num_div (Z2SF c) (Z2SF n)) (Z2SF 100)) = Z2SF a /\ - n <= 2 * (a * n - 100 * c) <= n.
Proof.
  intros Hc Hn. unfold Num_mul, Num_div.
  destruct (Z2SF_spec n) as (mn & en & En & Hmn & Hen & Hen' & Hvn); [lia|].
  destruct (Z.eq_dec c 0) as [-> | Hc0].
  - exists 0. rewrite En. split; [reflexivity | lia].
  - destruct (Z2SF_spec c) as (mc & ec & Ec & Hmc & Hec & Hec' & Hvc); [lia|].
    rewrite En, Ec.
    destruct (SFdiv_rel mc mn ec en) as (m1 & e1 & E1 & Hm1 & He1 & Hd1 & Hd2); try lia.
    rewrite E1.
    replace (Z2SF 100) with (S754_finite false 7036874417766400 (-46)) by reflexivity.
    destruct (SFmul_rel m1 7036874417766400 e1 (-46))
      as (m2 & e2 & E2 & Hm2 & He2 & Hp1 & Hp2); try lia.
    rewrite E2.
    assert (Hdig : Zdigits2 c <= Zdigits2 n).
    { pose proof (Zdigits2_bounds n ltac:(lia)) as [_ Hnh].
      apply (Zdigits2_range c 0 (Zdigits2 n)); [lia|]. change (2 ^ 0) with 1. lia. }
    destruct (Math_round_pos m2 e2) as (a & Ea & Ha1 & Ha2); [lia|].
    exists a. split; [exact Ea|].
    pose proof (Z2SF_value c mc ec Hec' Hvc) as Vc.
    pose proof (Z2SF_value n mn en Hen' Hvn) as Vn.
    assert (V100 : (F2Q 7036874417766400 (-46) == 100)%Q) by reflexivity.
    rewrite Vc, Vn in Hd1, Hd2. rewrite V100 in Hp1, Hp2.
    assert (HN : (0 < inject_Z n)%Q) by (change 0%Q with (inject_Z 0); rewrite <- Zlt_Qlt; lia).
    assert (HCN : (inject_Z c <= inject_Z n)%Q) by (apply Z_ineq_Q; lia).
    assert (HC0 : (0 <= inject_Z c)%Q) by (change 0%Q with (inject_Z 0); apply Z_ineq_Q; lia).
    assert (HN32 : (inject_Z n <= 4294967296)%Q)
      by (change 4294967296%Q with (inject_Z (2 ^ 32)); apply Z_ineq_Q; lia).
    set (R1 := F2Q (Z.pos m1) e1) in *. set (R2 := F2Q (Z.pos m2) e2) in *.
    set (N := inject_Z n) in *. set (C := inject_Z c) in *. set (A := inject_Z a) in *.
    assert (Hp1N : ((1 - u52) * (R2 * N) <= 100 * (R1 * N))%Q).
    { setoid_replace ((1 - u52) * (R2 * N))%Q with (((1 - u52) * R2) * N)%Q using relation Qeq by ring.
      setoid_replace (100 * (R1 * N))%Q with ((R1 * 100) * N)%Q using relation Qeq by ring.
      apply Qmult_le_compat_r; lra. }
    assert (Hp2N : (100 * (R1 * N) <= (1 + u52) * (R2 * N))%Q).
    { setoid_replace ((1 + u52) * (R2 * N))%Q with (((1 + u52) * R2) * N)%Q using relation Qeq by ring.
      setoid_replace (100 * (R1 * N))%Q with ((R1 * 100) * N)%Q using relation Qeq by ring.
      apply Qmult_le_compat_r; lra. }
    assert (Ha1N : (A * N <= R2 * N + (1 # 2) * N)%Q).
    { setoid_replace (R2 * N + (1 # 2) * N)%Q with ((R2 + (1 # 2)) * N)%Q using relation Qeq by ring.
      apply Qmult_le_compat_r; lra. }
    assert (Ha2N : (R2 * N + (1 # 2) * N < A * N + N)%Q).
    { setoid_replace (R2 * N + (1 # 2) * N)%Q with ((R2 + (1 # 2)) * N)%Q using relation Qeq by ring.
      setoid_replace (A * N + N)%Q with ((A + 1) * N)%Q using relation Qeq by ring.
      apply Qmult_lt_compat_r; lra. }
    set (R1N := (R1 * N)%Q) in *. set (R2N := (R2 * N)%Q) in *. set (AN := (A * N)%Q) in *.
    unfold u52 in *. change (2 ^ 52)%positive with 4503599627370496%positive in *.
    assert (G1 : (2 * AN - 200 * C - N < 1)%Q) by lra.
    assert (G2 : (200 * C - 2 * AN - N < 1)%Q) by lra.
    assert (G1z : 2 * (a * n) - 200 * c - n < 1).
    { rewrite Zlt_Qlt. unfold Z.sub.
      rewrite !inject_Z_plus, !inject_Z_opp, !inject_Z_mult. exact G1. }
    assert (G2z : 200 * c - 2 * (a * n) - n < 1).
    { rewrite Zlt_Qlt. unfold Z.sub.
      rewrite !inject_Z_plus, !inject_Z_opp, !inject_Z_mult. exact G2. }
    lia.
Qed.

(** *** Comparison with an integer threshold *)

Lemma F2Q_le_iff (a b e : Z) : (F2Q a e <= F2Q b e)%Q <-> a <= b.
Proof.
  unfold F2Q. rewrite Qmult_le_r by apply pow2_pos. rewrite <- Zle_Qle. reflexivity.
Qed.

Lemma canonical_digits (m : positive) (e : Z) :
  canonical_mantissa prec emax m e = true ->
  Z.pos m < 2 ^ 53 /\ (-1074 < e -> 2 ^ 52 <= Z.pos m).
Proof.
  unfold canonical_mantissa, fexp, emin, prec, emax. intros H.
  apply Z.eqb_eq in H.
  pose proof (digits2_pos_bounds m) as [Hl Hh].
  set (d := Z.pos (digits2_pos m)) in *.
  assert (Hd0 : 0 < d) by (unfold d; lia).
  split.
  - assert (d <= 53) by lia.
    assert (2 ^ d <= 2 ^ 53) by (apply Z.pow_le_mono_r; lia). lia.
  - intros He. assert (d = 53) by lia.
    replace (d - 1) with 52 in Hl by lia. exact Hl.
Qed.

Lemma Z2SF_valid (z : Z) :
  0 <= z < 2 ^ 53 ->
  valid_binary prec emax (Z2SF z) = true /\ SF2Q (Z2SF z) = Some (inject_Z z) \/
  exists (m : positive) (e : Z),
    Z2SF z = S754_finite false m e /\ valid_binary prec emax (Z2SF z) = true /\
    (F2Q (Z.pos m) e == inject_Z z)%Q.
Proof.
  intros Hz. destruct (Z.eq_dec z 0) as [-> | Hne].
  - left. split; reflexivity.
  - right. destruct (Z2SF_spec z) as (m & e & E & Hm & He & He' & Hv); [lia|].
    exists m, e. split; [exact E|]. split.
    + rewrite E. cbn [valid_binary]. unfold bounded, canonical_mantissa.
      change (Z.pos (digits2_pos m)) with (Zdigits2 (Z.pos m)).
      rewrite (Zdigits2_unique (Z.pos m) 53) by lia.
      rewrite (fexp_normal (53 + e)) by lia.
      apply andb_true_iff. split; [apply Z.eqb_eq; lia|].
      apply Z.leb_le. unfold emax, prec. lia.
    + apply Z2SF_value; assumption.
Qed.

(** [x >= t] on numbers agrees with the order of the values, for a valid
    number [x] and a positive integer threshold [t] below [2^53]. *)
Lemma Num_ge_threshold (x : Number) (v : Q) (t : Z) :
  0 < t < 2 ^ 53 ->
  valid_binary prec emax x = true -> SF2Q x = Some v ->
  (Num_ge x (Z2SF t) = true <-> (inject_Z t <= v)%Q).
Proof.
  intros Ht Hvalid Hv.
  destruct (Z2SF_spec t Ht) as (mt & et & Et & Hmt & _ & Het & Hvt).
  pose proof (Z2SF_value t mt et Het Hvt) as Vt.
  unfold Num_ge. rewrite Et.
  assert (Htpos : (0 < inject_Z t)%Q)
    by (change 0%Q with (inject_Z 0); rewrite <- Zlt_Qlt; lia).
  destruct x as [s | s | | s m e]; cbn [SF2Q] in Hv; try discriminate Hv;
    injection Hv as <-.
  - cbn. split; [discriminate | lra].
  - destruct s.
    + cbn. split; [discriminate|]. intros Hle. exfalso.
      assert (Hneg : (F2Q (Z.neg m) e < 0)%Q).
      { unfold F2Q. setoid_replace 0%Q with (0 * pow2 e)%Q using relation Qeq by ring.
        apply Qmult_lt_compat_r; [apply pow2_pos|].
        change 0%Q with (inject_Z 0). rewrite <- Zlt_Qlt. lia. }
      lra.
    + cbn [valid_binary] in Hvalid. unfold bounded in Hvalid.
      apply andb_true_iff in Hvalid as [Hcan _].
      destruct (canonical_digits m e Hcan) as [Hm53 Hm52].
      rewrite <- Vt. unfold SFleb, SFcompare.
      destruct (Z.compare_spec et e) as [Heq | Hlt | Hgt].
      * subst e. rewrite F2Q_le_iff. fold (Pos.compare mt m).
        rewrite Pos2Z.inj_compare.
        destruct (Z.compare_spec (Z.pos mt) (Z.pos m)) as [Hc | Hc | Hc];
          split; intros Hx; try reflexivity; try discriminate Hx; lia.
      * split; [intros _ | reflexivity].
        assert (Hk : 0 <= e - et) by lia.
        replace e with (et + (e - et)) by lia.
        rewrite <- (F2Q_shift (Z.pos m) et (e - et) Hk), F2Q_le_iff.
        assert (2 ^ 1 <= 2 ^ (e - et)) by (apply Z.pow_le_mono_r; lia).
        specialize (Hm52 ltac:(lia)). nia.
      * split; [discriminate|]. intros Hle. exfalso.
        assert (Hk : 0 <= et - e) by lia.
        replace et with (e + (et - e)) in Hle by lia.
        rewrite <- (F2Q_shift (Z.pos mt) e (et - e) Hk), F2Q_le_iff in Hle.
        assert (2 ^ 1 <= 2 ^ (et - e)) by (apply Z.pow_le_mono_r; lia).
        nia.
Qed.

End NumberFacts.

(** ** Strings and arrays *)

Module ArrayFacts.
Import JS.

(** *** White space *)

Lemma append_cons (c : ascii) (r t : string) :
  String c r +:+ t = String c (r +:+ t).
Proof. reflexivity. Qed.

Lemma append_empty (t : string) : "" +:+ t = t.
Proof. reflexivity. Qed.

Lemma append_empty_r (s : string) : s +:+ "" = s.
Proof.
  induction s as [|c r IH]; [reflexivity|]. rewrite append_cons, IH. reflexivity.
Qed.

Lemma append_assoc (s t u : string) : (s +:+ t) +:+ u = s +:+ (t +:+ u).
Proof.
  induction s as [|c r IH]; [reflexivity|]. rewrite !append_cons, IH. reflexivity.
Qed.

Lemma trimStart_unfold (s : string) :
  trimStart s = match strip_space s with Some r => trimStart r | None => s end.
Proof.
  destruct s as [|c1 [|c2 [|c3 r3]]]; cbn [trimStart strip_space];
    try reflexivity.
  - destruct (is_space c1); reflexivity.
  - destruct (is_space c1); [reflexivity|]. destruct (is_space2 c1 c2); reflexivity.
  - destruct (is_space c1); [reflexivity|].
    destruct (is_space2 c1 c2); [reflexivity|].
    destruct (is_space3 c1 c2 c3); reflexivity.
Qed.

(** A white-space character has at least one byte. *)
Lemma strip_space_shorter (s r : string) :
  strip_space s = Some r -> (String.length r < String.length s)%nat.
Proof.
  destruct s as [|c1 [|c2 [|c3 r3]]]; cbn [strip_space String.length];
    repeat match goal with
           | |- context [if ?b then _ else _] => destruct b
           end;
    intros [= <-]; cbn [String.length]; lia.
Qed.

Lemma strip_space_app (s r w : string) :
  strip_space s = Some r -> strip_space (s +:+ w) = Some (r +:+ w).
Proof.
  destruct s as [|c1 [|c2 [|c3 r3]]]; rewrite ?append_cons, ?append_empty;
    cbn [strip_space];
    repeat match goal with
           | |- context [if ?b then _ else _] => destruct b
           end;
    try discriminate; intros [= <-]; rewrite ?append_cons, ?append_empty;
    reflexivity.
Qed.

(** Induction on a string along the characters [trimStart] removes. *)
Lemma strip_space_ind (P : string -> Prop) :
  (forall s, strip_space s = None -> P s) ->
  (forall s r, strip_space s = Some r -> P r -> P s) ->
  forall s, P s.
Proof.
  intros Hnone Hsome s.
  remember (String.length s) as n eqn:Hn. revert s Hn.
  induction n as [n IH] using lt_wf_ind. intros s ->.
  destruct (strip_space s) as [r|] eqn:Hs.
  - apply (Hsome s r Hs). apply (IH (String.length r)); [|reflexivity].
    apply strip_space_shorter. exact Hs.
  - apply Hnone. exact Hs.
Qed.

(** What [trimStart] returns does not start with white space. *)
Lemma strip_space_trimStart (s : string) : strip_space (trimStart s) = None.
Proof.
  induction s as [s Hs | s r Hs IH] using strip_space_ind;
    rewrite trimStart_unfold, Hs; assumption.
Qed.

Lemma trimStart_fixed (s : string) : strip_space s = None -> trimStart s = s.
Proof. intros Hs. rewrite trimStart_unfold, Hs. reflexivity. Qed.

Lemma trimStart_idempotent (s : string) : trimStart (trimStart s) = trimStart s.
Proof. apply trimStart_fixed, strip_space_trimStart. Qed.

(** White space in front of a string does not count. *)
Lemma trimStart_app_blank (blank s : string) :
  trimStart blank = "" -> trimStart (blank +:+ s) = trimStart s.
Proof.
  induction blank as [b Hb | b r Hb IH] using strip_space_ind; intros Hblank.
  - rewrite (trimStart_fixed b Hb) in Hblank. subst b. reflexivity.
  - rewrite trimStart_unfold, Hb in Hblank.
    rewrite (trimStart_unfold (b +:+ s)), (strip_space_app b r s Hb).
    apply IH. exact Hblank.
Qed.

Lemma trimEnd_cons (c : ascii) (r : string) :
  trimEnd (String c r)
  = if truthy (trimStart (String c r)) then String c (trimEnd r) else "".
Proof. reflexivity. Qed.

(** [trimEnd] cuts off a tail made of white space. *)
Lemma trimEnd_split (s : string) :
  exists w : string, s = trimEnd s +:+ w /\ trimStart w = "".
Proof.
  induction s as [|c r (w & Hr & Hw)].
  - exists "". split; reflexivity.
  - rewrite trimEnd_cons. destruct (trimStart (String c r)) eqn:Hs; cbn [truthy].
    + exists (String c r). split; [reflexivity | exact Hs].
    + exists w. split; [|exact Hw]. rewrite append_cons, <- Hr. reflexivity.
Qed.

Lemma truthy_trimStart_trimEnd (s : string) :
  truthy (trimStart (trimEnd s)) = truthy (trimStart s).
Proof.
  destruct (trimEnd_split s) as (w & Hs & Hw).
  destruct s as [|c r]; [reflexivity|].
  rewrite trimEnd_cons in *. destruct (truthy (trimStart (String c r))) eqn:Ht.
  - destruct (trimStart (String c (trimEnd r))) eqn:He; [|reflexivity].
    rewrite Hs, (trimStart_app_blank _ w He), Hw in Ht. discriminate Ht.
  - reflexivity.
Qed.

Lemma trimEnd_idempotent (s : string) : trimEnd (trimEnd s) = trimEnd s.
Proof.
  induction s as [|c r IH]; [reflexivity|].
  pose proof (truthy_trimStart_trimEnd (String c r)) as Ht.
  rewrite trimEnd_cons in *. destruct (truthy (trimStart (String c r))).
  - rewrite trimEnd_cons, Ht, IH. reflexivity.
  - reflexivity.
Qed.

(** Cutting the tail leaves the front as it is. *)
Lemma strip_space_trimEnd (s : string) :
  strip_space s = None -> strip_space (trimEnd s) = None.
Proof.
  intros Hs. destruct (trimEnd_split s) as (w & Hsplit & _).
  destruct (strip_space (trimEnd s)) as [r|] eqn:He; [|reflexivity].
  apply (strip_space_app _ _ w) in He. rewrite <- Hsplit, Hs in He.
  discriminate He.
Qed.

Lemma trim_idempotent (s : string) : trim (trim s) = trim s.
Proof.
  unfold trim.
  rewrite (trimStart_fixed (trimEnd (trimStart s))).
  - apply trimEnd_idempotent.
  - apply strip_space_trimEnd, strip_space_trimStart.
Qed.

(** [trimStart] cuts off a front made of white space. *)
Lemma trimStart_split (s : string) :
  exists w : string, s = w +:+ trimStart s /\ trimStart w = "".
Proof.
  induction s as [s Hs | s r Hs (w & Hr & Hw)] using strip_space_ind.
  - exists "". rewrite (trimStart_fixed s Hs). split; reflexivity.
  - rewrite trimStart_unfold, Hs.
    assert (Hfront : exists v, s = v +:+ r /\ strip_space v = Some "").
    { destruct s as [|c1 [|c2 [|c3 r3]]]; cbn [strip_space] in Hs;
        try discriminate Hs;
        repeat match type of Hs with
               | context [if ?b then _ else _] => destruct b eqn:?
               end; try discriminate Hs; injection Hs as <-;
        first [ exists (String c1 ""); split; [reflexivity|]; cbn [strip_space];
                rewrite ?Heqb; reflexivity
              | exists (String c1 (String c2 "")); split; [reflexivity|];
                cbn [strip_space]; rewrite ?Heqb, ?Heqb0; reflexivity
              | exists (String c1 (String c2 (String c3 ""))); split; [reflexivity|];
                cbn [strip_space]; rewrite ?Heqb, ?Heqb0, ?Heqb1; reflexivity ]. }
    destruct Hfront as (v & -> & Hv). exists (v +:+ w).
    rewrite append_assoc, <- Hr. split; [reflexivity|].
    rewrite trimStart_unfold, (strip_space_app v "" w Hv), append_empty. exact Hw.
Qed.

(** What [trimEnd] returns does not end with white space. *)
Lemma trimEnd_tight (s t w : string) :
  trimEnd s = t +:+ w -> trimStart w = "" -> w = "".
Proof.
  revert t. induction s as [|c r IH]; intros t Hs Hw.
  - cbn [trimEnd] in Hs.
    destruct t; [rewrite append_empty in Hs; congruence | discriminate Hs].
  - rewrite trimEnd_cons in Hs.
    destruct (truthy (trimStart (String c r))) eqn:Ht.
    + destruct t as [|c' t'].
      * rewrite append_empty in Hs. exfalso.
        destruct (trimEnd_split r) as (w' & Hr & Hw').
        assert (Hall : String c r = w +:+ w')
          by (rewrite <- Hs, append_cons, <- Hr; reflexivity).
        rewrite Hall, (trimStart_app_blank w w' Hw), Hw' in Ht. discriminate Ht.
      * rewrite append_cons in Hs. injection Hs as _ Hs. apply (IH t' Hs Hw).
    + destruct t; [rewrite append_empty in Hs; congruence | discriminate Hs].
Qed.

(** [trim] takes white space off both ends and leaves none there. *)
Lemma trim_split (s : string) :
  exists front back : string,
    s = front +:+ trim s +:+ back /\
    trimStart front = "" /\ trimStart back = "" /\
    strip_space (trim s) = None /\
    forall t w, trim s = t +:+ w -> trimStart w = "" -> w = "".
Proof.
  destruct (trimStart_split s) as (front & Hs & Hfront).
  destruct (trimEnd_split (trimStart s)) as (back & Ht & Hback).
  exists front, back. unfold trim.
  split; [rewrite <- Ht; exact Hs|]. split; [exact Hfront|]. split; [exact Hback|].
  split; [apply strip_space_trimEnd, strip_space_trimStart|].
  intros t w. apply trimEnd_tight.
Qed.

(** A string is white space throughout exactly when nothing of it is left
    after [trim]. *)
Lemma truthy_trim (s : string) : truthy (trim s) = truthy (trimStart s).
Proof.
  unfold trim. destruct (trimStart s) as [|c r] eqn:Hs; [reflexivity|].
  rewrite trimEnd_cons, <- Hs, trimStart_idempotent, Hs. reflexivity.
Qed.

(** A found index is a position holding the searched value. *)
Lemma indexOf_from_found (l : list string) (x : string) :
  forall i k : Z,
    0 <= i -> indexOf_from l x i = k -> k <> -1 ->
    exists j : nat, k = i + Z.of_nat j /\ l !! j = Some x.
Proof.
  induction l as [|y l IH]; intros i k Hi Hk Hne; cbn [indexOf_from] in Hk.
  - congruence.
  - case_bool_decide as Hy.
    + exists 0%nat. subst. split; [lia | reflexivity].
    + destruct (IH (i + 1) k ltac:(lia) Hk Hne) as (j & Hj & Hl).
      exists (S j). split; [lia | exact Hl].
Qed.

(** [new Set] keeps what was seen, as a prefix and in order. *)
Lemma Set_add_all_prefix (l : list string) :
  forall seen, exists added, Set_add_all seen l = seen ++ added.
Proof.
  induction l as [|x l IH]; intros seen; cbn [Set_add_all].
  - exists []. rewrite app_nil_r. reflexivity.
  - case_bool_decide.
    + apply IH.
    + destruct (IH (seen ++ [x])) as [added Ha].
      exists (x :: added). rewrite Ha, <- app_assoc. reflexivity.
Qed.

Lemma Set_add_all_elem (l : list string) :
  forall seen x, x ∈ Set_add_all seen l <-> x ∈ seen \/ x ∈ l.
Proof.
  induction l as [|y l IH]; intros seen x; cbn [Set_add_all].
  - rewrite elem_of_nil. tauto.
  - rewrite IH, elem_of_cons. case_bool_decide as Hy.
    + split; [tauto|]. intros [H | [-> | H]]; tauto.
    + rewrite elem_of_app, list_elem_of_singleton. tauto.
Qed.

Lemma Set_add_all_NoDup (l : list string) :
  forall seen, NoDup seen -> NoDup (Set_add_all seen l).
Proof.
  induction l as [|y l IH]; intros seen Hnd; cbn [Set_add_all]; [exact Hnd|].
  apply IH. case_bool_decide as Hy; [exact Hnd|].
  apply NoDup_app. split; [exact Hnd|]. split.
  - intros z Hz Hz'. apply list_elem_of_singleton in Hz'. subst. contradiction.
  - apply NoDup_singleton.
Qed.

Lemma spread_new_Set_elem (l : list string) (x : string) :
  x ∈ spread_new_Set l <-> x ∈ l.
Proof.
  unfold spread_new_Set. rewrite Set_add_all_elem, elem_of_nil. tauto.
Qed.

Lemma spread_new_Set_NoDup (l : list string) : NoDup (spread_new_Set l).
Proof. apply Set_add_all_NoDup, NoDup_nil_2. Qed.

End ArrayFacts.

(** ** Quiz scoring *)

Module QuizFacts.
Import JS StudyChat NumberValue NumberFacts ArrayFacts.

Lemma forEach_count_bounds (qs : list QuizQuestion) :
  forall (i : nat) (ans : list string) (c : nat),
    (c <= forEach_count qs i ans c <= c + length qs)%nat.
Proof.
  induction qs as [|q qs IH]; intros i ans c; cbn [forEach_count length].
  - lia.
  - destruct (countsAsCorrect q (ans !! i)).
    + specialize (IH (S i) ans (S c)). lia.
    + specialize (IH (S i) ans c). lia.
Qed.

Lemma countCorrect_le (qs : list QuizQuestion) (ans : list string) :
  (countCorrect qs ans <= length qs)%nat.
Proof. unfold countCorrect. pose proof (forEach_count_bounds qs 0 ans 0). lia. Qed.

(** The verdict follows the value of the accuracy. *)
Lemma understanding_of_value (acc : Number) (a : Q) :
  valid_binary prec emax acc = true -> SF2Q acc = Some a ->
  (understanding_of acc = strong <-> (70 <= a)%Q) /\
  (understanding_of acc = partial <-> (40 <= a)%Q /\ (a < 70)%Q) /\
  (understanding_of acc = weak <-> (a < 40)%Q).
Proof.
  intros Hvalid Ha. unfold understanding_of.
  pose proof (Num_ge_threshold acc a 70 ltac:(lia) Hvalid Ha) as H70.
  pose proof (Num_ge_threshold acc a 40 ltac:(lia) Hvalid Ha) as H40.
  change (inject_Z 70) with 70%Q in H70. change (inject_Z 40) with 40%Q in H40.
  destruct (Num_ge acc (Z2SF 70)) eqn:E70.
  - assert (70 <= a)%Q by (apply H70; reflexivity).
    split; [|split]; split; intros Hx; try discriminate Hx; try reflexivity; lra.
  - assert (a < 70)%Q by (apply Qnot_le_lt; intros Hle; apply H70 in Hle; discriminate).
    destruct (Num_ge acc (Z2SF 40)) eqn:E40.
    + assert (40 <= a)%Q by (apply H40; reflexivity).
      split; [|split]; split; intros Hx; try discriminate Hx; try reflexivity; lra.
    + assert (a < 40)%Q
        by (apply Qnot_le_lt; intros Hle; apply H40 in Hle; discriminate).
      split; [|split]; split; intros Hx; try discriminate Hx; try reflexivity; lra.
Qed.

(** The same for an integer percentage held in a number. *)
Lemma understanding_of_percent (a : Z) :
  0 <= a <= 100 ->
  (understanding_of (Z2SF a) = strong <-> 70 <= a) /\
  (understanding_of (Z2SF a) = partial <-> 40 <= a < 70) /\
  (understanding_of (Z2SF a) = weak <-> a < 40).
Proof.
  intros Ha.
  assert (Hq : exists v, valid_binary prec emax (Z2SF a) = true /\
                         SF2Q (Z2SF a) = Some v /\ (v == inject_Z a)%Q).
  { destruct (Z2SF_valid a ltac:(lia)) as [[Hv Hs] | (m & e & E & Hv & Hval)].
    - exists (inject_Z a). repeat split; assumption.
    - exists (F2Q (Z.pos m) e). split; [exact Hv|]. split; [rewrite E; reflexivity|].
      exact Hval. }
  destruct Hq as (v & Hvalid & Hs & Hv).
  destruct (understanding_of_value (Z2SF a) v Hvalid Hs) as (H1 & H2 & H3).
  rewrite Hv in H1, H2, H3.
  change 70%Q with (inject_Z 70) in H1, H2. change 40%Q with (inject_Z 40) in H2, H3.
  rewrite <- !Zle_Qle in H1, H2. rewrite <- !Zlt_Qlt in H2, H3.
  repeat split; try apply H1; try apply H2; try apply H3; tauto.
Qed.



(** The accuracy of an empty quiz is NaN, which fails both comparisons. *)
Lemma empty_quiz_is_weak (ans : list string) :
  accuracy (quizResult_of [] ans) = S754_nan /\
  understanding (quizResult_of [] ans) = weak.
Proof. split; reflexivity. Qed.

(** No integer is closer to [100 * c / n] than one within half a unit. *)
Lemma within_half_is_nearest (a c n : Z) :
  0 < n -> Z.abs (2 * (a * n - 100 * c)) <= n ->
  forall b : Z, Z.abs (a * n - 100 * c) <= Z.abs (b * n - 100 * c).
Proof.
  intros Hn Ha b.
  destruct (Z.lt_trichotomy b a) as [Hlt | [-> | Hgt]]; [| lia |].
  - assert ((a - b) * n >= n) by nia. lia.
  - assert ((b - a) * n >= n) by nia. lia.
Qed.

(** Unless it lies exactly one half below the quotient, the integer within
    one half is the exact quotient rounded half up. *)
Lemma within_half_is_round (a c n : Z) :
  0 < n -> Z.abs (2 * (a * n - 100 * c)) <= n ->
  2 * (a * n - 100 * c) <> - n ->
  a = (200 * c + n) / (2 * n).
Proof.
  intros Hn Ha Htie. apply Z.div_unique with (r := 200 * c + n - 2 * n * a); lia.
Qed.

(** The result the component reports for a finished quiz. *)
Lemma calculateQuizResults_summary (st : State) (now : Z) :
  exists s : Summary,
    (calculateQuizResults st now).2 = [OnEndStudy s] /\
    quizResult s = Some (quizResult_of (quizQuestions st) (userAnswers st)).
Proof. eexists. split; reflexivity. Qed.

(** How far the reported accuracy is from the quotient: for a non-empty
    quiz it is an integer percentage [a] within one half of
    [100 * correctCount / totalQuestions], so that no integer is closer, and
    it is the quotient rounded half up unless [a] lies exactly one half
    below the quotient. *)
Lemma accuracy_within_half_percent (qs : list QuizQuestion) (ans : list string) :
  qs <> [] -> Z.of_nat (length qs) < 2 ^ 32 ->
  let r := quizResult_of qs ans in
  let c := Z.of_nat (correctCount r) in
  let n := Z.of_nat (totalQuestions r) in
  exists a : Z,
    accuracy r = Z2SF a /\
    0 <= a <= 100 /\
    Z.abs (2 * (a * n - 100 * c)) <= n /\
    (forall b : Z, Z.abs (a * n - 100 * c) <= Z.abs (b * n - 100 * c)) /\
    (2 * (a * n - 100 * c) <> - n -> a = (200 * c + n) / (2 * n)).
Proof.
  intros Hne Hlen r c n. subst r c n. unfold quizResult_of.
  cbn [accuracy totalQuestions correctCount].
  pose proof (countCorrect_le qs ans) as Hle.
  assert (Hpos : (0 < length qs)%nat) by (destruct qs; [congruence | cbn; lia]).
  set (c := Z.of_nat (countCorrect qs ans)) in *.
  set (n := Z.of_nat (length qs)) in *.
  destruct (percent_round_nearest c n) as (a & Ea & Hb); [lia | lia |].
  exists a. unfold accuracy_of. fold c n.
  assert (Habs : Z.abs (2 * (a * n - 100 * c)) <= n) by lia.
  split; [exact Ea|]. split; [nia|]. split; [exact Habs|]. split.
  - apply within_half_is_nearest; [lia | exact Habs].
  - apply within_half_is_round; [lia | exact Habs].
Qed.

(** For a finished quiz the verdict follows the reported percentage. *)
Lemma understanding_of_quiz (qs : list QuizQuestion) (ans : list string) :
  qs <> [] -> Z.of_nat (length qs) < 2 ^ 32 ->
  exists a : Z,
    accuracy (quizResult_of qs ans) = Z2SF a /\ 0 <= a <= 100 /\
    (understanding (quizResult_of qs ans) = strong <-> 70 <= a) /\
    (understanding (quizResult_of qs ans) = partial <-> 40 <= a < 70) /\
    (understanding (quizResult_of qs ans) = weak <-> a < 40).
Proof.
  intros Hne Hlen. unfold quizResult_of. cbn [accuracy understanding].
  pose proof (countCorrect_le qs ans) as Hle.
  assert (Hpos : (0 < length qs)%nat) by (destruct qs; [congruence | cbn; lia]).
  destruct (percent_round_nearest (Z.of_nat (countCorrect qs ans))
              (Z.of_nat (length qs))) as (a & Ea & Hb); [lia | lia |].
  assert (Ha : 0 <= a <= 100) by nia.
  exists a. unfold accuracy_of. rewrite Ea.
  split; [reflexivity|]. split; [exact Ha|]. apply understanding_of_percent. exact Ha.
Qed.

(** A tie is not always rounded up: 23 correct out of 40 is 57.5 percent,
    the quotient [23 / 40] is rounded below 0.575 and the result is 57. *)
Lemma tie_23_of_40 : accuracy_of 23 40 = Z2SF 57.
Proof. vm_compute. reflexivity. Qed.

(** C3 (evaluation at a failing input): a quiz of forty questions with
    twenty-three right answers is 57.5 percent right.  Rounded to the
    nearest integer percent, a half going up, that is 58, and
    [Math.round(100 * 23 / 40)] is 58 in the arithmetic of the engine.  The
    component computes [(23 / 40) * 100], which falls just below 57.5, and
    reports 57, while it reports one right answer in eight, 12.5 percent, as
    13. *)
Theorem accuracy_of_23_right_in_40 :
  (correctCount (quizResult_of Samples.forty_questions Samples.twenty_three_right)
   = 23%nat) /\
  (totalQuestions (quizResult_of Samples.forty_questions Samples.twenty_three_right)
   = 40%nat) /\
  (accuracy (quizResult_of Samples.forty_questions Samples.twenty_three_right)
   = Z2SF 57) /\
  (Claimed.rounded_percent 23 40 = 58) /\
  (accuracy (quizResult_of Samples.forty_questions Samples.twenty_three_right)
   <> Z2SF (Claimed.rounded_percent
              (correctCount
                 (quizResult_of Samples.forty_questions Samples.twenty_three_right))
              (totalQuestions
                 (quizResult_of Samples.forty_questions
                    Samples.twenty_three_right)))) /\
  (Math_round (Num_div (Num_mul (Z2SF 100) (Z2SF 23)) (Z2SF 40)) = Z2SF 58) /\
  (accuracy (quizResult_of Samples.eight_questions Samples.one_right) = Z2SF 13) /\
  (Claimed.rounded_percent 1 8 = 13).
Proof.
  split; [vm_compute; reflexivity|]. split; [vm_compute; reflexivity|].
  split; [vm_compute; reflexivity|]. split; [vm_compute; reflexivity|].
  split; [vm_compute; discriminate|]. split; [vm_compute; reflexivity|].
  split; vm_compute; reflexivity.
Qed.

(** Below 40 questions every accuracy is the exact quotient rounded half
    up. *)
Lemma accuracy_exact_below_40 (c n : nat) :
  (0 < n < 40)%nat -> (c <= n)%nat ->
  accuracy_of c n = Z2SF ((200 * Z.of_nat c + Z.of_nat n) / (2 * Z.of_nat n)).
Proof.
  intros Hn Hc.
  assert (Hall :
    forallb (fun n' =>
      forallb (fun c' =>
        match accuracy_of c' n',
              Z2SF ((200 * Z.of_nat c' + Z.of_nat n') / (2 * Z.of_nat n')) with
        | S754_finite s m e, S754_finite s' m' e' =>
            Bool.eqb s s' && (Z.pos m =? Z.pos m') && (e =? e')
        | S754_zero s, S754_zero s' => Bool.eqb s s'
        | _, _ => false
        end) (seq 0 (S n'))) (seq 1 39) = true) by (vm_compute; reflexivity).
  rewrite forallb_forall in Hall.
  specialize (Hall n ltac:(apply in_seq; lia)).
  rewrite forallb_forall in Hall.
  specialize (Hall c ltac:(apply in_seq; lia)).
  destruct (accuracy_of c n) as [s| | |s m e],
           (Z2SF ((200 * Z.of_nat c + Z.of_nat n) / (2 * Z.of_nat n)))
             as [s'| | |s' m' e']; try discriminate Hall.
  - apply Bool.eqb_prop in Hall. congruence.
  - apply andb_true_iff in Hall as [Hall He]. apply andb_true_iff in Hall as [Hs Hm].
    apply Bool.eqb_prop in Hs. apply Z.eqb_eq in Hm, He. congruence.
Qed.

(** *** The counting loop *)

Lemma forEach_count_acc (qs : list QuizQuestion) :
  forall (i : nat) (ans : list string) (c : nat),
    forEach_count qs i ans c = (c + forEach_count qs i ans 0)%nat.
Proof.
  induction qs as [|q qs IH]; intros i ans c; cbn [forEach_count]; [lia|].
  destruct (countsAsCorrect q (ans !! i)).
  - rewrite (IH (S i) ans (S c)), (IH (S i) ans 1%nat). lia.
  - apply IH.
Qed.

Lemma forEach_count_shift (qs : list QuizQuestion) :
  forall (i : nat) (ans : list string) (c : nat),
    forEach_count qs (S i) ans c = forEach_count qs i (tail ans) c.
Proof.
  induction qs as [|q qs IH]; intros i ans c; cbn [forEach_count]; [reflexivity|].
  rewrite lookup_tail, IH. reflexivity.
Qed.

(** The loop counts question by question along the aligned answers. *)
Lemma countCorrect_cons (q : QuizQuestion) (qs : list QuizQuestion) (ans : list string) :
  countCorrect (q :: qs) ans
  = ((if countsAsCorrect q (head ans) then 1 else 0) + countCorrect qs (tail ans))%nat.
Proof.
  unfold countCorrect. cbn [forEach_count].
  rewrite forEach_count_shift, forEach_count_acc, <- (head_lookup ans).
  destruct (countsAsCorrect q (head ans)); reflexivity.
Qed.

Lemma countsAsCorrect_at_cons (q : QuizQuestion) (qs : list QuizQuestion)
    (ans : list string) (i : nat) :
  countsAsCorrect_at (q :: qs) ans (S i) = countsAsCorrect_at qs (tail ans) i.
Proof. unfold countsAsCorrect_at. cbn [lookup list_lookup]. rewrite lookup_tail. reflexivity. Qed.

(** [correctCount] is the number of indices at which the loop test holds. *)
Lemma countCorrect_indices (qs : list QuizQuestion) :
  forall ans : list string,
    countCorrect qs ans
    = length (List.filter (countsAsCorrect_at qs ans) (seq 0 (length qs))).
Proof.
  induction qs as [|q qs IH]; intros ans; [reflexivity|].
  rewrite countCorrect_cons, IH. cbn [length seq List.filter].
  rewrite <- seq_shift.
  assert (Hf : forall l,
    length (List.filter (countsAsCorrect_at (q :: qs) ans) (map S l))
    = length (List.filter (countsAsCorrect_at qs (tail ans)) l)).
  { induction l as [|j l IHl]; [reflexivity|]. cbn [map List.filter].
    rewrite countsAsCorrect_at_cons.
    destruct (countsAsCorrect_at qs (tail ans) j); cbn [length]; rewrite IHl; reflexivity. }
  assert (H0 : countsAsCorrect_at (q :: qs) ans 0 = countsAsCorrect q (head ans))
    by (unfold countsAsCorrect_at; rewrite (head_lookup ans); reflexivity).
  rewrite H0.
  destruct (countsAsCorrect q (head ans)); cbn [length]; rewrite Hf; reflexivity.
Qed.

(** *** What the loop test accepts *)

Lemma countsAsCorrect_of_equal (q : QuizQuestion) (a : string) :
  trim (toLowerCase a) = trim (toLowerCase (correct_answer q)) ->
  countsAsCorrect q (Some a) = true.
Proof.
  intros H. unfold countsAsCorrect. cbn [fmap option_fmap option_map].
  rewrite H, bool_decide_eq_true_2 by reflexivity. reflexivity.
Qed.

(** When both searches of the fallback find an index, the answer already
    equals the correct answer: the fallback adds exactly the indices at
    which neither search finds anything. *)
Lemma countsAsCorrect_decomposed (q : QuizQuestion) (a : string) :
  countsAsCorrect q (Some a)
  = bool_decide (trim (toLowerCase a) = trim (toLowerCase (correct_answer q)))
    || match options q with
       | Some opts =>
           bool_decide (indexOf opts (Some a) = -1) &&
           bool_decide (indexOf (toLowerCase <$> opts)
                          (Some (trim (toLowerCase (correct_answer q)))) = -1)
       | None => false
       end.
Proof.
  unfold countsAsCorrect. cbn [fmap option_fmap option_map].
  set (ca := trim (toLowerCase (correct_answer q))).
  destruct (decide (trim (toLowerCase a) = ca)) as [Heq | Hne].
  - rewrite !bool_decide_eq_true_2 by congruence. reflexivity.
  - rewrite (bool_decide_eq_false_2 (Some _ = Some ca)) by congruence.
    rewrite (bool_decide_eq_false_2 (trim (toLowerCase a) = ca)) by exact Hne.
    cbn [orb]. destruct (options q) as [opts|]; [|reflexivity].
    cbn [indexOf].
    destruct (decide (indexOf_from opts a 0 = -1)) as [Ha | Ha].
    + rewrite Ha. rewrite (bool_decide_eq_true_2 (-1 = -1)) by reflexivity.
      cbn [andb]. apply bool_decide_ext. split; congruence.
    + rewrite (bool_decide_eq_false_2 (indexOf_from opts a 0 = -1)) by exact Ha.
      cbn [andb]. apply bool_decide_eq_false_2. intros Hidx.
      destruct (indexOf_from_found opts a 0 _ ltac:(lia) eq_refl Ha) as (j & Hj & Hlj).
      assert (Hc : indexOf_from (toLowerCase <$> opts) ca 0 <> -1) by congruence.
      destruct (indexOf_from_found (toLowerCase <$> opts) ca 0 _ ltac:(lia) eq_refl Hc)
        as (j' & Hj' & Hlj').
      assert (j' = j) by lia. subst j'.
      rewrite list_lookup_fmap, Hlj in Hlj'. cbn in Hlj'.
      apply Hne. injection Hlj' as Hlow. rewrite Hlow. unfold ca.
      apply trim_idempotent.
Qed.

(** A listed value is found by [indexOf]. *)
Lemma indexOf_from_elem (l : list string) (x : string) :
  forall i : Z, x ∈ l -> indexOf_from l x i <> -1 \/ i < 0.
Proof.
  induction l as [|y l IH]; intros i Hx.
  - apply elem_of_nil in Hx. contradiction.
  - cbn [indexOf_from]. case_bool_decide as Hy.
    + destruct (Z_lt_le_dec i 0); [right; assumption | left; lia].
    + apply elem_of_cons in Hx as [-> | Hx]; [contradiction|].
      destruct (IH (i + 1) Hx) as [H | H]; [left; exact H | right; lia].
Qed.

Lemma listed_answer_found (opts : list string) (a : string) :
  a ∈ opts -> indexOf opts (Some a) <> -1.
Proof.
  intros Ha. cbn [indexOf].
  destruct (indexOf_from_elem opts a 0 Ha) as [H | H]; [exact H | lia].
Qed.

Lemma option_index_match_listed (opts : list string) (a correct : string) :
  a ∈ opts -> Claimed.option_index_match opts a correct = true ->
  toLowerCase a = toLowerCase correct.
Proof.
  intros Ha Hm. unfold Claimed.option_index_match in Hm.
  apply bool_decide_eq_true in Hm. cbn [indexOf] in Hm.
  assert (Hin : toLowerCase a ∈ toLowerCase <$> opts)
    by (apply list_elem_of_fmap; exists a; split; [reflexivity | exact Ha]).
  destruct (indexOf_from_elem _ _ 0 Hin) as [Hne | Hlt]; [|lia].
  destruct (indexOf_from_found _ _ 0 _ ltac:(lia) eq_refl Hne) as (j & Hj & Hlj).
  assert (Hne' : indexOf_from (toLowerCase <$> opts) (toLowerCase correct) 0 <> -1)
    by congruence.
  destruct (indexOf_from_found _ _ 0 _ ltac:(lia) eq_refl Hne') as (j' & Hj' & Hlj').
  assert (j' = j) by lia. subst j'. congruence.
Qed.

(** Where every answer given to a question with options is one of those
    options, as it is for answers picked with the option buttons, the loop
    counts exactly the indices the specification describes. *)
Lemma countCorrect_listed_answers (qs : list QuizQuestion) :
  forall ans : list string,
    length ans = length qs ->
    (forall i q a opts,
        qs !! i = Some q -> ans !! i = Some a -> options q = Some opts -> a ∈ opts) ->
    countCorrect qs ans = Claimed.matching_indices qs ans.
Proof.
  induction qs as [|q qs IH]; intros ans Hlen Hlisted.
  - destruct ans; reflexivity.
  - destruct ans as [|a ans]; [discriminate Hlen|].
    rewrite countCorrect_cons. cbn [head tail Claimed.matching_indices].
    rewrite (IH ans).
    + f_equal. rewrite countsAsCorrect_decomposed. unfold Claimed.answer_matches.
      destruct (options q) as [opts|] eqn:Ho.
      * pose proof (Hlisted 0%nat q a opts eq_refl eq_refl Ho) as Ha.
        rewrite (bool_decide_eq_false_2 (indexOf opts (Some a) = -1))
          by (apply listed_answer_found; exact Ha).
        cbn [andb]. rewrite orb_false_r.
        destruct (decide (trim (toLowerCase a) = trim (toLowerCase (correct_answer q))))
          as [Heq | Hne].
        -- rewrite !bool_decide_eq_true_2 by exact Heq. reflexivity.
        -- rewrite !bool_decide_eq_false_2 by exact Hne. cbn [orb].
           destruct (q_type q); try reflexivity.
           destruct (Claimed.option_index_match opts a (correct_answer q)) eqn:Hm;
             [|reflexivity].
           exfalso. apply Hne. f_equal.
           apply (option_index_match_listed opts); assumption.
      * rewrite orb_false_r. destruct (q_type q); rewrite orb_false_r; reflexivity.
    + cbn [length] in Hlen. lia.
    + intros i q' a' opts Hq Ha Ho. apply (Hlisted (S i) q' a' opts); assumption.
Qed.

(** C1 (evaluation at failing inputs): a blank filled with "paris" for the
    answer "London" is counted correct because neither search of the
    fallback finds an index ([-1 === -1]); so is any answer to a question
    whose options array is empty; and so is the choice "False" on a
    true/false question whose correct answer is "True", a choice the panel
    itself marks as wrong.  The specification counts none of them: the answers differ from
    the correct answers, the questions are not multiple-choice, and "paris"
    is option 0 while "London" is no option. *)
Theorem fallback_counts_unmatched_answers :
  (countCorrect [Samples.word_bank_question] ["paris"] = 1%nat /\
   Claimed.matching_indices [Samples.word_bank_question] ["paris"] = 0%nat /\
   Claimed.option_index_match ["Paris"; "Rome"] "paris" "London" = false) /\
  (countCorrect [Samples.empty_options_question] ["respiration"] = 1%nat /\
   Claimed.matching_indices [Samples.empty_options_question] ["respiration"] = 0%nat) /\
  (countCorrect [Samples.yes_no_question] ["False"] = 1%nat /\
   Claimed.matching_indices [Samples.yes_no_question] ["False"] = 0%nat /\
   isCorrect "False" Samples.yes_no_question = false).
Proof. repeat split; vm_compute; reflexivity. Qed.

(** The same test counts a question that has no answer yet, and stops
    counting it once a listed option is chosen. *)
Lemma unanswered_question_is_counted :
  countCorrect [Samples.lettered_question] [] = 1%nat /\
  countCorrect [Samples.lettered_question] ["Rome"] = 0%nat.
Proof. split; vm_compute; reflexivity. Qed.

(** *** Monotonicity *)

Lemma append_correct_answer (qs : list QuizQuestion) :
  forall (ans : list string) (a : string),
    (forall q, qs !! length ans = Some q -> countsAsCorrect q (Some a) = true) ->
    (countCorrect qs ans <= countCorrect qs (ans ++ [a]))%nat.
Proof.
  induction qs as [|q qs IH]; intros ans a Hok; [reflexivity|].
  rewrite !countCorrect_cons. destruct ans as [|x ans].
  - cbn [app head tail]. rewrite (Hok q eq_refl).
    destruct (countsAsCorrect q None); lia.
  - cbn [app head tail]. specialize (IH ans a Hok). lia.
Qed.

(** C9: for a fixed question list, correctCount never decreases as correct
    answers are appended to the submitted answers: if every appended answer
    passes the test of the question at the index it lands on, the count
    for the extended list is at least the count before. *)
Theorem correct_answers_never_lower_count (qs : list QuizQuestion) (more : list string) :
  forall ans : list string,
    (forall j a q,
        more !! j = Some a -> qs !! (length ans + j)%nat = Some q ->
        countsAsCorrect q (Some a) = true) ->
    (countCorrect qs ans <= countCorrect qs (ans ++ more))%nat.
Proof.
  induction more as [|a more IH]; intros ans Hok.
  - rewrite app_nil_r. reflexivity.
  - etrans.
    + apply (append_correct_answer qs ans a). intros q Hq.
      apply (Hok 0%nat a q); [reflexivity|]. rewrite Nat.add_0_r. exact Hq.
    + replace (ans ++ a :: more) with ((ans ++ [a]) ++ more)
        by (rewrite <- app_assoc; reflexivity).
      apply IH. intros j a' q Ha' Hq. apply (Hok (S j) a' q); [exact Ha'|].
      rewrite length_app in Hq. cbn [length] in Hq.
      replace (length ans + S j)%nat with (length ans + 1 + j)%nat by lia. exact Hq.
Qed.

Lemma correct_answers_never_lower_count_witness :
  (countCorrect Samples.five_questions [" paris"]
   <= countCorrect Samples.five_questions ([" paris"] ++ ["ROME"; "oslo "]))%nat.
Proof.
  apply (correct_answers_never_lower_count Samples.five_questions
           ["ROME"; "oslo "] [" paris"]).
  intros [|[|j]] a q Ha Hq.
  - injection Ha as <-. injection Hq as <-. reflexivity.
  - injection Ha as <-. injection Hq as <-. reflexivity.
  - discriminate Ha.
Defined.

End QuizFacts.

(** ** Session analysis accumulator *)

Module AnalysisFacts.
Import JS StudyChat ArrayFacts.

Lemma spread_new_Set_union (l1 l2 : list string) :
  list_to_set (spread_new_Set (l1 ++ l2))
  =@{gset string} list_to_set l1 ∪ list_to_set l2.
Proof.
  apply set_eq. intros x.
  rewrite elem_of_union, !elem_of_list_to_set, spread_new_Set_elem, elem_of_app.
  reflexivity.
Qed.

Create HintDb analysis.
#[local] Hint Resolve spread_new_Set_NoDup spread_new_Set_union : analysis.

(** A turn that reports an analysis applies the merge, any other turn
    leaves the analysis as it was. *)
Lemma getAIResponse_analysis (prev : RealTimeAnalysis) (res : Invoke AIData) :
  (getAIResponse prev res).1.1
  = match res with
    | Returned (Some d) false =>
        match sessionAnalysis d with
        | Some sa => mergeAnalysis prev sa
        | None => prev
        end
    | _ => prev
    end.
Proof.
  destruct res as [|[d|] [|]]; try reflexivity.
  destruct d as [e [sa|] r]; reflexivity.
Qed.

(** C5: on an assistant turn that reports a session analysis, weakAreas,
    strongAreas and topicsCovered each become the duplicate-free union of
    the prior list and the reported one, and currentUnderstanding becomes
    the reported value when there is one and stays as it was otherwise. *)
Theorem analysis_merge_on_report
    (prev : RealTimeAnalysis) (d : AIData) (sa : SessionAnalysis) :
  sessionAnalysis d = Some sa ->
  let new := (getAIResponse prev (Returned (Some d) false)).1.1 in
  (NoDup (weakAreas new) /\
   list_to_set (weakAreas new)
   =@{gset string} list_to_set (weakAreas prev)
                   ∪ list_to_set (default [] (sa_weakAreas sa))) /\
  (NoDup (strongAreas new) /\
   list_to_set (strongAreas new)
   =@{gset string} list_to_set (strongAreas prev)
                   ∪ list_to_set (default [] (sa_strongAreas sa))) /\
  (NoDup (topicsCovered new) /\
   list_to_set (topicsCovered new)
   =@{gset string} list_to_set (topicsCovered prev)
                   ∪ list_to_set (default [] (sa_topics sa))) /\
  currentUnderstanding new
  = match sa_understanding sa with
    | Some reported => reported
    | None => currentUnderstanding prev
    end.
Proof.
  intros Hsa new. subst new. rewrite getAIResponse_analysis, Hsa.
  unfold mergeAnalysis. cbn [weakAreas strongAreas topicsCovered currentUnderstanding].
  repeat (split; [split; auto with analysis|]).
  destruct (sa_understanding sa); reflexivity.
Qed.

Lemma analysis_merge_on_report_witness :
  let new := (getAIResponse Samples.earlier_analysis
                (Returned (Some Samples.analysis_reply) false)).1.1 in
  weakAreas new = ["fractions"; "decimals"] /\
  list_to_set (weakAreas new)
  =@{gset string} list_to_set ["fractions"] ∪ list_to_set ["fractions"; "decimals"] /\
  currentUnderstanding new = u_good.
Proof.
  pose proof (analysis_merge_on_report Samples.earlier_analysis
                Samples.analysis_reply Samples.reported_analysis eq_refl)
    as ((_ & Hw) & _ & _ & Hu).
  split; [reflexivity|]. split; [exact Hw | exact Hu].
Defined.

(** One turn keeps every element of the three lists. *)
Lemma getAIResponse_keeps (a : RealTimeAnalysis) (res : Invoke AIData) :
  weakAreas a ⊆ weakAreas (getAIResponse a res).1.1 /\
  strongAreas a ⊆ strongAreas (getAIResponse a res).1.1 /\
  topicsCovered a ⊆ topicsCovered (getAIResponse a res).1.1.
Proof.
  rewrite getAIResponse_analysis.
  destruct res as [|[d|] [|]]; try (repeat split; reflexivity).
  destruct (sessionAnalysis d) as [sa|]; [|repeat split; reflexivity].
  unfold mergeAnalysis. cbn [weakAreas strongAreas topicsCovered].
  repeat split; intros x Hx; apply spread_new_Set_elem, elem_of_app; left; exact Hx.
Qed.

(** The lists only grow at their end: the earlier list is a prefix of the
    later one once it is free of duplicates. *)
Lemma spread_new_Set_extends (l1 l2 : list string) :
  NoDup l1 -> exists added, spread_new_Set (l1 ++ l2) = l1 ++ added.
Proof.
  intros Hnd. unfold spread_new_Set.
  assert (Hgen : forall l seen, NoDup (seen ++ l) ->
            Set_add_all seen l = Set_add_all (seen ++ l) []).
  { induction l as [|x l IH]; intros seen Hs.
    - rewrite app_nil_r. reflexivity.
    - cbn [Set_add_all]. apply NoDup_app in Hs as (Hs1 & Hs2 & Hs3).
      rewrite bool_decide_eq_false_2
        by (intros Hin; apply (Hs2 x Hin); apply list_elem_of_here).
      rewrite IH.
      + rewrite <- app_assoc. reflexivity.
      + rewrite <- app_assoc. apply NoDup_app. repeat split; assumption. }
  assert (Hsplit : forall l seen, Set_add_all seen (l ++ l2)
                                  = Set_add_all (Set_add_all seen l) l2).
  { induction l as [|x l IH]; intros seen; [reflexivity|].
    cbn [app Set_add_all]. apply IH. }
  rewrite Hsplit, (Hgen l1 []) by exact Hnd.
  cbn [app Set_add_all]. apply Set_add_all_prefix.
Qed.

(** C6: along every sequence of assistant turns the three lists of the
    analysis never lose an element: what is present after the earlier turns
    is still present after any further turns. *)
Theorem analysis_sets_never_shrink
    (earlier later : list (Invoke AIData)) (a : RealTimeAnalysis) :
  weakAreas (analysis_after earlier a)
    ⊆ weakAreas (analysis_after (earlier ++ later) a) /\
  strongAreas (analysis_after earlier a)
    ⊆ strongAreas (analysis_after (earlier ++ later) a) /\
  topicsCovered (analysis_after earlier a)
    ⊆ topicsCovered (analysis_after (earlier ++ later) a).
Proof.
  unfold analysis_after. rewrite fold_left_app.
  generalize (fold_left (fun acc res => (getAIResponse acc res).1.1) earlier a).
  clear a earlier.
  induction later as [|res later IH]; intros a; cbn [fold_left].
  - repeat split; reflexivity.
  - destruct (getAIResponse_keeps a res) as (Hw & Hs & Ht).
    destruct (IH (getAIResponse a res).1.1) as (Hw' & Hs' & Ht').
    repeat split; etrans; eassumption.
Qed.

End AnalysisFacts.

(** ** Ending the session and walking through the quiz *)

Module SessionFacts.
Import JS StudyChat.

(** A usable quiz puts the component in quiz mode without ending the
    session. *)
Lemma handleEndStudyClick_starts_quiz
    (st : State) (q : QuizQuestion) (qs : list QuizQuestion) (now : Z) :
  let res := Returned (Some {| success := true; quiz_questions := Some (q :: qs) |})
               false in
  isQuizMode (handleEndStudyClick st res now).1 = true /\
  quizQuestions (handleEndStudyClick st res now).1 = q :: qs /\
  currentQuestionIndex (handleEndStudyClick st res now).1 = 0%nat /\
  userAnswers (handleEndStudyClick st res now).1 = [] /\
  (handleEndStudyClick st res now).2 = [].
Proof. repeat split. Qed.

(** C4: when the generated question list is empty or absent, or quiz
    generation fails, ending the study session skips quiz mode and calls
    onEndStudy at once with a summary holding topic, timeSpent, messages and
    analysis and no quizResult. *)
Theorem no_quiz_ends_session_without_result
    (st : State) (res : Invoke QuizData) (now : Z) :
  generation_failed res \/
  generated_questions res = None \/ generated_questions res = Some [] ->
  exists s : Summary,
    ((handleEndStudyClick st res now).2 = [OnEndStudy s] \/
     (handleEndStudyClick st res now).2 = [Toast "Quiz Error"; OnEndStudy s]) /\
    topic s = topic_or_default st /\
    timeSpent s = minutesSpent st now /\
    messages s = st_messages st /\
    analysis s = st_analysis st /\
    quizResult s = None /\
    isQuizMode (handleEndStudyClick st res now).1 = isQuizMode st /\
    quizQuestions (handleEndStudyClick st res now).1 = quizQuestions st /\
    userAnswers (handleEndStudyClick st res now).1 = userAnswers st.
Proof.
  intros Hno.
  exists {| topic := topic_or_default st; timeSpent := minutesSpent st now;
            messages := st_messages st; analysis := st_analysis st;
            quizResult := None |}.
  cbn [topic timeSpent messages analysis quizResult].
  destruct res as [|[d|] [|]]; cbn [handleEndStudyClick];
    try (split; [right; reflexivity | repeat split]).
  - destruct d as [[|] [[|q qs]|]]; cbn [fst snd];
      try (split; [left; reflexivity | repeat split]).
    exfalso. cbn in Hno. destruct Hno as [H | [H | H]]; discriminate H.
  - split; [left; reflexivity | repeat split].
Qed.

Lemma no_quiz_ends_session_without_result_witness :
  exists s : Summary,
    ((handleEndStudyClick (initialState 0) Samples.empty_quiz_reply 120000).2
       = [OnEndStudy s] \/
     (handleEndStudyClick (initialState 0) Samples.empty_quiz_reply 120000).2
       = [Toast "Quiz Error"; OnEndStudy s]) /\
    topic s = "General Study" /\
    timeSpent s = Z2SF 2 /\
    messages s = st_messages (initialState 0) /\
    analysis s = st_analysis (initialState 0) /\
    quizResult s = None /\
    isQuizMode
      (handleEndStudyClick (initialState 0) Samples.empty_quiz_reply 120000).1 = false /\
    quizQuestions
      (handleEndStudyClick (initialState 0) Samples.empty_quiz_reply 120000).1 = [] /\
    userAnswers
      (handleEndStudyClick (initialState 0) Samples.empty_quiz_reply 120000).1 = [].
Proof.
  apply (no_quiz_ends_session_without_result (initialState 0)
           Samples.empty_quiz_reply 120000).
  right. right. reflexivity.
Defined.

(** *** The quiz invariant *)

Lemma quizPanel_Some (st : State) (q : QuizQuestion) :
  quizPanel st = Some q ->
  isQuizMode st = true /\ showResult st = false /\
  quizQuestions st !! currentQuestionIndex st = Some q.
Proof.
  unfold quizPanel, currentQuestion.
  destruct (isQuizMode st), (showResult st); cbn; intros H;
    try discriminate H. repeat split. exact H.
Qed.

Lemma handleQuizAnswer_invariant (st : State) (a : string) (q : QuizQuestion) :
  quiz_invariant st -> quizPanel st = Some q -> showExplanation st = false ->
  quiz_invariant (handleQuizAnswer st a).
Proof.
  intros Hinv Hq Hexp. apply quizPanel_Some in Hq as (Hm & Hr & _).
  unfold quiz_invariant in *. cbn [handleQuizAnswer isQuizMode showResult
    currentQuestionIndex quizQuestions userAnswers showExplanation].
  rewrite Hm, Hr in *. rewrite Hexp in Hinv. destruct Hinv as [Hlt Hlen].
  split; [exact Hlt|]. rewrite length_app. cbn [length]. lia.
Qed.

Lemma handleNextQuestion_invariant (st : State) (now : Z) (q : QuizQuestion) :
  quiz_invariant st -> quizPanel st = Some q -> showExplanation st = true ->
  quiz_invariant (handleNextQuestion st now).1.
Proof.
  intros Hinv Hq Hexp. apply quizPanel_Some in Hq as (Hm & Hr & _).
  unfold quiz_invariant in Hinv. rewrite Hm, Hr, Hexp in Hinv.
  destruct Hinv as [Hlt Hlen].
  unfold handleNextQuestion.
  destruct (Z.ltb_spec (Z.of_nat (currentQuestionIndex st))
              (Z.of_nat (length (quizQuestions st)) - 1)) as [Hnext | Hlast].
  - unfold quiz_invariant. cbn [fst isQuizMode showResult currentQuestionIndex
      quizQuestions userAnswers showExplanation].
    rewrite Hm, Hr. split; lia.
  - unfold quiz_invariant, calculateQuizResults. cbn [fst isQuizMode showResult
      currentQuestionIndex quizQuestions userAnswers showExplanation].
    rewrite Hm. lia.
Qed.

Lemma handleEndStudyClick_invariant (st : State) (res : Invoke QuizData) (now : Z) :
  quiz_invariant st -> isQuizMode st = false ->
  quiz_invariant (handleEndStudyClick st res now).1.
Proof.
  intros Hinv Hm. unfold quiz_invariant in Hinv. rewrite Hm in Hinv.
  destruct Hinv as (Ha & He & Hr).
  destruct res as [|[d|] [|]]; cbn [handleEndStudyClick fst];
    try (unfold quiz_invariant; cbn; rewrite Hm; repeat split; assumption).
  destruct d as [[|] [[|q qs]|]]; cbn [fst];
    try (unfold quiz_invariant; cbn; rewrite Hm; repeat split; assumption).
  unfold quiz_invariant. cbn. rewrite Hr, He. split; [lia | reflexivity].
Qed.

Lemma handleSendMessage_invariant (st : State) (i : string) (img : option string)
    (res : Invoke AIData) (now now' : Z) :
  quiz_invariant st -> quiz_invariant (handleSendMessage st i img res now now').1.
Proof.
  intros Hinv. unfold handleSendMessage.
  destruct (negb (truthy (trim i)) && negb (truthy_opt img)); [exact Hinv|].
  destruct (getAIResponse (st_analysis st) res) as [[a r] t]. exact Hinv.
Qed.

Lemma ui_step_invariant (st st' : State) (ev : Event) (effs : list Effect) :
  quiz_invariant st -> ui_step st ev = Some (st', effs) -> quiz_invariant st'.
Proof.
  intros Hinv Hstep. destruct ev as [res now | i img res now now' | o | o | v | | now];
    cbn [ui_step] in Hstep.
  - destruct (isQuizMode st) eqn:Hm; cbn in Hstep; [discriminate|].
    destruct (quizLoading st); cbn in Hstep; [discriminate|].
    injection Hstep as Hst. apply (f_equal fst) in Hst. cbn [fst] in Hst.
    subst st'. apply handleEndStudyClick_invariant; assumption.
  - destruct (isQuizMode st) eqn:Hm; cbn in Hstep; [discriminate|].
    injection Hstep as Hst. apply (f_equal fst) in Hst. cbn [fst] in Hst.
    subst st'. apply handleSendMessage_invariant; assumption.
  - destruct (quizPanel st) as [q|] eqn:Hq; [|discriminate].
    destruct (q_type q), (options q) as [opts|]; try discriminate.
    destruct (bool_decide (o ∈ opts)); cbn in Hstep; [|discriminate].
    destruct (showExplanation st) eqn:He; cbn in Hstep; [discriminate|].
    injection Hstep as <- <-. eapply handleQuizAnswer_invariant; eassumption.
  - destruct (quizPanel st) as [q|] eqn:Hq; [|discriminate].
    destruct (q_type q); try discriminate.
    destruct (bool_decide (o ∈ ["True"; "False"])); cbn in Hstep; [|discriminate].
    destruct (showExplanation st) eqn:He; cbn in Hstep; [discriminate|].
    injection Hstep as <- <-. eapply handleQuizAnswer_invariant; eassumption.
  - destruct (quizPanel st) as [q|] eqn:Hq; [|discriminate].
    destruct (is_text_question q && negb (showExplanation st)); [|discriminate].
    injection Hstep as <- <-. exact Hinv.
  - destruct (quizPanel st) as [q|] eqn:Hq; [|discriminate].
    destruct (is_text_question q); cbn in Hstep; [|discriminate].
    destruct (showExplanation st) eqn:He; cbn in Hstep; [discriminate|].
    destruct (selectedOption st) as [s|]; [|discriminate].
    destruct (truthy s); [|discriminate].
    injection Hstep as <- <-. eapply handleQuizAnswer_invariant; eassumption.
  - destruct (quizPanel st) as [q|] eqn:Hq; [|discriminate].
    destruct (showExplanation st) eqn:He; [|discriminate].
    injection Hstep as Hst. apply (f_equal fst) in Hst. cbn [fst] in Hst.
    subst st'. eapply handleNextQuestion_invariant; eassumption.
Qed.

Lemma reachable_invariant (start : Z) (st : State) :
  reachable start st -> quiz_invariant st.
Proof.
  induction 1 as [|st ev st' effs _ IH Hstep].
  - unfold quiz_invariant. cbn. repeat split.
  - eapply ui_step_invariant; eassumption.
Qed.

Lemma quiz_invariant_length (st : State) :
  quiz_invariant st -> (length (userAnswers st) <= length (quizQuestions st))%nat.
Proof.
  unfold quiz_invariant.
  destruct (isQuizMode st), (showResult st), (showExplanation st);
    intros H; try lia.
  all: destruct H as (Ha & _); rewrite Ha; cbn; lia.
Qed.

(** An accepted submission appends its answer and opens the explanation. *)
Lemma submission_step (st st' : State) (ev : Event) (effs : list Effect) :
  is_submission ev = true -> ui_step st ev = Some (st', effs) ->
  exists (a : string) (q : QuizQuestion),
    submitted_answer st ev = Some a /\
    quizPanel st = Some q /\ showExplanation st = false /\
    st' = handleQuizAnswer st a.
Proof.
  intros Hsub Hstep. destruct ev as [| | o | o | | |]; try discriminate Hsub;
    cbn [ui_step] in Hstep;
    destruct (quizPanel st) as [q|] eqn:Hq; try discriminate Hstep.
  - destruct (q_type q), (options q) as [opts|]; try discriminate.
    destruct (bool_decide (o ∈ opts)); cbn in Hstep; [|discriminate].
    destruct (showExplanation st) eqn:He; cbn in Hstep; [discriminate|].
    injection Hstep as <- <-. exists o, q. repeat split.
  - destruct (q_type q); try discriminate.
    destruct (bool_decide (o ∈ ["True"; "False"])); cbn in Hstep; [|discriminate].
    destruct (showExplanation st) eqn:He; cbn in Hstep; [discriminate|].
    injection Hstep as <- <-. exists o, q. repeat split.
  - destruct (is_text_question q); cbn in Hstep; [|discriminate].
    destruct (showExplanation st) eqn:He; cbn in Hstep; [discriminate|].
    destruct (selectedOption st) as [s|] eqn:Hs; [|discriminate].
    destruct (truthy s); [|discriminate].
    injection Hstep as <- <-. exists s, q. cbn [submitted_answer].
    repeat split. exact Hs.
Qed.

(** While the explanation is open no submission is accepted. *)
Lemma submission_disabled (st : State) (ev : Event) :
  showExplanation st = true -> is_submission ev = true -> ui_step st ev = None.
Proof.
  intros He Hsub. destruct ev as [| | o | o | | |]; try discriminate Hsub;
    cbn [ui_step]; destruct (quizPanel st) as [q|]; try reflexivity.
  - destruct (q_type q), (options q); try reflexivity.
    rewrite He, andb_false_r. reflexivity.
  - destruct (q_type q); try reflexivity.
    rewrite He, andb_false_r. reflexivity.
  - rewrite He, andb_false_r. reflexivity.
Qed.

(** C7: in every state the component can reach, the answers are never more
    than the questions; an accepted submission appends exactly one answer,
    placed at the index of the current question, and until the learner
    moves on no further answer is accepted for that question. *)
Theorem answers_never_exceed_questions (start : Z) (st : State) :
  reachable start st ->
  (length (userAnswers st) <= length (quizQuestions st))%nat /\
  forall (ev : Event) (st' : State) (effs : list Effect),
    is_submission ev = true ->
    ui_step st ev = Some (st', effs) ->
    exists a : string,
      submitted_answer st ev = Some a /\
      userAnswers st' = userAnswers st ++ [a] /\
      length (userAnswers st) = currentQuestionIndex st /\
      currentQuestionIndex st' = currentQuestionIndex st /\
      quizQuestions st' = quizQuestions st /\
      (currentQuestionIndex st < length (quizQuestions st))%nat /\
      forall ev' : Event, is_submission ev' = true -> ui_step st' ev' = None.
Proof.
  intros Hreach. pose proof (reachable_invariant start st Hreach) as Hinv.
  split; [apply quiz_invariant_length; exact Hinv|].
  intros ev st' effs Hsub Hstep.
  destruct (submission_step st st' ev effs Hsub Hstep) as (a & q & Ha & Hq & He & ->).
  apply quizPanel_Some in Hq as (Hm & Hr & _).
  unfold quiz_invariant in Hinv. rewrite Hm, Hr, He in Hinv.
  destruct Hinv as [Hlt Hlen].
  exists a. split; [exact Ha|]. split; [reflexivity|]. split; [lia|].
  split; [reflexivity|]. split; [reflexivity|]. split; [exact Hlt|].
  intros ev' Hsub'. apply submission_disabled; [reflexivity | exact Hsub'].
Qed.

Lemma quiz_started_reachable : reachable 0 Samples.quiz_started.
Proof.
  eapply reachable_step with (ev := ClickEndStudy Samples.one_question_reply 60000).
  - apply reachable_init.
  - reflexivity.
Defined.

Lemma answers_never_exceed_questions_witness :
  (length (userAnswers Samples.quiz_started)
   <= length (quizQuestions Samples.quiz_started))%nat /\
  userAnswers (handleQuizAnswer Samples.quiz_started "True") = ["True"] /\
  ui_step (handleQuizAnswer Samples.quiz_started "True") (ClickTrueFalse "False") = None.
Proof.
  destruct (answers_never_exceed_questions 0 Samples.quiz_started
              quiz_started_reachable) as [Hlen Hsub].
  split; [exact Hlen|].
  destruct (Hsub (ClickTrueFalse "True") (handleQuizAnswer Samples.quiz_started "True")
              [] eq_refl eq_refl) as (a & Ha & Happ & _ & _ & _ & _ & Hdis).
  injection Ha as <-. split; [exact Happ|].
  apply Hdis. reflexivity.
Defined.

End SessionFacts.

(** ** The approval endpoint *)

Module ApprovalFacts.
Import JS Approval ApprovalSamples.

Lemma filter_unmatched (db : Database) (b : Body) (sid pwd : string) :
  schoolId b = Some sid -> schoolPassword b = Some pwd ->
  credentials_unmatched db b ->
  List.filter (school_matches sid pwd) (schools db) = [].
Proof.
  intros Hs Hp Hun. unfold credentials_unmatched in Hun.
  induction (schools db) as [|s l IH]; [reflexivity|].
  cbn [List.filter].
  destruct (school_matches sid pwd s) eqn:Hm.
  - exfalso. apply (Hun s); [apply list_elem_of_here|].
    unfold school_matches in Hm. apply andb_true_iff in Hm as [H1 H2].
    apply bool_decide_eq_true in H1, H2. rewrite Hs, Hp, H1, H2. split; reflexivity.
  - apply IH. intros s' Hin. apply Hun. apply list_elem_of_further. exact Hin.
Qed.

Lemma truthy_opt_Some (o : option string) :
  truthy_opt o = true -> exists s, o = Some s /\ truthy s = true.
Proof. destruct o as [s|]; [|discriminate]. intros H. exists s. split; [reflexivity | exact H]. Qed.

(** C8 (as stated, at concrete requests): an approval request whose
    password is the empty string matches no stored school record, yet it is
    answered 400 "Missing required fields", not 401; a request with a wrong
    password is answered 500 when the service key is not configured or when
    the school lookup reports an error. *)
Lemma unmatched_credentials_without_401 :
  (credentials_unmatched sample_db empty_password_body /\
   handler sample_env sample_db (post empty_password_body)
   = (failure 400 "Missing required fields", sample_db) /\
   http_status (handler sample_env sample_db (post empty_password_body)).1 <> 401) /\
  (credentials_unmatched sample_db wrong_password_body /\
   handler unconfigured_env sample_db (post wrong_password_body)
   = (failure 500 "Backend configuration error", sample_db) /\
   handler failing_lookup_env sample_db (post wrong_password_body)
   = (failure 500 "School validation failed", sample_db)).
Proof.
  split; split.
  - intros s Hs [_ Hp]. apply list_elem_of_singleton in Hs. subst s.
    discriminate Hp.
  - split; [reflexivity | discriminate].
  - intros s Hs [_ Hp]. apply list_elem_of_singleton in Hs. subst s.
    discriminate Hp.
  - split; reflexivity.
Qed.

(** C8 (amended): for every approval request that carries a non-empty
    action, schoolId, schoolPassword and studentId, on a configured backend
    whose school lookup reports no error, if the schoolId/schoolPassword
    pair matches no stored school record then the endpoint answers 401 with
    success=false and leaves every record as it was. *)
Theorem unmatched_credentials_get_401
    (env : Env) (db : Database) (req : Request) (b : Body) :
  method req <> "OPTIONS" ->
  payload req = Json (Some b) ->
  truthy_opt (action b) = true -> truthy_opt (schoolId b) = true ->
  truthy_opt (schoolPassword b) = true -> truthy_opt (studentId b) = true ->
  truthy_opt (SUPABASE_URL env) = true ->
  truthy_opt (SUPABASE_SERVICE_ROLE_KEY env) = true ->
  school_lookup_fails env = false ->
  credentials_unmatched db b ->
  handler env db req = (failure 401 "Invalid school credentials", db) /\
  http_status (handler env db req).1 = 401 /\
  success <$> body (handler env db req).1 = Some false /\
  (handler env db req).2 = db.
Proof.
  intros Hm Hp Ha Hs Hw Hi Hu Hk Hf Hun.
  assert (Heq : handler env db req = (failure 401 "Invalid school credentials", db)).
  { unfold handler. cbv zeta. rewrite bool_decide_eq_false_2 by exact Hm.
    rewrite Hp, Ha, Hs, Hw, Hi, Hu, Hk. cbn [negb orb].
    destruct (truthy_opt_Some _ Hs) as (sid & Es & _).
    destruct (truthy_opt_Some _ Hw) as (pwd & Ew & _).
    rewrite Es, Ew. cbn [default from_option id].
    rewrite (filter_unmatched db b sid pwd Es Ew Hun), Hf. reflexivity. }
  rewrite Heq. repeat split.
Qed.

Lemma unmatched_credentials_get_401_witness :
  handler sample_env sample_db (post wrong_password_body)
  = (failure 401 "Invalid school credentials", sample_db) /\
  http_status (handler sample_env sample_db (post wrong_password_body)).1 = 401 /\
  success <$> body (handler sample_env sample_db (post wrong_password_body)).1
  = Some false /\
  (handler sample_env sample_db (post wrong_password_body)).2 = sample_db.
Proof.
  apply (unmatched_credentials_get_401 sample_env sample_db
           (post wrong_password_body) wrong_password_body);
    try reflexivity.
  - discriminate.
  - intros s Hs [_ Hp]. apply list_elem_of_singleton in Hs. subst s.
    discriminate Hp.
Defined.

(** Every failure response leaves the database untouched. *)
Lemma failure_leaves_database (env : Env) (db : Database) (req : Request) :
  ~ succeeded (handler env db req).1 -> (handler env db req).2 = db.
Proof.
  unfold handler, succeeded.
  repeat (match goal with
          | |- context [if ?c then _ else _] => destruct c
          | |- context [match ?x with _ => _ end] => destruct x
          end; cbn [fst snd]; try reflexivity);
    intros H; exfalso; apply H; reflexivity.
Qed.

(** What a successful call did, read off the handler. *)
Lemma handler_success_inv (env : Env) (db : Database) (req : Request) :
  succeeded (handler env db req).1 ->
  exists (b : Body) (sid : string) (student : Student),
    payload req = Json (Some b) /\
    studentId b = Some sid /\
    List.filter (fun s => bool_decide (stu_id s = sid)) (students db) = [student] /\
    handler env db req
    = if bool_decide (action b = Some "approve")
      then (ok "approved",
            with_students db (update_students (approve (now_iso env)) sid (students db)))
      else (ok "rejected",
            with_students db
              (update_students
                 (reject (trim (or_else (rejectionReason b) "No reason provided")))
                 sid (students db))).
Proof.
  unfold handler, succeeded. cbv zeta.
  destruct (bool_decide (method req = "OPTIONS")); [discriminate|].
  destruct (payload req) as [msg | [b|]] eqn:Hpay; try discriminate.
  destruct (truthy_opt (action b)); cbn [negb orb]; [|discriminate].
  destruct (truthy_opt (schoolId b)); cbn [negb orb]; [|discriminate].
  destruct (truthy_opt (schoolPassword b)); cbn [negb orb]; [|discriminate].
  destruct (truthy_opt (studentId b)) eqn:Hid; cbn [negb orb]; [|discriminate].
  destruct (truthy_opt (SUPABASE_URL env)); cbn [negb orb]; [|discriminate].
  destruct (truthy_opt (SUPABASE_SERVICE_ROLE_KEY env)); cbn [negb orb]; [|discriminate].
  destruct (truthy_opt_Some _ Hid) as (sid & Es & _). rewrite Es. cbn [default from_option id].
  destruct (maybeSingle (school_lookup_fails env) _) as [|[school|]]; try discriminate.
  unfold maybeSingle at 1.
  destruct (student_lookup_fails env); [discriminate|].
  destruct (List.filter _ (students db)) as [|student [|other rest]] eqn:Hst;
    try discriminate.
  destruct (bool_decide (stu_school_id student = Some (sch_id school))) eqn:Hsch;
    cbn [negb]; [|discriminate].
  destruct (bool_decide (action b = Some "approve")) eqn:Hact.
  - destruct (update_fails env); [discriminate|].
    intros _. exists b, sid, student. rewrite Hact. cbn [maybeSingle].
    rewrite Hsch. cbn [negb]. repeat split; assumption.
  - destruct (update_fails env); [discriminate|].
    intros _. exists b, sid, student. rewrite Hact. cbn [maybeSingle].
    rewrite Hsch. cbn [negb]. repeat split; assumption.
Qed.

Lemma update_students_elem (f : Student -> Student) (sid : string)
    (rows : list Student) (s' : Student) :
  s' ∈ update_students f sid rows ->
  exists s, s ∈ rows /\ s' = if bool_decide (stu_id s = sid) then f s else s.
Proof.
  unfold update_students. intros H. apply list_elem_of_fmap in H as (s & -> & Hs).
  exists s. split; [exact Hs | reflexivity].
Qed.

Lemma filter_singleton_elem (sid : string) (rows : list Student) (student : Student) :
  List.filter (fun s => bool_decide (stu_id s = sid)) rows = [student] ->
  student ∈ rows /\ stu_id student = sid.
Proof.
  intros H.
  assert (Hin : In student (List.filter (fun s => bool_decide (stu_id s = sid)) rows))
    by (rewrite H; left; reflexivity).
  apply filter_In in Hin as [Hin Hid]. split.
  - apply list_elem_of_In. exact Hin.
  - apply bool_decide_eq_true in Hid. exact Hid.
Qed.

(** A successful call touches no school and no other student. *)
Lemma success_leaves_others (env : Env) (db : Database) (req : Request) (b : Body) :
  payload req = Json (Some b) ->
  succeeded (handler env db req).1 ->
  schools (handler env db req).2 = schools db /\
  length (students (handler env db req).2) = length (students db) /\
  forall s, s ∈ students db -> Some (stu_id s) <> studentId b ->
            s ∈ students (handler env db req).2.
Proof.
  intros Hp Hok.
  destruct (handler_success_inv env db req Hok)
    as (b' & sid & student & Hp' & Hid & Hst & Heq).
  rewrite Hp in Hp'. injection Hp' as <-. rewrite Heq, Hid.
  destruct (bool_decide (action b = Some "approve"));
    cbn [snd with_students schools students]; unfold update_students;
    (split; [reflexivity|]); (split; [apply length_fmap|]);
    intros s Hs Hne; apply list_elem_of_fmap; exists s;
    (rewrite bool_decide_eq_false_2 by congruence); split; auto.
Qed.

(** C10: when the endpoint succeeds, an "approve" action answers 200 with
    [{success: true, status: "approved"}] and leaves the student approved,
    with approved_at set to the current time and rejection_reason null; a
    "reject" action answers 200 with [{success: true, status: "rejected"}]
    and leaves the student not approved, with rejection_reason the trimmed
    supplied reason, or "No reason provided" when none is supplied. *)
Theorem successful_approval_effects
    (env : Env) (db : Database) (req : Request) (b : Body) :
  payload req = Json (Some b) ->
  succeeded (handler env db req).1 ->
  (action b = Some "approve" ->
     (handler env db req).1 = ok "approved" /\
     (exists s', s' ∈ students (handler env db req).2 /\ Some (stu_id s') = studentId b) /\
     forall s', s' ∈ students (handler env db req).2 ->
       Some (stu_id s') = studentId b ->
       is_approved s' = true /\
       approved_at s' = Some (now_iso env) /\
       rejection_reason s' = None) /\
  (action b = Some "reject" ->
     (handler env db req).1 = ok "rejected" /\
     (exists s', s' ∈ students (handler env db req).2 /\ Some (stu_id s') = studentId b) /\
     forall s', s' ∈ students (handler env db req).2 ->
       Some (stu_id s') = studentId b ->
       is_approved s' = false /\
       rejection_reason s'
       = Some (match rejectionReason b with
               | Some given => if truthy given then trim given else "No reason provided"
               | None => "No reason provided"
               end)).
Proof.
  intros Hp Hok.
  destruct (handler_success_inv env db req Hok) as (b' & sid & student & Hp' & Hid & Hst & Heq).
  rewrite Hp in Hp'. injection Hp' as <-.
  destruct (filter_singleton_elem sid (students db) student Hst) as [Hin Hsid].
  rewrite Heq, Hid. split; intros Hact; rewrite Hact.
  - rewrite bool_decide_eq_true_2 by reflexivity. cbn [fst snd with_students students].
    split; [reflexivity|]. split.
    + exists (approve (now_iso env) student). split.
      * unfold update_students. apply list_elem_of_fmap.
        exists student. rewrite bool_decide_eq_true_2 by exact Hsid.
        split; [reflexivity | exact Hin].
      * cbn. rewrite Hsid. reflexivity.
    + intros s' Hs' Hs'id. apply update_students_elem in Hs' as (s & Hs & ->).
      case_bool_decide as Hd; [repeat split|].
      exfalso. apply Hd. injection Hs'id as <-. reflexivity.
  - rewrite bool_decide_eq_false_2 by discriminate. cbn [fst snd with_students students].
    split; [reflexivity|]. split.
    + exists (reject (trim (or_else (rejectionReason b) "No reason provided")) student).
      split.
      * unfold update_students. apply list_elem_of_fmap.
        exists student. rewrite bool_decide_eq_true_2 by exact Hsid.
        split; [reflexivity | exact Hin].
      * cbn. rewrite Hsid. reflexivity.
    + intros s' Hs' Hs'id. apply update_students_elem in Hs' as (s & Hs & ->).
      case_bool_decide as Hd.
      * split; [reflexivity|]. cbn [reject rejection_reason]. f_equal.
        unfold or_else. destruct (rejectionReason b) as [given|]; [|reflexivity].
        destruct (truthy given); reflexivity.
      * exfalso. apply Hd. injection Hs'id as <-. reflexivity.
Qed.

Lemma successful_approval_effects_witness :
  (handler sample_env sample_db (post approve_body)).1 = ok "approved" /\
  students (handler sample_env sample_db (post approve_body)).2
  = [ {| stu_id := "stu-1"; stu_school_id := Some "5a0c"; is_approved := true;
         approved_at := Some "2025-12-31T04:56:44.000Z";
         rejection_reason := None |} ] /\
  (handler sample_env sample_db (post reject_body)).1 = ok "rejected" /\
  forall s', s' ∈ students (handler sample_env sample_db (post reject_body)).2 ->
    Some (stu_id s') = Some "stu-1" ->
    is_approved s' = false /\ rejection_reason s' = Some "Wrong class".
Proof.
  destruct (successful_approval_effects sample_env sample_db (post approve_body)
              approve_body eq_refl eq_refl) as [Happ _].
  destruct (successful_approval_effects sample_env sample_db (post reject_body)
              reject_body eq_refl eq_refl) as [_ Hrej].
  destruct (Happ eq_refl) as (Hr1 & _ & _).
  destruct (Hrej eq_refl) as (Hr2 & _ & Hall).
  split; [exact Hr1|]. split; [reflexivity|]. split; [exact Hr2|]. exact Hall.
Defined.

End ApprovalFacts.

(** ** Message reactions *)

Module ReactionFacts.
Import JS StudyChat Reactions.








End ReactionFacts.

(** ** The approval endpoint: guards, authorisation and composition *)

Module ApprovalGuards.
Import JS Approval ApprovalSamples MoreApprovalSamples.

(** Case analysis over every branch of [handler]. *)
Ltac handler_cases :=
  repeat (match goal with
          | |- context [if ?c then _ else _] => destruct c eqn:?
          | |- context [match ?x with _ => _ end] => destruct x eqn:?
          end; cbn [fst snd]).

Lemma filter_single_school (sid pwd : string) (rows : list School) (school : School) :
  List.filter (school_matches sid pwd) rows = [school] ->
  school ∈ rows /\ school_id school = sid /\ password_hash school = pwd.
Proof.
  intros H.
  assert (Hin : In school (List.filter (school_matches sid pwd) rows))
    by (rewrite H; left; reflexivity).
  apply filter_In in Hin as [Hin Hm]. unfold school_matches in Hm.
  apply andb_true_iff in Hm as [H1 H2].
  apply bool_decide_eq_true in H1, H2.
  split; [apply list_elem_of_In; exact Hin | split; assumption].
Qed.

Lemma filter_single_student (sid : string) (rows : list Student) (student : Student) :
  List.filter (fun s => bool_decide (stu_id s = sid)) rows = [student] ->
  student ∈ rows /\ stu_id student = sid.
Proof.
  intros H.
  assert (Hin : In student (List.filter (fun s => bool_decide (stu_id s = sid)) rows))
    by (rewrite H; left; reflexivity).
  apply filter_In in Hin as [Hin Hid]. split.
  - apply list_elem_of_In. exact Hin.
  - apply bool_decide_eq_true in Hid. exact Hid.
Qed.

Lemma truthy_opt_inv (o : option string) :
  truthy_opt o = true -> exists s, o = Some s /\ truthy s = true.
Proof.
  destruct o as [s|]; [|discriminate]. intros H. exists s.
  split; [reflexivity | exact H].
Qed.

(** Everything a successful call has checked. *)
Lemma handler_success_checks (env : Env) (db : Database) (req : Request) :
  succeeded (handler env db req).1 ->
  exists (b : Body) (sid pwd stu : string) (school : School) (student : Student),
    payload req = Json (Some b) /\
    schoolId b = Some sid /\ schoolPassword b = Some pwd /\ studentId b = Some stu /\
    truthy_opt (action b) = true /\
    List.filter (school_matches sid pwd) (schools db) = [school] /\
    List.filter (fun s => bool_decide (stu_id s = stu)) (students db) = [student] /\
    stu_school_id student = Some (sch_id school) /\
    (handler env db req).2
    = with_students db
        (update_students
           (if bool_decide (action b = Some "approve")
            then approve (now_iso env)
            else reject (trim (or_else (rejectionReason b) "No reason provided")))
           stu (students db)) /\
    (handler env db req).1
    = ok (if bool_decide (action b = Some "approve") then "approved" else "rejected").
Proof.
  unfold handler, succeeded. cbv zeta.
  destruct (bool_decide (method req = "OPTIONS")); [discriminate|].
  destruct (payload req) as [msg | [b|]] eqn:Hpay; try discriminate.
  destruct (truthy_opt (action b)) eqn:Hact; cbn [negb orb]; [|discriminate].
  destruct (truthy_opt (schoolId b)) eqn:Hsid; cbn [negb orb]; [|discriminate].
  destruct (truthy_opt (schoolPassword b)) eqn:Hpwd; cbn [negb orb]; [|discriminate].
  destruct (truthy_opt (studentId b)) eqn:Hid; cbn [negb orb]; [|discriminate].
  destruct (truthy_opt (SUPABASE_URL env)); cbn [negb orb]; [|discriminate].
  destruct (truthy_opt (SUPABASE_SERVICE_ROLE_KEY env)); cbn [negb orb]; [|discriminate].
  destruct (truthy_opt_inv _ Hsid) as (sid & Es & _).
  destruct (truthy_opt_inv _ Hpwd) as (pwd & Ep & _).
  destruct (truthy_opt_inv _ Hid) as (stu & Et & _).
  rewrite Es, Ep, Et. cbn [default from_option id].
  unfold maybeSingle at 1.
  destruct (school_lookup_fails env); [discriminate|].
  destruct (List.filter _ (schools db)) as [|school [|other rest]] eqn:Hsch;
    try discriminate.
  unfold maybeSingle at 1.
  destruct (student_lookup_fails env); [discriminate|].
  destruct (List.filter _ (students db)) as [|student [|other rest]] eqn:Hst;
    try discriminate.
  destruct (bool_decide (stu_school_id student = Some (sch_id school))) eqn:Hmem;
    cbn [negb]; [|discriminate].
  destruct (bool_decide (action b = Some "approve")) eqn:Ha;
    (destruct (update_fails env); [discriminate|]);
    intros _; exists b, sid, pwd, stu, school, student;
    cbn [maybeSingle]; rewrite Hmem, Ha; cbn [negb fst snd];
    apply bool_decide_eq_true in Hmem;
    repeat (split; [first [reflexivity | assumption]|]); reflexivity.
Qed.

(** For a typed body, 400 answers a missing member and nothing else. *)
Lemma typed_body_400 (env : Env) (db : Database) (req : Request) (ob : option Body) :
  method req <> "OPTIONS" ->
  payload req = Json ob ->
  (http_status (handler env db req).1 = 400 <->
   match ob with
   | Some b =>
       truthy_opt (action b) && truthy_opt (schoolId b) &&
       truthy_opt (schoolPassword b) && truthy_opt (studentId b) = false
   | None => True
   end) /\
  (http_status (handler env db req).1 = 400 ->
   handler env db req = (failure 400 "Missing required fields", db)).
Proof.
  intros Hm Hp. unfold handler. cbv zeta.
  rewrite bool_decide_eq_false_2 by exact Hm. rewrite Hp.
  destruct ob as [b|]; [|split; [split; [intros _; exact I | reflexivity] | reflexivity]].
  destruct (truthy_opt (action b)), (truthy_opt (schoolId b)),
    (truthy_opt (schoolPassword b)), (truthy_opt (studentId b));
    cbn [negb orb andb fst http_status failure];
    try (split; [split; reflexivity | reflexivity]).
  split; [split; [|discriminate] | ]; handler_cases; cbn; discriminate.
Qed.

(** The values the guard takes for missing. *)
Lemma falsy_cases (o : option Wire.Value) :
  Wire.falsy o = true <->
  o = None \/ o = Some Wire.VNull \/ o = Some (Wire.VBool false) \/
  (exists s, o = Some (Wire.VNumber (S754_zero s))) \/
  o = Some (Wire.VNumber S754_nan) \/ o = Some (Wire.VString "").
Proof.
  split.
  - destruct o as [[|[|]|[s| | |s m e]|[|c r]|]|]; cbn; try discriminate; intros _.
    + right; left; reflexivity.
    + right; right; left; reflexivity.
    + right; right; right; left; exists s; reflexivity.
    + right; right; right; right; left; reflexivity.
    + right; right; right; right; right; reflexivity.
    + left; reflexivity.
  - intros [-> | [-> | [-> | [[s ->] | [-> | ->]]]]]; reflexivity.
Qed.

(** On a member that is a string the guard is the test of [truthy_opt]. *)
Lemma falsy_as_string (o : option Wire.Value) (t : option string) :
  Wire.as_string o = Some t -> Wire.falsy o = negb (truthy_opt t).
Proof.
  destruct o as [[| | | |]|]; cbn; try discriminate; intros [= <-]; reflexivity.
Qed.

Lemma typed_guard (v : Wire.Parsed) (b : Body) :
  Wire.typed v = Some (Some b) ->
  Wire.missing_required v
  = negb (truthy_opt (action b)) || negb (truthy_opt (schoolId b))
    || negb (truthy_opt (schoolPassword b)) || negb (truthy_opt (studentId b)).
Proof.
  destruct v as [members|]; [|discriminate]. unfold Wire.typed, Wire.missing_required.
  destruct (Wire.as_string (Wire.member _ "action")) as [a|] eqn:Ha; [|discriminate].
  destruct (Wire.as_string (Wire.member _ "schoolId")) as [sid|] eqn:Hs; [|discriminate].
  destruct (Wire.as_string (Wire.member _ "schoolPassword")) as [pwd|] eqn:Hp;
    [|discriminate].
  destruct (Wire.as_string (Wire.member _ "studentId")) as [stu|] eqn:Hi;
    [|discriminate].
  destruct (Wire.as_string (Wire.member _ "rejectionReason")) as [reason|];
    [|discriminate].
  intros [= <-]. cbn [action schoolId schoolPassword studentId].
  rewrite (falsy_as_string _ _ Ha), (falsy_as_string _ _ Hs),
    (falsy_as_string _ _ Hp), (falsy_as_string _ _ Hi). reflexivity.
Qed.

(** On a typed body the handler on parsed values is the typed handler. *)
Lemma handler_value_typed (env : Env) (db : Database) (m : string)
    (v : Wire.Parsed) (ob : option Body) :
  Wire.typed v = Some ob ->
  Wire.handler_value env db m v
  = Some (handler env db {| method := m; payload := Json ob |}).
Proof.
  intros Ht. unfold Wire.handler_value, handler. cbn [method payload].
  destruct (bool_decide (m = "OPTIONS")) eqn:Hm; [reflexivity|]. rewrite Ht.
  cbn [fmap option_fmap option_map method payload]. rewrite ?Hm.
  destruct ob as [b|].
  - rewrite (typed_guard v b Ht).
    destruct (negb (truthy_opt (action b)) || negb (truthy_opt (schoolId b))
              || negb (truthy_opt (schoolPassword b))
              || negb (truthy_opt (studentId b))); reflexivity.
  - destruct v as [members|]; [|reflexivity].
    unfold Wire.typed in Ht.
    repeat match type of Ht with
           | context [match ?x with _ => _ end] => destruct x
           end; discriminate Ht.
Qed.

(** X2 ([handler], lines 23-30): a request is answered 400 exactly when the
    parsed body has a missing or falsy action, schoolId, schoolPassword or
    studentId: the member is absent or is [null], [false], zero, NaN or the
    empty string ([falsy_cases]), as it is in particular when the body is
    not an object.  The answer is then "Missing required fields" and no
    record changes.  The statement covers every body the guard refuses and
    every body whose members are strings; a body that passes the guard
    with a member of another type is left out ([Wire.handler_value]). *)
Theorem missing_field_is_the_only_400
    (env : Env) (db : Database) (m : string) (v : Wire.Parsed)
    (r : Response) (db' : Database) :
  m <> "OPTIONS" ->
  Wire.handler_value env db m v = Some (r, db') ->
  (http_status r = 400 <->
   exists k : string,
     k ∈ ["action"; "schoolId"; "schoolPassword"; "studentId"] /\
     Wire.falsy (Wire.member v k) = true) /\
  (http_status r = 400 ->
   r = failure 400 "Missing required fields" /\ db' = db).
Proof.
  intros Hm Hrun.
  assert (Hguard : Wire.missing_required v = true <->
            exists k : string,
              k ∈ ["action"; "schoolId"; "schoolPassword"; "studentId"] /\
              Wire.falsy (Wire.member v k) = true).
  { unfold Wire.missing_required. rewrite !orb_true_iff. split.
    - intros [[[H|H]|H]|H]; eexists; (split; [|exact H]);
        repeat first [apply list_elem_of_here | apply list_elem_of_further].
    - intros (k & Hk & Hf).
      repeat (apply elem_of_cons in Hk as [->|Hk]; [tauto|]).
      apply elem_of_nil in Hk. contradiction. }
  rewrite <- Hguard. clear Hguard.
  unfold Wire.handler_value in Hrun.
  rewrite bool_decide_eq_false_2 in Hrun by exact Hm.
  destruct (Wire.missing_required v) eqn:Hmiss.
  - injection Hrun as <- <-. split; [split; reflexivity|].
    intros _. split; reflexivity.
  - destruct (Wire.typed v) as [ob|] eqn:Ht; [|discriminate Hrun].
    cbn [fmap option_fmap option_map] in Hrun. injection Hrun as Hrun.
    destruct (typed_body_400 env db {| method := m; payload := Json ob |} ob
                Hm eq_refl) as [Hiff _].
    assert (Hno : http_status r = 400 -> False).
    { intros H400. apply (f_equal fst) in Hrun. cbn [fst] in Hrun.
      rewrite <- Hrun in H400. apply Hiff in H400.
      destruct ob as [b|].
      - rewrite (typed_guard v b Ht) in Hmiss.
        destruct (truthy_opt (action b)), (truthy_opt (schoolId b)),
          (truthy_opt (schoolPassword b)), (truthy_opt (studentId b));
          discriminate.
      - destruct v as [members|]; [|discriminate Hmiss].
        unfold Wire.typed in Ht.
        repeat match type of Ht with
               | context [match ?x with _ => _ end] => destruct x
               end; discriminate Ht. }
    split; [split; [intros H; destruct (Hno H) | discriminate]|].
    intros H. destruct (Hno H).
Qed.

Lemma missing_field_is_the_only_400_witness :
  (http_status (failure 400 "Missing required fields") = 400 <->
   exists k : string,
     k ∈ ["action"; "schoolId"; "schoolPassword"; "studentId"] /\
     Wire.falsy (Wire.member zero_action_value k) = true) /\
  (http_status (failure 400 "Missing required fields") = 400 ->
   failure 400 "Missing required fields" = failure 400 "Missing required fields" /\
   sample_db = sample_db).
Proof.
  apply (missing_field_is_the_only_400 sample_env sample_db "POST"
           zero_action_value (failure 400 "Missing required fields") sample_db).
  - discriminate.
  - reflexivity.
Defined.

(** X3 ([handler], lines 44-87): the endpoint succeeds only for a request
    whose schoolId and schoolPassword are those of a stored school record
    and whose studentId is that of a stored student belonging to this very
    school. *)
Theorem success_requires_credentials_and_membership
    (env : Env) (db : Database) (req : Request) (b : Body) :
  payload req = Json (Some b) ->
  succeeded (handler env db req).1 ->
  exists (school : School) (student : Student),
    school ∈ schools db /\
    Some (school_id school) = schoolId b /\
    Some (password_hash school) = schoolPassword b /\
    student ∈ students db /\
    Some (stu_id student) = studentId b /\
    stu_school_id student = Some (sch_id school).
Proof.
  intros Hp Hok.
  destruct (handler_success_checks env db req Hok)
    as (b' & sid & pwd & stu & school & student & Hp' & Hs & Hw & Hi & _ &
        Hsch & Hst & Hmem & _).
  rewrite Hp in Hp'. injection Hp' as <-.
  destruct (filter_single_school _ _ _ _ Hsch) as (Hin & H1 & H2).
  destruct (filter_single_student _ _ _ Hst) as (Hin' & H3).
  exists school, student. rewrite Hs, Hw, Hi, H1, H2, H3.
  repeat split; assumption.
Qed.

Lemma success_requires_credentials_and_membership_witness :
  exists (school : School) (student : Student),
    school ∈ schools sample_db /\
    Some (school_id school) = schoolId approve_body /\
    Some (password_hash school) = schoolPassword approve_body /\
    student ∈ students sample_db /\
    Some (stu_id student) = studentId approve_body /\
    stu_school_id student = Some (sch_id school).
Proof.
  apply (success_requires_credentials_and_membership sample_env sample_db
           (post approve_body) approve_body); reflexivity.
Defined.

(** X4 ([handler], lines 89-134): whatever the request, the endpoint never
    touches a school record, never adds, removes or reorders student
    records, never changes a student's id or school, and leaves every
    student other than the one named by the request exactly as it was. *)
Theorem only_target_student_changes
    (env : Env) (db : Database) (req : Request) :
  schools (handler env db req).2 = schools db /\
  length (students (handler env db req).2) = length (students db) /\
  forall (i : nat) (s : Student),
    students db !! i = Some s ->
    exists s',
      students (handler env db req).2 !! i = Some s' /\
      stu_id s' = stu_id s /\
      stu_school_id s' = stu_school_id s /\
      ((forall b, payload req = Json (Some b) -> studentId b <> Some (stu_id s)) ->
       s' = s).
Proof.
  destruct (success <$> body (handler env db req).1) as [[|]|] eqn:Hs.
  - assert (Hok : succeeded (handler env db req).1) by exact Hs.
    destruct (handler_success_checks env db req Hok)
      as (b & sid & pwd & stu & school & student & Hp & _ & _ & Hi & _ &
          _ & _ & _ & Hdb & _).
    rewrite Hdb. cbn [with_students schools students]. unfold update_students.
    split; [reflexivity|]. split; [apply length_fmap|].
    intros i s Hl. rewrite list_lookup_fmap, Hl. cbn [fmap option_fmap option_map].
    eexists. split; [reflexivity|].
    destruct (bool_decide (stu_id s = stu)) eqn:Hid.
    + apply bool_decide_eq_true in Hid.
      destruct (bool_decide (action b = Some "approve")); cbn;
        (split; [reflexivity|]); (split; [reflexivity|]);
        intros Hne; exfalso; apply (Hne b Hp); rewrite Hi, Hid; reflexivity.
    + repeat split; reflexivity.
  - rewrite (ApprovalFacts.failure_leaves_database env db req)
      by (unfold succeeded; rewrite Hs; discriminate).
    split; [reflexivity|]. split; [reflexivity|].
    intros i s Hl. exists s. split; [exact Hl|]. repeat split; reflexivity.
  - rewrite (ApprovalFacts.failure_leaves_database env db req)
      by (unfold succeeded; rewrite Hs; discriminate).
    split; [reflexivity|]. split; [reflexivity|].
    intros i s Hl. exists s. split; [exact Hl|]. repeat split; reflexivity.
Qed.

(** X5 ([handler], lines 17-142): every answer is of one of three shapes: the
    empty 200 answer to OPTIONS; status 200 with success=true and status
    "approved" or "rejected"; or status 400, 401, 404 or 500 with
    success=false and an error message, in which case no record has
    changed. *)
Theorem response_shape (env : Env) (db : Database) (req : Request) :
  (method req = "OPTIONS" /\
   handler env db req = ({| http_status := 200; body := None |}, db)) \/
  (method req <> "OPTIONS" /\
   ((handler env db req).1 = ok "approved" \/ (handler env db req).1 = ok "rejected")) \/
  (method req <> "OPTIONS" /\
   exists (code : Z) (msg : string),
     handler env db req = (failure code msg, db) /\
     (code = 400 \/ code = 401 \/ code = 404 \/ code = 500)).
Proof.
  unfold handler. cbv zeta.
  case_bool_decide as Hm; [left; split; [exact Hm | reflexivity]|].
  right.
  handler_cases;
    first [ left; split; [exact Hm|]; first [left; reflexivity | right; reflexivity]
          | right; split; [exact Hm|]; eexists _, _; split; [reflexivity|]; lia ].
Qed.

(** X6 ([handler], lines 89 and 113-134): the action is compared with
    "approve" only.  Every successful request whose action is anything else
    ("reject", "Approve", "delete", ...) is carried out as a rejection: the
    answer is [{success: true, status: "rejected"}] and the student is left
    not approved, with the trimmed reason or "No reason provided". *)
Theorem any_other_action_rejects
    (env : Env) (db : Database) (req : Request) (b : Body) :
  payload req = Json (Some b) ->
  succeeded (handler env db req).1 ->
  action b <> Some "approve" ->
  (handler env db req).1 = ok "rejected" /\
  (exists s', s' ∈ students (handler env db req).2 /\ Some (stu_id s') = studentId b) /\
  forall s', s' ∈ students (handler env db req).2 ->
    Some (stu_id s') = studentId b ->
    is_approved s' = false /\
    rejection_reason s'
    = Some (trim (or_else (rejectionReason b) "No reason provided")).
Proof.
  intros Hp Hok Hact.
  destruct (handler_success_checks env db req Hok)
    as (b' & sid & pwd & stu & school & student & Hp' & _ & _ & Hi & _ &
        _ & Hst & _ & Hdb & Hr).
  rewrite Hp in Hp'. injection Hp' as <-.
  rewrite bool_decide_eq_false_2 in Hdb, Hr by exact Hact.
  destruct (filter_single_student _ _ _ Hst) as (Hin & Hsid).
  rewrite Hr, Hdb, Hi. cbn [with_students students].
  split; [reflexivity|]. split.
  - exists (reject (trim (or_else (rejectionReason b) "No reason provided")) student).
    split.
    + unfold update_students. apply list_elem_of_fmap. exists student.
      rewrite bool_decide_eq_true_2 by exact Hsid. split; [reflexivity | exact Hin].
    + cbn. rewrite Hsid. reflexivity.
  - intros s' Hs' Hid. unfold update_students in Hs'.
    apply list_elem_of_fmap in Hs' as (s & -> & Hs).
    case_bool_decide as Hd; [split; reflexivity|].
    exfalso. apply Hd. injection Hid as <-. reflexivity.
Qed.

Lemma any_other_action_rejects_witness :
  (handler sample_env sample_db (post capital_approve_body)).1 = ok "rejected" /\
  (exists s', s' ∈ students (handler sample_env sample_db (post capital_approve_body)).2 /\
              Some (stu_id s') = Some "stu-1") /\
  forall s', s' ∈ students (handler sample_env sample_db (post capital_approve_body)).2 ->
    Some (stu_id s') = Some "stu-1" ->
    is_approved s' = false /\
    rejection_reason s' = Some "No reason provided".
Proof.
  apply (any_other_action_rejects sample_env sample_db
           (post capital_approve_body) capital_approve_body).
  - reflexivity.
  - reflexivity.
  - discriminate.
Defined.

(** X7 ([handler], lines 67-87): with valid school credentials on a working
    backend, a studentId that no stored student of this school carries
    (unknown, or belonging to another school) is answered 404 "Student not
    found for this school" and no record changes. *)
Theorem foreign_student_is_404
    (env : Env) (db : Database) (req : Request) (b : Body) (school : School) :
  method req <> "OPTIONS" ->
  payload req = Json (Some b) ->
  truthy_opt (action b) = true -> truthy_opt (schoolId b) = true ->
  truthy_opt (schoolPassword b) = true -> truthy_opt (studentId b) = true ->
  truthy_opt (SUPABASE_URL env) = true ->
  truthy_opt (SUPABASE_SERVICE_ROLE_KEY env) = true ->
  school_lookup_fails env = false ->
  student_lookup_fails env = false ->
  List.filter (school_matches (default "" (schoolId b)) (default "" (schoolPassword b)))
    (schools db) = [school] ->
  NoDup (stu_id <$> students db) ->
  (forall s, s ∈ students db -> Some (stu_id s) = studentId b ->
             stu_school_id s <> Some (sch_id school)) ->
  handler env db req = (failure 404 "Student not found for this school", db).
Proof.
  intros Hm Hp Ha Hs Hw Hi Hu Hk Hf1 Hf2 Hsch Hnd Hforeign.
  unfold handler. cbv zeta. rewrite bool_decide_eq_false_2 by exact Hm.
  rewrite Hp, Ha, Hs, Hw, Hi, Hu, Hk. cbn [negb orb].
  rewrite Hsch, Hf1, Hf2. cbn [maybeSingle].
  destruct (truthy_opt_inv _ Hi) as (stu & Et & _). rewrite Et in *.
  cbn [default from_option id].
  destruct (List.filter _ (students db)) as [|student [|other rest]] eqn:Hst.
  - reflexivity.
  - destruct (filter_single_student _ _ _ Hst) as (Hin & Hid).
    rewrite bool_decide_eq_false_2; [reflexivity|].
    apply Hforeign; [exact Hin | rewrite Hid; reflexivity].
  - exfalso. clear Hforeign.
    assert (H1 : In student (List.filter (fun s => bool_decide (stu_id s = stu))
                               (students db))) by (rewrite Hst; left; reflexivity).
    assert (Hsub : forall l : list Student,
      NoDup (stu_id <$> l) ->
      (length (List.filter (fun s => bool_decide (stu_id s = stu)) l) <= 1)%nat).
    { induction l as [|x l IH]; intros Hl; [cbn; lia|].
      cbn [fmap list_fmap] in Hl. apply NoDup_cons in Hl as [Hx Hl].
      cbn [List.filter]. case_bool_decide as Hxs; [|apply IH; exact Hl].
      assert (Hnone : List.filter (fun s => bool_decide (stu_id s = stu)) l = []).
      { destruct (List.filter _ l) as [|y ys] eqn:Hy; [reflexivity|].
        exfalso. apply Hx.
        assert (Hiny : In y (List.filter (fun s => bool_decide (stu_id s = stu)) l))
          by (rewrite Hy; left; reflexivity).
        apply filter_In in Hiny as [Hiny Hyid]. apply bool_decide_eq_true in Hyid.
        apply list_elem_of_fmap. exists y. split; [congruence|].
        apply list_elem_of_In. exact Hiny. }
      rewrite Hnone. cbn. lia. }
    specialize (Hsub _ Hnd). rewrite Hst in Hsub. cbn in Hsub. lia.
Qed.

Lemma foreign_student_is_404_witness :
  handler sample_env sample_db (post unknown_student_body)
  = (failure 404 "Student not found for this school", sample_db).
Proof.
  apply (foreign_student_is_404 sample_env sample_db (post unknown_student_body)
           unknown_student_body sample_school); try reflexivity.
  - discriminate.
  - cbn. apply NoDup_singleton.
  - intros s Hs Hid. apply list_elem_of_singleton in Hs. subst s. discriminate Hid.
Defined.

(** X8 ([handler], lines 92-96 and 117-120): a rejection writes
    [is_approved] and [rejection_reason] only.  When a student is approved
    and later rejected, the record keeps the time of the earlier approval in
    [approved_at] although it is no longer approved. *)
Theorem rejection_keeps_approval_time
    (env1 env2 : Env) (db : Database) (req1 req2 : Request) (b1 b2 : Body) :
  payload req1 = Json (Some b1) ->
  payload req2 = Json (Some b2) ->
  action b1 = Some "approve" ->
  action b2 <> Some "approve" ->
  studentId b2 = studentId b1 ->
  succeeded (handler env1 db req1).1 ->
  succeeded (handler env2 (handler env1 db req1).2 req2).1 ->
  forall s', s' ∈ students (handler env2 (handler env1 db req1).2 req2).2 ->
    Some (stu_id s') = studentId b1 ->
    is_approved s' = false /\
    approved_at s' = Some (now_iso env1) /\
    rejection_reason s'
    = Some (trim (or_else (rejectionReason b2) "No reason provided")).
Proof.
  intros Hp1 Hp2 Ha1 Ha2 Hsame Hok1 Hok2 s' Hs' Hid.
  destruct (handler_success_checks env1 db req1 Hok1)
    as (b & sid & pwd & stu & school & student & Hp & _ & _ & Hi & _ &
        _ & _ & _ & Hdb & _).
  rewrite Hp1 in Hp. injection Hp as <-.
  rewrite bool_decide_eq_true_2 in Hdb by exact Ha1.
  destruct (handler_success_checks env2 _ req2 Hok2)
    as (b & sid2 & pwd2 & stu2 & school2 & student2 & Hp & _ & _ & Hi2 & _ &
        _ & _ & _ & Hdb2 & _).
  rewrite Hp2 in Hp. injection Hp as <-.
  rewrite bool_decide_eq_false_2 in Hdb2 by exact Ha2.
  assert (stu2 = stu) by congruence. subst stu2.
  rewrite Hdb2, Hdb in Hs'. cbn [with_students students] in Hs'.
  unfold update_students in Hs'.
  apply list_elem_of_fmap in Hs' as (s1 & -> & Hs1).
  apply list_elem_of_fmap in Hs1 as (s0 & -> & Hs0).
  rewrite Hi in Hid.
  destruct (bool_decide (stu_id s0 = stu)) eqn:H0.
  - cbn [approve stu_id]. rewrite H0. repeat split.
  - rewrite H0. exfalso. rewrite H0 in Hid.
    apply bool_decide_eq_false in H0. apply H0. congruence.
Qed.

Lemma rejection_keeps_approval_time_witness :
  exists s' : Student,
    students (handler later_env (handler sample_env sample_db (post approve_body)).2
                (post reject_body)).2 = [s'] /\
    is_approved s' = false /\
    approved_at s' = Some "2025-12-31T04:56:44.000Z" /\
    rejection_reason s' = Some "Wrong class".
Proof.
  eexists. split; [reflexivity|].
  apply (rejection_keeps_approval_time sample_env later_env sample_db
           (post approve_body) (post reject_body) approve_body reject_body);
    try reflexivity.
  - discriminate.
  - apply list_elem_of_here.
Defined.

End ApprovalGuards.

(** ** Runs of the chat component: messages, topic and quiz progress *)

Module RunFacts.
Import JS StudyChat Runs.

Lemma getAIResponse_reply_nonempty (a : RealTimeAnalysis) (res : Invoke AIData) :
  (getAIResponse a res).1.2 <> Text "".
Proof.
  destruct res as [|[[e sa [r|]]|] [|]]; cbn; try discriminate.
  destruct r; cbn; discriminate.
Qed.

(** *** One step of the component *)

Lemma ui_step_cases (st st' : State) (ev : Event) (effs : list Effect) :
  ui_step st ev = Some (st', effs) ->
  (isQuizMode st = false /\
   ((exists res now,
       quizLoading st = false /\ (st', effs) = handleEndStudyClick st res now) \/
    (exists i img res now now',
       (st', effs) = handleSendMessage st i img res now now'))) \/
  (exists q, quizPanel st = Some q /\
     ((exists a, showExplanation st = false /\ answerable q = true /\
                 st' = handleQuizAnswer st a /\ effs = []) \/
      (exists v, showExplanation st = false /\ answerable q = true /\
                 st' = setSelectedOption st (Some v) /\ effs = []) \/
      (exists now, showExplanation st = true /\
                   (st', effs) = handleNextQuestion st now))).
Proof.
  intros Hstep.
  destruct ev as [res now | i img res now now' | o | o | v | | now];
    cbn [ui_step] in Hstep.
  - destruct (isQuizMode st) eqn:Hm; cbn in Hstep; [discriminate|].
    destruct (quizLoading st) eqn:Hl; cbn in Hstep; [discriminate|].
    injection Hstep as Hst. left. split; [reflexivity|]. left.
    exists res, now. split; [reflexivity | symmetry; exact Hst].
  - destruct (isQuizMode st) eqn:Hm; cbn in Hstep; [discriminate|].
    injection Hstep as Hst. left. split; [reflexivity|]. right.
    exists i, img, res, now, now'. symmetry; exact Hst.
  - destruct (quizPanel st) as [q|] eqn:Hq; [|discriminate].
    destruct (q_type q) eqn:Hty, (options q) as [opts|] eqn:Hop; try discriminate.
    destruct (bool_decide (o ∈ opts)) eqn:Hin; cbn in Hstep; [|discriminate].
    destruct (showExplanation st) eqn:He; cbn in Hstep; [discriminate|].
    injection Hstep as <- <-. right. exists q. split; [reflexivity|]. left.
    exists o. repeat split. unfold answerable. rewrite Hty, Hop.
    apply bool_decide_eq_true in Hin. destruct opts; [|reflexivity].
    apply elem_of_nil in Hin. contradiction.
  - destruct (quizPanel st) as [q|] eqn:Hq; [|discriminate].
    destruct (q_type q) eqn:Hty; try discriminate.
    destruct (bool_decide (o ∈ ["True"; "False"])); cbn in Hstep; [|discriminate].
    destruct (showExplanation st) eqn:He; cbn in Hstep; [discriminate|].
    injection Hstep as <- <-. right. exists q. split; [reflexivity|]. left.
    exists o. repeat split. unfold answerable. rewrite Hty. reflexivity.
  - destruct (quizPanel st) as [q|] eqn:Hq; [|discriminate].
    destruct (is_text_question q) eqn:Htx; cbn in Hstep; [|discriminate].
    destruct (showExplanation st) eqn:He; cbn in Hstep; [discriminate|].
    injection Hstep as <- <-. right. exists q. split; [reflexivity|].
    right. left. exists v. repeat split. unfold answerable, is_text_question in *.
    destruct (q_type q); first [reflexivity | discriminate].
  - destruct (quizPanel st) as [q|] eqn:Hq; [|discriminate].
    destruct (is_text_question q) eqn:Htx; cbn in Hstep; [|discriminate].
    destruct (showExplanation st) eqn:He; cbn in Hstep; [discriminate|].
    destruct (selectedOption st) as [s|] eqn:Hs; [|discriminate].
    destruct (truthy s); [|discriminate].
    injection Hstep as <- <-. right. exists q. split; [reflexivity|]. left.
    exists s. repeat split. unfold answerable, is_text_question in *.
    destruct (q_type q); first [reflexivity | discriminate].
  - destruct (quizPanel st) as [q|] eqn:Hq; [|discriminate].
    destruct (showExplanation st) eqn:He; [|discriminate].
    injection Hstep as Hst. right. exists q. split; [reflexivity|].
    right. right. exists now. split; [reflexivity | symmetry; exact Hst].
Qed.

(** Membership of a summary in a short, explicit list of effects. *)
Ltac summary_in H :=
  repeat first
    [ apply elem_of_nil in H; contradiction
    | apply elem_of_cons in H as [H|H]; [first [discriminate H | injection H as ->]|] ].

Lemma handleEndStudyClick_keeps (st : State) (res : Invoke QuizData) (now : Z) :
  isQuizMode st = false ->
  step_keeps st (handleEndStudyClick st res now).1 (handleEndStudyClick st res now).2.
Proof.
  intros Hm. unfold step_keeps. rewrite Hm.
  destruct res as [|[[[|] [[|q qs]|]]|] [|]];
    cbn [handleEndStudyClick fst snd startTime st_messages currentTopic
         finishStudySession];
    (split; [reflexivity|]);
    (split; [first [reflexivity | apply prefix_app_r; reflexivity]|]);
    (split; [intros _; reflexivity|]);
    (split; [left; reflexivity|]);
    (split; [|discriminate]);
    intros s Hs; summary_in Hs; repeat split.
Qed.

Lemma handleSendMessage_keeps (st : State) (i : string) (img : option string)
    (res : Invoke AIData) (now now' : Z) :
  isQuizMode st = false ->
  step_keeps st (handleSendMessage st i img res now now').1
    (handleSendMessage st i img res now now').2.
Proof.
  intros Hm. unfold step_keeps, handleSendMessage. rewrite Hm.
  destruct (negb (truthy (trim i)) && negb (truthy_opt img)).
  - cbn [fst snd]. repeat split; try reflexivity; try discriminate.
    + left. reflexivity.
    + apply elem_of_nil in H. contradiction.
    + apply elem_of_nil in H. contradiction.
    + apply elem_of_nil in H. contradiction.
  - assert (Ht : forall s, OnEndStudy s ∈ (getAIResponse (st_analysis st) res).2 -> False).
    { intros s Hs. destruct res as [|[[[e|] sa r]|] [|]]; cbn in Hs;
        try destruct (truthy e); summary_in Hs. }
    destruct (getAIResponse (st_analysis st) res) as [[a r] t].
    cbn [fst snd startTime st_messages currentTopic] in *.
    split; [reflexivity|]. split; [apply prefix_app_r; reflexivity|].
    split; [|split; [|split; [|discriminate]]].
    + intros Hc. rewrite Hc. destruct (List.find _ topicKeywords); reflexivity.
    + destruct (List.find _ topicKeywords) as [t0|] eqn:Hf; [|left; reflexivity].
      destruct (truthy (currentTopic st)); [left; reflexivity|].
      right. exists t0. split; [|reflexivity].
      apply find_some in Hf as [Hin _]. apply list_elem_of_In. exact Hin.
    + intros s Hs. exfalso. exact (Ht s Hs).
Qed.

Lemma handleQuizAnswer_keeps (st : State) (a : string) :
  step_keeps st (handleQuizAnswer st a) [].
Proof.
  unfold step_keeps. cbn [handleQuizAnswer startTime st_messages currentTopic
    isQuizMode quizQuestions userAnswers currentQuestionIndex st_analysis].
  split; [reflexivity|]. split; [reflexivity|]. split; [intros _; reflexivity|].
  split; [left; reflexivity|]. split.
  - intros s Hs. apply elem_of_nil in Hs. contradiction.
  - intros Hm. split; [exact Hm|]. split; [reflexivity|].
    split; [apply prefix_app_r; reflexivity|]. repeat split. lia.
Qed.

Lemma setSelectedOption_keeps (st : State) (v : option string) :
  step_keeps st (setSelectedOption st v) [].
Proof.
  unfold step_keeps. cbn [setSelectedOption startTime st_messages currentTopic
    isQuizMode quizQuestions userAnswers currentQuestionIndex st_analysis].
  split; [reflexivity|]. split; [reflexivity|]. split; [intros _; reflexivity|].
  split; [left; reflexivity|]. split.
  - intros s Hs. apply elem_of_nil in Hs. contradiction.
  - intros Hm. split; [exact Hm|]. split; [reflexivity|]. split; [reflexivity|].
    split; [lia|]. split; reflexivity.
Qed.

Lemma handleNextQuestion_keeps (st : State) (now : Z) :
  step_keeps st (handleNextQuestion st now).1 (handleNextQuestion st now).2.
Proof.
  unfold step_keeps, handleNextQuestion.
  destruct (Z.of_nat (currentQuestionIndex st) <? _);
    cbn [calculateQuizResults fst snd startTime st_messages currentTopic
         isQuizMode quizQuestions userAnswers currentQuestionIndex st_analysis].
  - split; [reflexivity|]. split; [reflexivity|]. split; [intros _; reflexivity|].
    split; [left; reflexivity|]. split.
    + intros s Hs. apply elem_of_nil in Hs. contradiction.
    + intros Hm. split; [exact Hm|]. split; [reflexivity|]. split; [reflexivity|].
      split; [lia|]. split; reflexivity.
  - split; [reflexivity|]. split; [apply prefix_app_r; reflexivity|].
    split; [intros _; reflexivity|]. split; [left; reflexivity|]. split.
    + intros s Hs. summary_in Hs. repeat split.
    + intros Hm. split; [exact Hm|]. split; [reflexivity|]. split; [reflexivity|].
      split; [lia|]. split; reflexivity.
Qed.

Lemma ui_step_keeps (st st' : State) (ev : Event) (effs : list Effect) :
  ui_step st ev = Some (st', effs) -> step_keeps st st' effs.
Proof.
  intros Hstep.
  destruct (ui_step_cases st st' ev effs Hstep)
    as [(Hm & [(res & now & _ & Heq) | (i & img & res & now & now' & Heq)])
       | (q & Hq & [(a & _ & _ & -> & ->) | [(v & _ & _ & -> & ->) | (now & _ & Heq)]])].
  - pose proof (handleEndStudyClick_keeps st res now Hm) as H.
    rewrite <- Heq in H. exact H.
  - pose proof (handleSendMessage_keeps st i img res now now' Hm) as H.
    rewrite <- Heq in H. exact H.
  - apply handleQuizAnswer_keeps.
  - apply setSelectedOption_keeps.
  - pose proof (handleNextQuestion_keeps st now) as H.
    rewrite <- Heq in H. exact H.
Qed.

(** *** Sequences of events *)

Lemma run_cons (st st'' : State) (ev : Event) (rest : list Event)
    (effs'' : list Effect) :
  run st (ev :: rest) = Some (st'', effs'') ->
  exists st' effs effs',
    ui_step st ev = Some (st', effs) /\
    run st' rest = Some (st'', effs') /\
    effs'' = effs ++ effs'.
Proof.
  cbn [run]. destruct (ui_step st ev) as [[st' effs]|] eqn:Hs; [|discriminate].
  destruct (run st' rest) as [[st3 effs']|] eqn:Hr; [|discriminate].
  intros [= <- <-]. exists st', effs, effs'. split; [reflexivity|].
  split; [exact Hr | reflexivity].
Qed.

Lemma summaries_elem (effs : list Effect) (s : Summary) :
  s ∈ summaries effs <-> OnEndStudy s ∈ effs.
Proof.
  unfold summaries. rewrite list_elem_of_omap. split.
  - intros (e & He & Hs). destruct e as [s'|t]; [|discriminate].
    injection Hs as ->. exact He.
  - intros H. exists (OnEndStudy s). split; [exact H | reflexivity].
Qed.

Lemma summaries_app (effs effs' : list Effect) (s : Summary) :
  s ∈ summaries (effs ++ effs') <-> s ∈ summaries effs \/ s ∈ summaries effs'.
Proof. rewrite !summaries_elem. apply elem_of_app. Qed.

(** X10 ([setMessages] in [handleSendMessage], [handleEndStudyClick] and
    [calculateQuizResults]): the chat is append-only.  Along any sequence of
    events no message is removed, reordered or rewritten, and the messages
    handed to [onEndStudy] are an initial part of the chat shown at the
    end. *)
Theorem chat_log_only_grows (st st' : State) (events : list Event)
    (effs : list Effect) :
  run st events = Some (st', effs) ->
  st_messages st `prefix_of` st_messages st' /\
  forall s : Summary,
    s ∈ summaries effs -> messages s `prefix_of` st_messages st'.
Proof.
  revert st effs. induction events as [|ev rest IH]; intros st effs Hrun.
  - injection Hrun as <- <-. split; [reflexivity|].
    intros s Hs. apply elem_of_nil in Hs. contradiction.
  - apply run_cons in Hrun as (st1 & effs1 & effs2 & Hstep & Hrest & ->).
    destruct (IH _ _ Hrest) as [Hpre Hsum].
    destruct (ui_step_keeps _ _ _ _ Hstep) as (_ & Hp1 & _ & _ & Hs1 & _).
    split; [etransitivity; eassumption|].
    intros s Hs. apply summaries_app in Hs as [Hs|Hs]; [|apply Hsum; exact Hs].
    apply summaries_elem in Hs. destruct (Hs1 s Hs) as (_ & -> & _).
    etransitivity; eassumption.
Qed.

Lemma chat_log_only_grows_witness :
  st_messages (initialState 0) `prefix_of` st_messages MoreSamples.sample_final /\
  forall s : Summary,
    s ∈ summaries MoreSamples.sample_effects ->
    messages s `prefix_of` st_messages MoreSamples.sample_final.
Proof.
  apply (chat_log_only_grows (initialState 0) MoreSamples.sample_final
           MoreSamples.sample_events MoreSamples.sample_effects).
  vm_compute. reflexivity.
Defined.

Lemma known_topic_step (st st' : State) (ev : Event) (effs : list Effect) :
  ui_step st ev = Some (st', effs) ->
  currentTopic st ∈ "" :: (capitalize <$> topicKeywords) ->
  currentTopic st' ∈ "" :: (capitalize <$> topicKeywords).
Proof.
  intros Hstep Hk.
  destruct (ui_step_keeps _ _ _ _ Hstep) as (_ & _ & _ & [-> | (t & Ht & ->)] & _).
  - exact Hk.
  - apply elem_of_cons. right. apply list_elem_of_fmap. exists t.
    split; [reflexivity | exact Ht].
Qed.

Lemma known_topic_run (st st' : State) (events : list Event) (effs : list Effect) :
  run st events = Some (st', effs) ->
  currentTopic st ∈ "" :: (capitalize <$> topicKeywords) ->
  forall s : Summary,
    s ∈ summaries effs ->
    topic s ∈ "General Study" :: (capitalize <$> topicKeywords).
Proof.
  revert st effs. induction events as [|ev rest IH]; intros st effs Hrun Hk s Hs.
  - injection Hrun as <- <-. apply elem_of_nil in Hs. contradiction.
  - apply run_cons in Hrun as (st1 & effs1 & effs2 & Hstep & Hrest & ->).
    apply summaries_app in Hs as [Hs|Hs].
    + apply summaries_elem in Hs.
      destruct (ui_step_keeps _ _ _ _ Hstep) as (_ & _ & _ & _ & Hs1 & _).
      destruct (Hs1 s Hs) as (-> & _). unfold topic_or_default.
      apply elem_of_cons in Hk as [-> | Hk]; [left|].
      destruct (truthy (currentTopic st)); [right; exact Hk | left].
    + apply (IH st1 effs2 Hrest); [|exact Hs].
      eapply known_topic_step; eassumption.
Qed.

(** X12 ([handleSendMessage], lines 285-288, and [finishStudySession],
    [calculateQuizResults]): whatever is typed during a session, the topic
    handed to [onEndStudy] is "General Study" or one of eleven subject
    names, the capitalised keywords. *)
Theorem reported_topic_is_a_known_subject (start : Z) (st' : State)
    (events : list Event) (effs : list Effect) (s : Summary) :
  run (initialState start) events = Some (st', effs) ->
  s ∈ summaries effs ->
  topic s ∈ [ "General Study"; "Physics"; "Chemistry"; "Maths"; "Math"; "Biology";
              "History"; "Geography"; "English"; "Hindi"; "Science"; "Social" ].
Proof.
  intros Hrun Hs.
  apply (known_topic_run (initialState start) st' events effs Hrun); [|exact Hs].
  left.
Qed.

Lemma reported_topic_is_a_known_subject_witness :
  topic MoreSamples.sample_summary
  ∈ [ "General Study"; "Physics"; "Chemistry"; "Maths"; "Math"; "Biology";
      "History"; "Geography"; "English"; "Hindi"; "Science"; "Social" ].
Proof.
  apply (reported_topic_is_a_known_subject 0 MoreSamples.sample_final
           MoreSamples.sample_events MoreSamples.sample_effects
           MoreSamples.sample_summary).
  - vm_compute. reflexivity.
  - vm_compute. apply list_elem_of_singleton. reflexivity.
Defined.

End RunFacts.

(** ** The quiz from start to result *)

Module QuizRunFacts.
Import JS StudyChat Runs.

Lemma run_app (st : State) (events1 events2 : list Event) :
  run st (events1 ++ events2)
  = match run st events1 with
    | Some (st1, effs1) =>
        match run st1 events2 with
        | Some (st2, effs2) => Some (st2, effs1 ++ effs2)
        | None => None
        end
    | None => None
    end.
Proof.
  revert st. induction events1 as [|ev rest IH]; intros st.
  - cbn [app run]. destruct (run st events2) as [[st2 effs2]|]; reflexivity.
  - cbn [app run]. destruct (ui_step st ev) as [[st1 effs1]|]; [|reflexivity].
    rewrite IH. destruct (run st1 rest) as [[st2 effs2]|]; [|reflexivity].
    destruct (run st2 events2) as [[st3 effs3]|]; [|reflexivity].
    rewrite app_assoc. reflexivity.
Qed.

Lemma run_reachable (start : Z) (st st' : State) (events : list Event)
    (effs : list Effect) :
  reachable start st -> run st events = Some (st', effs) -> reachable start st'.
Proof.
  revert st effs. induction events as [|ev rest IH]; intros st effs Hr Hrun.
  - injection Hrun as <- <-. exact Hr.
  - apply RunFacts.run_cons in Hrun as (st1 & effs1 & effs2 & Hstep & Hrest & ->).
    apply (IH st1 effs2); [|exact Hrest].
    eapply reachable_step; eassumption.
Qed.



(** The explanation is only ever open on a question that could be
    answered. *)
Lemma explained_question_is_answerable (start : Z) (st : State) (q : QuizQuestion) :
  reachable start st ->
  quizPanel st = Some q -> showExplanation st = true -> answerable q = true.
Proof.
  intros Hr. revert q. induction Hr as [|st ev st' effs Hr IH Hstep]; intros q Hq He.
  - discriminate Hq.
  - pose proof (SessionFacts.reachable_invariant start st Hr) as Hinv.
    destruct (RunFacts.ui_step_cases st st' ev effs Hstep)
      as [(Hm & [(res & now & _ & Heq) | (i & img & res & now & now' & Heq)])
         | (q0 & Hq0 & [(a & _ & Ha & -> & ->)
                       | [(v & He0 & _ & -> & ->) | (now & _ & Heq)]])].
    + unfold quiz_invariant in Hinv. rewrite Hm in Hinv.
      destruct Hinv as (_ & He0 & _).
      assert (Hsame : showExplanation (handleEndStudyClick st res now).1
                      = showExplanation st).
      { destruct res as [|[[[|] [[|q1 qs]|]]|] [|]]; reflexivity. }
      rewrite <- Heq in Hsame. cbn [fst] in Hsame. congruence.
    + assert (Hsame : isQuizMode (handleSendMessage st i img res now now').1
                      = isQuizMode st).
      { unfold handleSendMessage.
        destruct (negb (truthy (trim i)) && negb (truthy_opt img)); [reflexivity|].
        destruct (getAIResponse (st_analysis st) res) as [[a r] t]. reflexivity. }
      rewrite <- Heq in Hsame. cbn [fst] in Hsame.
      apply SessionFacts.quizPanel_Some in Hq as (Hm' & _). congruence.
    + assert (Hsame : quizPanel (handleQuizAnswer st a) = quizPanel st) by reflexivity.
      rewrite Hsame, Hq0 in Hq. injection Hq as <-. exact Ha.
    + cbn [setSelectedOption showExplanation] in He. congruence.
    + unfold handleNextQuestion in Heq.
      destruct (Z.of_nat (currentQuestionIndex st) <? _).
      * injection Heq as -> ->. cbn in He. discriminate He.
      * injection Heq as -> ->.
        apply SessionFacts.quizPanel_Some in Hq as (_ & Hres & _).
        cbn in Hres. discriminate Hres.
Qed.

(** X15 (JSX, lines 533-541, 695-775 and 800): a multiple-choice question
    without options blocks the quiz.  When the question on display is of
    type mcq and lists no option, the component offers no answer button, no
    answer input, no "Next" button, no "End Study" button and no message
    input: none of these events is accepted, so the result is never
    computed and [onEndStudy] is never called. *)
Theorem unanswerable_question_blocks_quiz (start : Z) (st : State) (q : QuizQuestion) :
  reachable start st ->
  quizPanel st = Some q ->
  answerable q = false ->
  forall ev : Event, ui_step st ev = None.
Proof.
  intros Hr Hq Hna ev.
  destruct (ui_step st ev) as [[st' effs]|] eqn:Hstep; [exfalso|reflexivity].
  assert (He : showExplanation st = false).
  { destruct (showExplanation st) eqn:He; [|reflexivity].
    rewrite (explained_question_is_answerable start st q Hr Hq He) in Hna.
    discriminate Hna. }
  destruct (RunFacts.ui_step_cases st st' ev effs Hstep)
    as [(Hm & _)
       | (q0 & Hq0 & [(a & _ & Ha & _) | [(v & _ & Ha & _) | (now & He' & _)]])].
  - apply SessionFacts.quizPanel_Some in Hq as (Hm' & _). congruence.
  - congruence.
  - congruence.
  - congruence.
Qed.

Lemma unanswerable_question_blocks_quiz_witness :
  ui_step MoreSamples.blocked_quiz (ClickOption "Paris") = None /\
  ui_step MoreSamples.blocked_quiz (ClickNext 61000) = None /\
  ui_step MoreSamples.blocked_quiz (ClickEndStudy MoreSamples.optionless_reply 62000)
  = None /\
  ui_step MoreSamples.blocked_quiz
    (SendMessage "skip karo" None (MoreSamples.plain_reply "Theek hai") 63000 64000)
  = None.
Proof.
  assert (H : reachable 0 MoreSamples.blocked_quiz).
  { eapply reachable_step with (ev := ClickEndStudy MoreSamples.optionless_reply 60000).
    - apply reachable_init.
    - reflexivity. }
  pose proof (unanswerable_question_blocks_quiz 0 MoreSamples.blocked_quiz
                MoreSamples.optionless_question H eq_refl eq_refl) as Hblocked.
  split; [apply Hblocked|]. split; [apply Hblocked|]. split; apply Hblocked.
Defined.

(** *** Completing the quiz *)

Lemma lookup_answerable (qs : list QuizQuestion) (i : nat) (q : QuizQuestion) :
  forallb answerable qs = true -> qs !! i = Some q -> answerable q = true.
Proof.
  intros Hall Hl. rewrite forallb_forall in Hall. apply Hall.
  apply list_elem_of_In. apply list_elem_of_lookup. exists i. exact Hl.
Qed.

Lemma quizPanel_intro (st : State) :
  isQuizMode st = true -> showResult st = false ->
  (currentQuestionIndex st < length (quizQuestions st))%nat ->
  exists q, quizPanel st = Some q /\
            quizQuestions st !! currentQuestionIndex st = Some q.
Proof.
  intros Hm Hr Hlt. unfold quizPanel, currentQuestion. rewrite Hm, Hr. cbn [negb andb].
  destruct (lookup_lt_is_Some_2 _ _ Hlt) as [q Hq]. exists q. split; exact Hq.
Qed.

(** An answerable question on display can be answered. *)
Lemma give_answer (st : State) (q : QuizQuestion) :
  quizPanel st = Some q -> showExplanation st = false -> answerable q = true ->
  exists (events : list Event) (st1 : State),
    run st events = Some (st1, []) /\
    isQuizMode st1 = isQuizMode st /\ showResult st1 = showResult st /\
    showExplanation st1 = true /\
    currentQuestionIndex st1 = currentQuestionIndex st /\
    quizQuestions st1 = quizQuestions st.
Proof.
  intros Hq He Ha. unfold answerable in Ha.
  destruct (q_type q) eqn:Hty.
  - destruct (options q) as [[|o opts]|] eqn:Hop; try discriminate Ha.
    exists [ClickOption o], (handleQuizAnswer st o). split; [|repeat split].
    cbn [run ui_step]. rewrite Hq, Hty, Hop, He.
    rewrite bool_decide_eq_true_2 by (apply elem_of_cons; left; reflexivity).
    reflexivity.
  - exists [ClickTrueFalse "True"], (handleQuizAnswer st "True").
    split; [|repeat split].
    cbn [run ui_step]. rewrite Hq, Hty, He. reflexivity.
  - exists [ChangeAnswerInput "a"; SubmitAnswerInput],
      (handleQuizAnswer (setSelectedOption st (Some "a")) "a").
    split; [|repeat split].
    cbn [run ui_step]. rewrite Hq. unfold is_text_question at 1. rewrite Hty, He.
    cbn [andb negb].
    change (quizPanel (setSelectedOption st (Some "a"))) with (quizPanel st).
    rewrite Hq. unfold is_text_question. rewrite Hty.
    cbn [setSelectedOption showExplanation selectedOption]. rewrite He. reflexivity.
  - exists [ChangeAnswerInput "a"; SubmitAnswerInput],
      (handleQuizAnswer (setSelectedOption st (Some "a")) "a").
    split; [|repeat split].
    cbn [run ui_step]. rewrite Hq. unfold is_text_question at 1. rewrite Hty, He.
    cbn [andb negb].
    change (quizPanel (setSelectedOption st (Some "a"))) with (quizPanel st).
    rewrite Hq. unfold is_text_question. rewrite Hty.
    cbn [setSelectedOption showExplanation selectedOption]. rewrite He. reflexivity.
Qed.

Lemma quiz_completion (k : nat) :
  forall st : State,
    isQuizMode st = true -> showResult st = false ->
    (currentQuestionIndex st < length (quizQuestions st))%nat ->
    forallb answerable (quizQuestions st) = true ->
    (length (quizQuestions st) - currentQuestionIndex st = S k)%nat ->
    exists (events : list Event) (st' : State) (s : Summary) (r : QuizResult),
      run st events = Some (st', [OnEndStudy s]) /\
      showResult st' = true /\
      quizResult s = Some r /\
      questions r = quizQuestions st /\
      answers r = userAnswers st'.
Proof.
  induction k as [|k IH]; intros st Hm Hr Hlt Hall Hk.
  - (* the last question *)
    destruct (quizPanel_intro st Hm Hr Hlt) as (q & Hq & Hl).
    assert (Hex : exists (events : list Event) (st1 : State),
      run st events = Some (st1, []) /\
      isQuizMode st1 = isQuizMode st /\ showResult st1 = showResult st /\
      showExplanation st1 = true /\
      currentQuestionIndex st1 = currentQuestionIndex st /\
      quizQuestions st1 = quizQuestions st).
    { destruct (showExplanation st) eqn:He.
      - exists [], st. repeat split. exact He.
      - apply (give_answer st q Hq He). eapply lookup_answerable; eassumption. }
    destruct Hex as (events & st1 & Hrun & Hm1 & Hr1 & He1 & Hi1 & Hq1).
    assert (Hp1 : quizPanel st1 = Some q).
    { unfold quizPanel, currentQuestion. rewrite Hm1, Hr1, Hi1, Hq1, Hm, Hr. exact Hl. }
    exists (events ++ [ClickNext 0]).
    rewrite run_app, Hrun. cbn [run ui_step]. rewrite Hp1, He1.
    unfold handleNextQuestion.
    destruct (Z.ltb_spec (Z.of_nat (currentQuestionIndex st1))
                (Z.of_nat (length (quizQuestions st1)) - 1)) as [Hlt'|Hge];
      [rewrite Hi1, Hq1 in Hlt'; lia|].
    cbn [calculateQuizResults app].
    eexists _, _, _. split; [reflexivity|].
    cbn [showResult quizResult quizQuestions userAnswers].
    split; [reflexivity|]. split; [reflexivity|].
    split; [exact Hq1 | reflexivity].
  - destruct (quizPanel_intro st Hm Hr Hlt) as (q & Hq & Hl).
    assert (Hex : exists (events : list Event) (st1 : State),
      run st events = Some (st1, []) /\
      isQuizMode st1 = isQuizMode st /\ showResult st1 = showResult st /\
      showExplanation st1 = true /\
      currentQuestionIndex st1 = currentQuestionIndex st /\
      quizQuestions st1 = quizQuestions st).
    { destruct (showExplanation st) eqn:He.
      - exists [], st. repeat split. exact He.
      - apply (give_answer st q Hq He). eapply lookup_answerable; eassumption. }
    destruct Hex as (events & st1 & Hrun & Hm1 & Hr1 & He1 & Hi1 & Hq1).
    assert (Hp1 : quizPanel st1 = Some q).
    { unfold quizPanel, currentQuestion. rewrite Hm1, Hr1, Hi1, Hq1, Hm, Hr. exact Hl. }
    pose (st2 := (handleNextQuestion st1 0).1).
    assert (Hnext : handleNextQuestion st1 0 = (st2, []) /\
                    isQuizMode st2 = true /\ showResult st2 = false /\
                    currentQuestionIndex st2 = S (currentQuestionIndex st) /\
                    quizQuestions st2 = quizQuestions st).
    { unfold st2, handleNextQuestion.
      destruct (Z.ltb_spec (Z.of_nat (currentQuestionIndex st1))
                  (Z.of_nat (length (quizQuestions st1)) - 1)) as [Hlt'|Hge];
        [|rewrite Hi1, Hq1 in Hge; lia].
      cbn [fst isQuizMode showResult currentQuestionIndex quizQuestions].
      rewrite Hm1, Hr1, Hi1, Hq1. repeat split; assumption. }
    destruct Hnext as (Hn & Hm2 & Hr2 & Hi2 & Hq2).
    destruct (IH st2) as (events2 & st' & s & r & Hrun2 & Hres & Hqr & Hqs & Hlen).
    + exact Hm2.
    + exact Hr2.
    + rewrite Hi2, Hq2. lia.
    + rewrite Hq2. exact Hall.
    + rewrite Hi2, Hq2. lia.
    + exists (events ++ ClickNext 0 :: events2), st', s, r.
      rewrite run_app, Hrun. cbn [run ui_step]. rewrite Hp1, He1, Hn, Hrun2.
      cbn [app]. repeat split; try assumption. congruence.
Qed.

(** X16 (quiz panel and [handleNextQuestion], lines 389-399 and 682-793): a
    quiz whose questions can all be answered can always be finished.  From
    any point of such a quiz there is a sequence of clicks and inputs that
    leads to the result; it calls [onEndStudy] exactly once, with a quiz
    result over the questions of the quiz and the answers collected. *)
Theorem answerable_quiz_can_be_completed (st : State) :
  isQuizMode st = true ->
  showResult st = false ->
  (currentQuestionIndex st < length (quizQuestions st))%nat ->
  forallb answerable (quizQuestions st) = true ->
  exists (events : list Event) (st' : State) (s : Summary) (r : QuizResult),
    run st events = Some (st', [OnEndStudy s]) /\
    showResult st' = true /\
    quizResult s = Some r /\
    questions r = quizQuestions st /\
    answers r = userAnswers st'.
Proof.
  intros Hm Hr Hlt Hall.
  destruct (length (quizQuestions st) - currentQuestionIndex st)%nat as [|k] eqn:Hk;
    [lia|].
  apply (quiz_completion k st Hm Hr Hlt Hall Hk).
Qed.

Lemma answerable_quiz_can_be_completed_witness :
  exists (events : list Event) (st' : State) (s : Summary) (r : QuizResult),
    run MoreSamples.sample_quiz events = Some (st', [OnEndStudy s]) /\
    showResult st' = true /\
    quizResult s = Some r /\
    questions r = quizQuestions MoreSamples.sample_quiz /\
    answers r = userAnswers st'.
Proof.
  apply (answerable_quiz_can_be_completed MoreSamples.sample_quiz).
  - reflexivity.
  - reflexivity.
  - cbn. lia.
  - reflexivity.
Defined.

(** X17 ([handleNextQuestion] and [calculateQuizResults], lines 389-447): a
    quiz result reaches [onEndStudy] only from the last question of a
    non-empty quiz, after every question has been answered: the result
    holds exactly one answer per question, in the order of the questions,
    and its count of correct answers does not exceed the number of
    questions.  A summary sent outside quiz mode carries no quiz result. *)
Theorem quiz_result_covers_every_question
    (start : Z) (st st' : State) (ev : Event) (effs : list Effect) (s : Summary) :
  reachable start st ->
  ui_step st ev = Some (st', effs) ->
  OnEndStudy s ∈ effs ->
  match quizResult s with
  | None => isQuizMode st = false
  | Some r =>
      isQuizMode st = true /\ showResult st' = true /\
      r = quizResult_of (quizQuestions st) (userAnswers st) /\
      (0 < totalQuestions r)%nat /\
      length (answers r) = totalQuestions r /\
      length (questions r) = totalQuestions r /\
      (correctCount r <= totalQuestions r)%nat /\
      S (currentQuestionIndex st) = totalQuestions r
  end.
Proof.
  intros Hr Hstep Hs.
  pose proof (SessionFacts.reachable_invariant start st Hr) as Hinv.
  destruct (RunFacts.ui_step_cases st st' ev effs Hstep)
    as [(Hm & [(res & now & _ & Heq) | (i & img & res & now & now' & Heq)])
       | (q0 & Hq0 & [(a & _ & _ & -> & ->)
                     | [(v & _ & _ & -> & ->) | (now & He & Heq)]])].
  - assert (Hnone : forall s0, OnEndStudy s0 ∈ (handleEndStudyClick st res now).2 ->
                               quizResult s0 = None).
    { intros s0 H0.
      destruct res as [|[[[|] [[|q1 qs]|]]|] [|]];
        cbn [handleEndStudyClick snd finishStudySession] in H0;
        RunFacts.summary_in H0; reflexivity. }
    rewrite <- Heq in Hnone. rewrite (Hnone s Hs). exact Hm.
  - exfalso.
    pose proof (RunFacts.handleSendMessage_keeps st i img res now now' Hm) as Hk.
    assert (Hno : forall s0, OnEndStudy s0 ∈ (handleSendMessage st i img res now now').2 ->
                             False).
    { intros s0 H0. unfold handleSendMessage in H0.
      destruct (negb (truthy (trim i)) && negb (truthy_opt img)).
      - apply elem_of_nil in H0. exact H0.
      - destruct res as [|[[[e|] sa r]|] [|]]; cbn in H0;
          try destruct (truthy e); RunFacts.summary_in H0. }
    rewrite <- Heq in Hno. exact (Hno s Hs).
  - apply elem_of_nil in Hs. contradiction.
  - apply elem_of_nil in Hs. contradiction.
  - apply SessionFacts.quizPanel_Some in Hq0 as (Hm & Hres & Hl).
    unfold quiz_invariant in Hinv. rewrite Hm, Hres, He in Hinv.
    destruct Hinv as [Hlt Hlen].
    unfold handleNextQuestion in Heq.
    destruct (Z.ltb_spec (Z.of_nat (currentQuestionIndex st))
                (Z.of_nat (length (quizQuestions st)) - 1)) as [Hnext|Hlast].
    + injection Heq as -> ->. apply elem_of_nil in Hs. contradiction.
    + cbn [calculateQuizResults] in Heq. injection Heq as -> ->.
      apply list_elem_of_singleton in Hs. injection Hs as ->.
      cbn [quizResult showResult quizQuestions userAnswers quizResult_of
           totalQuestions answers questions correctCount].
      split; [exact Hm|]. split; [reflexivity|]. split; [reflexivity|].
      split; [lia|]. split; [lia|]. split; [reflexivity|].
      split; [apply QuizFacts.countCorrect_le | lia].
Qed.

Lemma quiz_result_covers_every_question_witness :
  match quizResult MoreSamples.sample_summary with
  | None => isQuizMode (handleQuizAnswer MoreSamples.sample_quiz "True") = false
  | Some r =>
      isQuizMode (handleQuizAnswer MoreSamples.sample_quiz "True") = true /\
      showResult MoreSamples.sample_final = true /\
      r = quizResult_of [Samples.true_false_question] ["True"] /\
      (0 < totalQuestions r)%nat /\
      length (answers r) = totalQuestions r /\
      length (questions r) = totalQuestions r /\
      (correctCount r <= totalQuestions r)%nat /\
      1%nat = totalQuestions r
  end.
Proof.
  apply (quiz_result_covers_every_question 0
           (handleQuizAnswer MoreSamples.sample_quiz "True")
           MoreSamples.sample_final (ClickNext 90000) MoreSamples.sample_effects
           MoreSamples.sample_summary).
  - apply (run_reachable 0 (initialState 0) _ (take 3 MoreSamples.sample_events) []).
    + apply reachable_init.
    + vm_compute. reflexivity.
  - vm_compute. reflexivity.
  - vm_compute. apply list_elem_of_singleton. reflexivity.
Defined.

End QuizRunFacts.

(** ** Time spent and scores *)

Module ScoreFacts.
Import JS StudyChat NumberValue NumberFacts.

(** The rounded quotient of two integers is an integer within one half of
    the exact quotient. *)
Lemma quotient_round_nearest (d n : Z) :
  0 <= d < 2 ^ 40 -> 0 < n < 2 ^ 32 ->
  exists r : Z,
    Math_round (Num_div (Z2SF d) (Z2SF n)) = Z2SF r /\
    - n <= 2 * (r * n - d) <= n.
Proof.
  intros Hd Hn. unfold Num_div.
  destruct (Z2SF_spec n) as (mn & en & En & Hmn & Hen & Hen' & Hvn); [lia|].
  destruct (Z.eq_dec d 0) as [-> | Hd0].
  - exists 0. rewrite En. split; [reflexivity | lia].
  - destruct (Z2SF_spec d) as (md & ed & Ed & Hmd & Hed & Hed' & Hvd); [lia|].
    rewrite En, Ed.
    destruct (SFdiv_rel md mn ed en) as (m1 & e1 & E1 & Hm1 & He1 & Hd1 & Hd2); try lia.
    rewrite E1.
    assert (Hdig : Zdigits2 d <= 40).
    { apply (Zdigits2_range d 0 40); [lia|]. change (2 ^ 0) with 1. lia. }
    destruct (Math_round_pos m1 e1) as (a & Ea & Ha1 & Ha2); [lia|].
    exists a. split; [exact Ea|].
    pose proof (Z2SF_value d md ed Hed' Hvd) as Vd.
    pose proof (Z2SF_value n mn en Hen' Hvn) as Vn.
    rewrite Vd, Vn in Hd1, Hd2.
    assert (HN : (0 < inject_Z n)%Q)
      by (change 0%Q with (inject_Z 0); rewrite <- Zlt_Qlt; lia).
    assert (HD0 : (0 <= inject_Z d)%Q)
      by (change 0%Q with (inject_Z 0); apply Z_ineq_Q; lia).
    assert (HD40 : (inject_Z d <= 1099511627776)%Q)
      by (change 1099511627776%Q with (inject_Z (2 ^ 40)); apply Z_ineq_Q; lia).
    set (R1 := F2Q (Z.pos m1) e1) in *.
    set (N := inject_Z n) in *. set (D := inject_Z d) in *.
    set (A := inject_Z a) in *.
    assert (Ha1N : (A * N <= R1 * N + (1 # 2) * N)%Q).
    { setoid_replace (R1 * N + (1 # 2) * N)%Q with ((R1 + (1 # 2)) * N)%Q
        using relation Qeq by ring.
      apply Qmult_le_compat_r; lra. }
    assert (Ha2N : (R1 * N + (1 # 2) * N < A * N + N)%Q).
    { setoid_replace (R1 * N + (1 # 2) * N)%Q with ((R1 + (1 # 2)) * N)%Q
        using relation Qeq by ring.
      setoid_replace (A * N + N)%Q with ((A + 1) * N)%Q using relation Qeq by ring.
      apply Qmult_lt_compat_r; lra. }
    set (R1N := (R1 * N)%Q) in *. set (AN := (A * N)%Q) in *.
    unfold u52 in *. change (2 ^ 52)%positive with 4503599627370496%positive in *.
    assert (G1 : (2 * AN - 2 * D - N < 1)%Q) by lra.
    assert (G2 : (2 * D - 2 * AN - N < 1)%Q) by lra.
    assert (G1z : 2 * (a * n) - 2 * d - n < 1).
    { rewrite Zlt_Qlt. unfold Z.sub.
      rewrite !inject_Z_plus, !inject_Z_opp, !inject_Z_mult. exact G1. }
    assert (G2z : 2 * d - 2 * (a * n) - n < 1).
    { rewrite Zlt_Qlt. unfold Z.sub.
      rewrite !inject_Z_plus, !inject_Z_opp, !inject_Z_mult. exact G2. }
    lia.
Qed.

(** [Math.max(x, 1)] on a non-negative integer. *)
Lemma Math_max_one (r : Z) :
  0 <= r < 2 ^ 53 -> Math_max (Z2SF r) (Z2SF 1) = Z2SF (Z.max r 1).
Proof.
  intros Hr.
  destruct (Z.eq_dec r 0) as [-> | H0]; [reflexivity|].
  destruct (Z.eq_dec r 1) as [-> | H1]; [reflexivity|].
  destruct (Z2SF_spec r) as (m & e & E & Hm & He & He' & Hv); [lia|].
  assert (Hdig : 1 < Zdigits2 r <= 53).
  { apply (Zdigits2_range r 1 53); [lia|]. change (2 ^ 1) with 2. lia. }
  rewrite Z.max_l by lia. rewrite E.
  change (Z2SF 1) with (S754_finite false 4503599627370496 (-52)).
  unfold Math_max, SFcompare.
  replace (e ?= -52) with Gt by (symmetry; apply Z.compare_gt_iff; lia).
  reflexivity.
Qed.

(** X18 ([finishStudySession] and [calculateQuizResults], lines 434 and
    461-463): the time handed to [onEndStudy] is a whole number of minutes,
    at least 1: the elapsed milliseconds divided by 60000 and rounded to a
    nearest integer, or 1 when that is 0.  (Stated for sessions that end
    at or after their start and last less than [2^40] ms.) *)
Theorem time_spent_is_whole_minutes (st : State) (now : Z) :
  0 <= now - startTime st < 2 ^ 40 ->
  exists r : Z,
    minutesSpent st now = Z2SF (Z.max r 1) /\
    0 <= r /\
    - 60000 <= 2 * (r * 60000 - (now - startTime st)) <= 60000.
Proof.
  intros Hd. unfold minutesSpent.
  destruct (quotient_round_nearest (now - startTime st) 60000) as (r & Er & Hb);
    [exact Hd | lia |].
  exists r. rewrite Er. split; [|lia].
  apply Math_max_one. change (2 ^ 40) with 1099511627776 in Hd.
  change (2 ^ 53) with 9007199254740992. lia.
Qed.

Lemma time_spent_is_whole_minutes_witness :
  exists r : Z,
    minutesSpent (initialState 0) 90000 = Z2SF (Z.max r 1) /\
    0 <= r /\
    - 60000 <= 2 * (r * 60000 - (90000 - 0)) <= 60000.
Proof.
  apply (time_spent_is_whole_minutes (initialState 0) 90000).
  cbn. lia.
Defined.

(** *** Scores *)

Lemma countCorrect_all (qs : list QuizQuestion) :
  countCorrect qs (correct_answer <$> qs) = length qs.
Proof.
  induction qs as [|q qs IH]; [reflexivity|].
  rewrite QuizFacts.countCorrect_cons. cbn [fmap list_fmap head tail length].
  rewrite IH, QuizFacts.countsAsCorrect_of_equal by reflexivity. reflexivity.
Qed.

(** X19 ([calculateQuizResults], lines 402-417): the two ends of the scale.
    Answering every question of a quiz with its [correct_answer] as stored
    scores all of them; a full score is reported as 100 percent and
    "strong", and a score of zero as 0 percent and "weak". *)
Theorem full_and_zero_scores (qs : list QuizQuestion) (ans : list string) :
  qs <> [] -> Z.of_nat (length qs) < 2 ^ 32 ->
  correctCount (quizResult_of qs (correct_answer <$> qs)) = length qs /\
  (correctCount (quizResult_of qs ans) = length qs ->
   accuracy (quizResult_of qs ans) = Z2SF 100 /\
   understanding (quizResult_of qs ans) = strong) /\
  (correctCount (quizResult_of qs ans) = 0%nat ->
   accuracy (quizResult_of qs ans) = Z2SF 0 /\
   understanding (quizResult_of qs ans) = weak).
Proof.
  intros Hne Hlen.
  assert (Hpos : (0 < length qs)%nat) by (destruct qs; [congruence | cbn; lia]).
  unfold quizResult_of. cbn [correctCount accuracy understanding].
  split; [apply countCorrect_all|]. split; intros Hc; rewrite Hc.
  - destruct (percent_round_nearest (Z.of_nat (length qs)) (Z.of_nat (length qs)))
      as (a & Ea & Hb); [lia | lia |].
    assert (a = 100) by nia. subst a.
    unfold accuracy_of. rewrite Ea. split; reflexivity.
  - destruct (percent_round_nearest (Z.of_nat 0) (Z.of_nat (length qs)))
      as (a & Ea & Hb); [lia | lia |].
    assert (a = 0) by nia. subst a.
    unfold accuracy_of. rewrite Ea. split; reflexivity.
Qed.

Lemma full_and_zero_scores_witness :
  correctCount (quizResult_of Samples.five_questions
                  (correct_answer <$> Samples.five_questions)) = 5%nat /\
  (correctCount (quizResult_of Samples.five_questions Samples.four_right) = 5%nat ->
   accuracy (quizResult_of Samples.five_questions Samples.four_right) = Z2SF 100 /\
   understanding (quizResult_of Samples.five_questions Samples.four_right) = strong) /\
  (correctCount (quizResult_of Samples.five_questions Samples.four_right) = 0%nat ->
   accuracy (quizResult_of Samples.five_questions Samples.four_right) = Z2SF 0 /\
   understanding (quizResult_of Samples.five_questions Samples.four_right) = weak).
Proof.
  apply (full_and_zero_scores Samples.five_questions Samples.four_right).
  - discriminate.
  - reflexivity.
Defined.

(** X20 (option buttons, lines 699 and 734, against the score, lines
    405-409): whenever the panel marks the chosen option as the correct one
    (its text equals [correct_answer] up to case), the scoring loop counts
    the answer as correct. *)
Theorem marked_option_is_counted (q : QuizQuestion) (option : string) :
  isCorrect option q = true -> countsAsCorrect q (Some option) = true.
Proof.
  unfold isCorrect. intros H. apply bool_decide_eq_true in H.
  apply QuizFacts.countsAsCorrect_of_equal. rewrite H. reflexivity.
Qed.

Lemma marked_option_is_counted_witness :
  countsAsCorrect Samples.true_false_question (Some "TRUE") = true.
Proof.
  apply (marked_option_is_counted Samples.true_false_question "TRUE").
  reflexivity.
Defined.

(** X21 ([calculateQuizResults], line 413): below 40 questions the reported
    accuracy is exactly [100 * correctCount / totalQuestions] rounded half
    up; no rounding error of the division shows. *)
Theorem short_quiz_accuracy_is_exact (qs : list QuizQuestion) (ans : list string) :
  (0 < length qs < 40)%nat ->
  let r := quizResult_of qs ans in
  accuracy r
  = Z2SF ((200 * Z.of_nat (correctCount r) + Z.of_nat (totalQuestions r))
          / (2 * Z.of_nat (totalQuestions r))).
Proof.
  intros Hn r. subst r. unfold quizResult_of.
  cbn [accuracy correctCount totalQuestions].
  apply QuizFacts.accuracy_exact_below_40; [exact Hn|].
  apply QuizFacts.countCorrect_le.
Qed.

Lemma short_quiz_accuracy_is_exact_witness :
  accuracy (quizResult_of Samples.five_questions Samples.four_right) = Z2SF 80.
Proof.
  apply (short_quiz_accuracy_is_exact Samples.five_questions Samples.four_right).
  cbn. lia.
Defined.

End ScoreFacts.

(** ** Saving the conversation *)

Module PersistenceFacts.
Import JS StudyChat Runs Persistence.

Lemma handleSendMessage_messages (st : State) (i : string) (img : option string)
    (res : Invoke AIData) (now now' : Z) :
  negb (truthy (trim i)) && negb (truthy_opt img) = false ->
  st_messages (handleSendMessage st i img res now now').1
  = st_messages st ++ [userMessage_of i img now; aiResponse_of st res now'] /\
  startTime (handleSendMessage st i img res now now').1 = startTime st.
Proof.
  intros Hb. unfold handleSendMessage, userMessage_of, aiResponse_of. rewrite Hb.
  destruct (getAIResponse (st_analysis st) res) as [[a r] t]. split; reflexivity.
Qed.

Lemma optional_rows_sublist (sessId : string) (u a : ChatMessage) (s1 s2 : bool) :
  (if s1 then [row_of sessId u] else []) ++ (if s2 then [row_of sessId a] else [])
  `sublist_of` (row_of sessId <$> [u; a]).
Proof.
  destruct s1, s2; cbn [app fmap list_fmap].
  - reflexivity.
  - apply sublist_skip, sublist_nil_l.
  - apply sublist_cons, sublist_skip, sublist_nil_l.
  - apply sublist_nil_l.
Qed.

Lemma saveMessageToDb_rows (m : ChatMessage) (sessId : string) (stored : bool)
    (db : Backend) :
  saveMessageToDb m sessId stored db
  = {| study_sessions := study_sessions db;
       chat_messages := chat_messages db ++ (if stored then [row_of sessId m] else []) |}.
Proof.
  unfold saveMessageToDb. destruct stored; [reflexivity|].
  rewrite app_nil_r. destruct db; reflexivity.
Qed.

(** One sent message keeps the backend consistent with the chat. *)
Lemma handleSendMessage_saving_consistent
    (studentId : option string) (start : Z) (db0 : Backend)
    (c : Component) (db : Backend) (i : string) (img : option string)
    (res : Invoke AIData) (now now' : Z) (r : Replies) :
  (forall new_id, session_reply r = Created new_id -> truthy new_id = true) ->
  saved_consistently studentId start db0 c db ->
  saved_consistently studentId start db0
    (handleSendMessage_saving studentId c db i img res now now' r).1.1
    (handleSendMessage_saving studentId c db i img res now now' r).1.2.
Proof.
  intros Hid (Hstart & Hguest & Hinv). unfold handleSendMessage_saving.
  destruct (negb (truthy (trim i)) && negb (truthy_opt img)) eqn:Hb.
  { cbn [fst snd]. split; [exact Hstart|]. split; assumption. }
  destruct (handleSendMessage_messages (ui c) i img res now now' Hb) as [Hmsgs Hst].
  unfold ensureSession.
  destruct (sessionId c) as [sid|] eqn:Hsid.
  - destruct Hinv as (Htr & t & rows & -> & Hsub).
    cbn [truthy_opt]. rewrite Htr.
    destruct (handleSendMessage (ui c) i img res now now') as [st' effs] eqn:Hsend.
    cbn [fst snd] in *. rewrite ?Htr, !saveMessageToDb_rows.
    cbn [study_sessions chat_messages ui sessionId].
    unfold saved_consistently. cbn [ui sessionId].
    split; [congruence|]. split; [intros Hg; specialize (Hguest Hg); discriminate|].
    split; [exact Htr|]. exists t.
    exists (rows ++
            (if user_stored r then [row_of sid (userMessage_of i img now)] else []) ++
            (if ai_stored r then [row_of sid (aiResponse_of (ui c) res now')] else [])).
    split.
    + rewrite <- !app_assoc. reflexivity.
    + rewrite Hmsgs, fmap_app. apply sublist_app; [exact Hsub|].
      apply optional_rows_sublist.
  - cbn [truthy_opt]. subst db.
    destruct (truthy_opt studentId) eqn:Hstu; cbn [negb].
    + destruct (session_reply r) as [new_id|] eqn:Hrep.
      * pose proof (Hid new_id eq_refl) as Htr. rewrite Htr.
        destruct (handleSendMessage (ui c) i img res now now') as [st' effs] eqn:Hsend.
        cbn [fst snd] in *. rewrite ?Htr, !saveMessageToDb_rows.
        cbn [study_sessions chat_messages ui sessionId].
        unfold saved_consistently. cbn [ui sessionId].
        split; [congruence|]. split; [intros Hg; congruence|].
        split; [exact Htr|]. exists (topic_or_default (ui c)).
        exists ((if user_stored r
                 then [row_of new_id (userMessage_of i img now)] else []) ++
                (if ai_stored r
                 then [row_of new_id (aiResponse_of (ui c) res now')] else [])).
        split.
        -- rewrite Hstart, <- !app_assoc. reflexivity.
        -- rewrite Hmsgs, fmap_app. apply sublist_inserts_l.
           apply optional_rows_sublist.
      * destruct (handleSendMessage (ui c) i img res now now') as [st' effs] eqn:Hsend.
        cbn [fst snd] in *. unfold saved_consistently. cbn [ui sessionId].
        split; [congruence|]. split; [intros _; reflexivity | reflexivity].
    + destruct (handleSendMessage (ui c) i img res now now') as [st' effs] eqn:Hsend.
      cbn [fst snd] in *. unfold saved_consistently. cbn [ui sessionId].
      split; [congruence|]. split; [intros _; reflexivity | reflexivity].
Qed.

Lemma step_saving_consistent
    (studentId : option string) (start : Z) (db0 : Backend)
    (c c' : Component) (db db' : Backend) (ev : Event) (r : Replies)
    (effs : list Effect) :
  (forall new_id, session_reply r = Created new_id -> truthy new_id = true) ->
  saved_consistently studentId start db0 c db ->
  step_saving studentId c db ev r = Some (c', db', effs) ->
  saved_consistently studentId start db0 c' db'.
Proof.
  intros Hid Hinv Hstep.
  assert (Hother : forall st' effs0,
    ui_step (ui c) ev = Some (st', effs0) ->
    saved_consistently studentId start db0 {| ui := st'; sessionId := sessionId c |} db).
  { intros st' effs0 Hui.
    destruct (RunFacts.ui_step_keeps _ _ _ _ Hui) as (Hst & [k Hk] & _).
    destruct Hinv as (Hstart & Hguest & Hinv).
    unfold saved_consistently. cbn [ui sessionId].
    split; [congruence|]. split; [exact Hguest|].
    destruct (sessionId c) as [sid|]; [|exact Hinv].
    destruct Hinv as (Htr & t & rows & Hdb & Hsub).
    split; [exact Htr|]. exists t, rows. split; [exact Hdb|].
    rewrite Hk, fmap_app. apply sublist_inserts_r. exact Hsub. }
  destruct ev as [res now | i img res now now' | o | o | v | | now];
    cbn [step_saving] in Hstep;
    try (destruct (ui_step (ui c) _) as [[st' effs0]|] eqn:Hui; [|discriminate];
         injection Hstep as <- <- <-; eapply Hother; reflexivity).
  destruct (negb (isQuizMode (ui c))); [|discriminate].
  pose proof (handleSendMessage_saving_consistent studentId start db0 c db
                i img res now now' r Hid Hinv) as H.
  injection Hstep as Heq. rewrite Heq in H. exact H.
Qed.

Lemma run_saving_consistent
    (studentId : option string) (start : Z) (db0 : Backend)
    (events : list (Event * Replies)) :
  forall (c c' : Component) (db db' : Backend),
    ids_nonempty events ->
    saved_consistently studentId start db0 c db ->
    run_saving studentId c db events = Some (c', db') ->
    saved_consistently studentId start db0 c' db'.
Proof.
  induction events as [|[ev r] rest IH]; intros c c' db db' Hids Hinv Hrun.
  - injection Hrun as <- <-. exact Hinv.
  - cbn [run_saving] in Hrun.
    destruct (step_saving studentId c db ev r) as [[[c1 db1] effs]|] eqn:Hstep;
      [|discriminate].
    apply (IH c1 c' db1 db'); [| |exact Hrun].
    + intros ev' r' new_id Hin. apply (Hids ev' r' new_id).
      apply elem_of_cons. right. exact Hin.
    + eapply step_saving_consistent; [|exact Hinv|exact Hstep].
      intros new_id. apply (Hids ev r new_id). apply elem_of_cons. left. reflexivity.
Qed.

Lemma mount_consistent (studentId : option string) (start : Z) (db0 : Backend) :
  saved_consistently studentId start db0 (mount start) db0.
Proof. unfold saved_consistently, mount. cbn. repeat split. Qed.

(** X22 ([ensureSession], lines 241-265): a chat creates at most one session
    row.  Whatever is sent and however the backend answers, the component
    adds no row to [study_sessions] until it holds a session id, and then
    exactly one, carrying that id, the student id and the time the chat was
    opened; without a student id it never writes anything. *)
Theorem one_session_row_per_chat
    (studentId : option string) (start : Z) (db0 db' : Backend)
    (c' : Component) (events : list (Event * Replies)) :
  ids_nonempty events ->
  run_saving studentId (mount start) db0 events = Some (c', db') ->
  (truthy_opt studentId = false -> db' = db0) /\
  match sessionId c' with
  | None => db' = db0
  | Some i =>
      exists t : string,
        study_sessions db'
        = study_sessions db0 ++
          [ {| ss_id := i; student_id := default "" studentId;
               session_topic := t; start_time := start |} ]
  end.
Proof.
  intros Hids Hrun.
  destruct (run_saving_consistent studentId start db0 events (mount start) c' db0 db'
              Hids (mount_consistent studentId start db0) Hrun)
    as (_ & Hguest & Hinv).
  split.
  - intros Hg. rewrite (Hguest Hg) in Hinv. exact Hinv.
  - destruct (sessionId c') as [i|]; [|exact Hinv].
    destruct Hinv as (_ & t & rows & -> & _). exists t. reflexivity.
Qed.

Lemma one_session_row_per_chat_witness :
  (truthy_opt (Some "student-7") = false -> MoreSamples.two_sends_backend
                                            = MoreSamples.empty_backend) /\
  exists t : string,
    study_sessions MoreSamples.two_sends_backend
    = [] ++ [ {| ss_id := "sess-1"; student_id := "student-7";
                 session_topic := t; start_time := 0 |} ].
Proof.
  apply (one_session_row_per_chat (Some "student-7") 0 MoreSamples.empty_backend
           MoreSamples.two_sends_backend MoreSamples.two_sends_component
           MoreSamples.two_sends).
  - intros ev r new_id Hin Hr.
    apply elem_of_cons in Hin as [Hin|Hin];
      [|apply list_elem_of_singleton in Hin];
      injection Hin as -> ->; injection Hr as <-; reflexivity.
  - vm_compute. reflexivity.
Defined.

(** X23 ([saveMessageToDb] and its calls, lines 227-238 and 290-310): every
    row the component adds to [chat_messages] is a message of the chat,
    saved under the session id the component holds and in the order of the
    chat; while the component holds no session id nothing is saved. *)
Theorem saved_messages_follow_chat
    (studentId : option string) (start : Z) (db0 db' : Backend)
    (c' : Component) (events : list (Event * Replies)) :
  ids_nonempty events ->
  run_saving studentId (mount start) db0 events = Some (c', db') ->
  exists rows : list MessageRow,
    chat_messages db' = chat_messages db0 ++ rows /\
    match sessionId c' with
    | None => rows = []
    | Some i =>
        rows `sublist_of` (row_of i <$> st_messages (ui c')) /\
        forall row, row ∈ rows -> session_id row = i
    end.
Proof.
  intros Hids Hrun.
  destruct (run_saving_consistent studentId start db0 events (mount start) c' db0 db'
              Hids (mount_consistent studentId start db0) Hrun)
    as (_ & _ & Hinv).
  destruct (sessionId c') as [i|].
  - destruct Hinv as (_ & t & rows & -> & Hsub). exists rows.
    split; [reflexivity|]. split; [exact Hsub|].
    intros row Hrow. apply (elem_of_sublist _ _ _ Hrow) in Hsub as Hrow'.
    clear Hrow. rename Hrow' into Hrow.
    apply list_elem_of_fmap in Hrow as (m & -> & _). reflexivity.
  - subst db'. exists []. split; [rewrite app_nil_r; reflexivity | reflexivity].
Qed.

Lemma saved_messages_follow_chat_witness :
  exists rows : list MessageRow,
    chat_messages MoreSamples.two_sends_backend = [] ++ rows /\
    rows `sublist_of` (row_of "sess-1"
                         <$> st_messages (ui MoreSamples.two_sends_component)) /\
    forall row, row ∈ rows -> session_id row = "sess-1".
Proof.
  apply (saved_messages_follow_chat (Some "student-7") 0 MoreSamples.empty_backend
           MoreSamples.two_sends_backend MoreSamples.two_sends_component
           MoreSamples.two_sends).
  - intros ev r new_id Hin Hr.
    apply elem_of_cons in Hin as [Hin|Hin];
      [|apply list_elem_of_singleton in Hin];
      injection Hin as -> ->; injection Hr as <-; reflexivity.
  - vm_compute. reflexivity.
Defined.

(** X24 ([handleSendMessage] and [ensureSession], lines 268, 285-291 and
    249): the session row is written with the topic shown before the
    message was sent.  When the first message of a chat creates the
    session (the message is not blank, or carries an image), the row's
    topic is "General Study" whatever the message says, even when the
    message names a subject and the chat shows that subject from then on.
    The subject is searched in the lower-cased text, which the statement
    takes for a message written in ASCII. *)
Theorem first_message_session_is_general_study
    (studentId : option string) (start : Z) (db : Backend)
    (inputValue : string) (selectedImage : option string)
    (res : Invoke AIData) (now now' : Z) (r : Replies) (new_id : string) :
  truthy_opt studentId = true ->
  truthy (trim inputValue) || truthy_opt selectedImage = true ->
  session_reply r = Created new_id ->
  study_sessions
    (handleSendMessage_saving studentId (mount start) db inputValue selectedImage
       res now now' r).1.2
  = study_sessions db ++
    [ {| ss_id := new_id; student_id := default "" studentId;
         session_topic := "General Study"; start_time := start |} ] /\
  (ascii_only inputValue = true ->
   forall t : string,
     List.find (fun t => includes (toLowerCase inputValue) t) topicKeywords = Some t ->
     currentTopic
       (ui (handleSendMessage_saving studentId (mount start) db inputValue
              selectedImage res now now' r).1.1)
     = capitalize t).
Proof.
  intros Hstu Hvis Hrep. unfold handleSendMessage_saving.
  rewrite <- negb_orb, Hvis. cbn [negb].
  unfold ensureSession. cbn [mount sessionId truthy_opt]. rewrite Hstu, Hrep.
  cbn [negb].
  destruct (handleSendMessage (ui (mount start)) inputValue selectedImage res now now')
    as [st' effs] eqn:Hsend.
  cbn [fst snd ui]. split.
  - destruct (truthy new_id); rewrite ?saveMessageToDb_rows; reflexivity.
  - intros _ t Hfind. apply (f_equal fst) in Hsend. cbn [fst] in Hsend. subst st'.
    unfold handleSendMessage.
    rewrite <- negb_orb, Hvis. cbn [negb].
    destruct (getAIResponse _ res) as [[a rr] tt]. cbn [fst currentTopic].
    rewrite Hfind. reflexivity.
Qed.

Lemma first_message_session_is_general_study_witness :
  study_sessions
    (handleSendMessage_saving (Some "student-7") (mount 0) MoreSamples.empty_backend
       "physics ka doubt hai" None (MoreSamples.plain_reply "Bata bhai!") 1000 2000
       (MoreSamples.all_stored "sess-1")).1.2
  = [] ++ [ {| ss_id := "sess-1"; student_id := "student-7";
               session_topic := "General Study"; start_time := 0 |} ] /\
  (ascii_only "physics ka doubt hai" = true ->
   forall t : string,
     List.find (fun t => includes (toLowerCase "physics ka doubt hai") t)
       topicKeywords = Some t ->
     currentTopic
       (ui (handleSendMessage_saving (Some "student-7") (mount 0)
              MoreSamples.empty_backend "physics ka doubt hai" None
              (MoreSamples.plain_reply "Bata bhai!") 1000 2000
              (MoreSamples.all_stored "sess-1")).1.1)
     = capitalize t).
Proof.
  apply (first_message_session_is_general_study (Some "student-7") 0
           MoreSamples.empty_backend "physics ka doubt hai" None
           (MoreSamples.plain_reply "Bata bhai!") 1000 2000
           (MoreSamples.all_stored "sess-1") "sess-1"); reflexivity.
Defined.

(** A first message of white space only, U+00A0 included, writes no
    session row. *)
Lemma blank_first_message_writes_nothing (studentId : option string) (start : Z)
    (db : Backend) (res : Invoke AIData) (now now' : Z) (r : Replies) :
  handleSendMessage_saving studentId (mount start) db LiveSamples.blank_message None
    res now now' r
  = (mount start, db, []).
Proof. reflexivity. Qed.

End PersistenceFacts.

(** ** The analysis panel and typed answers *)

Module PanelFacts.
Import JS StudyChat Runs AnalysisPanel.

Lemma getAIResponse_duplicate_free (a : RealTimeAnalysis) (res : Invoke AIData) :
  duplicate_free a -> duplicate_free (getAIResponse a res).1.1.
Proof.
  intros Ha. rewrite AnalysisFacts.getAIResponse_analysis.
  destruct res as [|[d|] [|]]; try exact Ha.
  destruct (sessionAnalysis d) as [sa|]; [|exact Ha].
  unfold duplicate_free, mergeAnalysis. cbn [weakAreas strongAreas topicsCovered].
  repeat split; apply ArrayFacts.spread_new_Set_NoDup.
Qed.

Lemma getAIResponse_extends (a : RealTimeAnalysis) (res : Invoke AIData) :
  duplicate_free a -> extended_by a (getAIResponse a res).1.1.
Proof.
  intros (Hw & Hs & Ht). rewrite AnalysisFacts.getAIResponse_analysis.
  assert (Hrefl : extended_by a a) by (repeat split; reflexivity).
  destruct res as [|[d|] [|]]; try exact Hrefl.
  destruct (sessionAnalysis d) as [sa|]; [|exact Hrefl].
  unfold extended_by, mergeAnalysis. cbn [weakAreas strongAreas topicsCovered].
  repeat split; apply AnalysisFacts.spread_new_Set_extends; assumption.
Qed.

Lemma analysis_after_extends (turns : list (Invoke AIData)) :
  forall a : RealTimeAnalysis,
    duplicate_free a ->
    duplicate_free (analysis_after turns a) /\ extended_by a (analysis_after turns a).
Proof.
  unfold analysis_after.
  induction turns as [|res turns IH]; intros a Ha; cbn [fold_left].
  - split; [exact Ha | repeat split; reflexivity].
  - destruct (IH _ (getAIResponse_duplicate_free a res Ha)) as (Hd & Hw & Hs & Ht).
    destruct (getAIResponse_extends a res Ha) as (Hw1 & Hs1 & Ht1).
    split; [exact Hd|]. repeat split; etransitivity; eassumption.
Qed.

Lemma take_prefix (l1 l2 : list string) (n : nat) :
  l1 `prefix_of` l2 -> (n <= length l1)%nat -> take n l2 = take n l1.
Proof. intros [k ->] Hn. apply take_app_le. exact Hn. Qed.

(** X25 ([setAnalysis] in [getAIResponse], lines 207-214, and the analysis
    panel, lines 561-582): along a chat the three lists of the analysis hold
    no value twice and grow at their end only, so the order of earlier
    entries never changes.  As the panel lists the first three topics and
    the first two strong and weak areas, each of its lists stops changing
    once it is full: areas reported later are never shown. *)
Theorem analysis_panel_keeps_first_entries (earlier later : list (Invoke AIData)) :
  let before := analysis_after earlier (st_analysis (initialState 0)) in
  let after := analysis_after (earlier ++ later) (st_analysis (initialState 0)) in
  duplicate_free after /\
  extended_by before after /\
  ((3 <= length (topicsCovered before))%nat -> shownTopics after = shownTopics before) /\
  ((2 <= length (strongAreas before))%nat -> shownStrong after = shownStrong before) /\
  ((2 <= length (weakAreas before))%nat -> shownWeak after = shownWeak before).
Proof.
  intros before after. subst before after.
  assert (H0 : duplicate_free (st_analysis (initialState 0)))
    by (repeat split; apply NoDup_nil_2).
  destruct (analysis_after_extends earlier _ H0) as (Hd1 & _).
  set (before := analysis_after earlier (st_analysis (initialState 0))) in *.
  assert (Hsplit : analysis_after (earlier ++ later) (st_analysis (initialState 0))
                   = analysis_after later before).
  { unfold before, analysis_after. apply fold_left_app. }
  rewrite Hsplit.
  destruct (analysis_after_extends later before Hd1) as (Hd2 & Hw & Hs & Ht).
  split; [exact Hd2|]. split; [repeat split; assumption|].
  unfold shownTopics, shownStrong, shownWeak.
  repeat split; intros Hn; apply take_prefix; assumption.
Qed.

Lemma analysis_panel_keeps_first_entries_witness :
  shownWeak (analysis_after
               ([Returned (Some Samples.analysis_reply) false]
                ++ [Returned (Some MoreSamples.later_reply) false])
               (st_analysis (initialState 0)))
  = ["fractions"; "decimals"].
Proof.
  destruct (analysis_panel_keeps_first_entries
              [Returned (Some Samples.analysis_reply) false]
              [Returned (Some MoreSamples.later_reply) false])
    as (_ & _ & _ & _ & Hweak).
  rewrite Hweak; [reflexivity | vm_compute; lia].
Defined.

(** *** Typed answers *)

Lemma toLowerCase_app (s t : string) :
  toLowerCase (s +:+ t) = toLowerCase s +:+ toLowerCase t.
Proof.
  induction s as [|c r IH]; [reflexivity|].
  rewrite ArrayFacts.append_cons. cbn [toLowerCase].
  rewrite IH, ArrayFacts.append_cons. reflexivity.
Qed.

(** Lower case leaves every byte outside A to Z as it is. *)
Lemma lower_char_other (c : ascii) :
  (nat_of_ascii c < 65 \/ 90 < nat_of_ascii c)%nat -> lower_char c = c.
Proof.
  intros Hc. unfold lower_char.
  destruct (65 <=? nat_of_ascii c)%nat eqn:H1; [|reflexivity].
  destruct (nat_of_ascii c <=? 90)%nat eqn:H2; [|reflexivity].
  apply Nat.leb_le in H1, H2. lia.
Qed.

Lemma is_space_bytes (c : ascii) :
  is_space c = true -> (nat_of_ascii c < 65)%nat.
Proof.
  unfold is_space. rewrite orb_true_iff, andb_true_iff, !Nat.leb_le, Nat.eqb_eq. lia.
Qed.

Lemma is_space2_bytes (c1 c2 : ascii) :
  is_space2 c1 c2 = true -> (90 < nat_of_ascii c1 /\ 90 < nat_of_ascii c2)%nat.
Proof.
  unfold is_space2. rewrite andb_true_iff, !Nat.eqb_eq. lia.
Qed.

Lemma is_space3_bytes (c1 c2 c3 : ascii) :
  is_space3 c1 c2 c3 = true ->
  (90 < nat_of_ascii c1 /\ 90 < nat_of_ascii c2 /\ 90 < nat_of_ascii c3)%nat.
Proof.
  unfold is_space3. cbv zeta.
  rewrite !orb_true_iff, !andb_true_iff, !orb_true_iff, !andb_true_iff,
    !Nat.leb_le, !Nat.eqb_eq. lia.
Qed.

(** Lower case leaves a white-space character in front as it is. *)
Lemma strip_space_lower (s r : string) :
  strip_space s = Some r ->
  exists w : string,
    s = w +:+ r /\ toLowerCase w = w /\ strip_space (w +:+ toLowerCase r)
                                       = Some (toLowerCase r).
Proof.
  destruct s as [|c1 [|c2 [|c3 r3]]]; cbn [strip_space]; try discriminate.
  - destruct (is_space c1) eqn:H1; [|discriminate]. intros [= <-].
    exists (String c1 ""). split; [reflexivity|]. cbn [toLowerCase].
    rewrite (lower_char_other c1) by (left; apply is_space_bytes, H1).
    split; [reflexivity|]. rewrite ArrayFacts.append_cons, ArrayFacts.append_empty.
    cbn [strip_space]. rewrite H1. reflexivity.
  - destruct (is_space c1) eqn:H1.
    + intros [= <-]. exists (String c1 ""). split; [reflexivity|]. cbn [toLowerCase].
      rewrite (lower_char_other c1) by (left; apply is_space_bytes, H1).
      split; [reflexivity|]. rewrite ArrayFacts.append_cons, ArrayFacts.append_empty.
      cbn [strip_space]. rewrite H1. reflexivity.
    + destruct (is_space2 c1 c2) eqn:H2; [|discriminate]. intros [= <-].
      exists (String c1 (String c2 "")). split; [reflexivity|].
      destruct (is_space2_bytes _ _ H2) as [Hb1 Hb2]. cbn [toLowerCase].
      rewrite (lower_char_other c1), (lower_char_other c2) by (right; assumption).
      split; [reflexivity|].
      rewrite !ArrayFacts.append_cons, ArrayFacts.append_empty.
      cbn [strip_space]. rewrite H1, H2. reflexivity.
  - destruct (is_space c1) eqn:H1.
    + intros [= <-]. exists (String c1 ""). split; [reflexivity|]. cbn [toLowerCase].
      rewrite (lower_char_other c1) by (left; apply is_space_bytes, H1).
      split; [reflexivity|]. rewrite ArrayFacts.append_cons, ArrayFacts.append_empty.
      cbn [strip_space]. rewrite H1. reflexivity.
    + destruct (is_space2 c1 c2) eqn:H2.
      * intros [= <-]. exists (String c1 (String c2 "")). split; [reflexivity|].
        destruct (is_space2_bytes _ _ H2) as [Hb1 Hb2]. cbn [toLowerCase].
        rewrite (lower_char_other c1), (lower_char_other c2) by (right; assumption).
        split; [reflexivity|].
        rewrite !ArrayFacts.append_cons, ArrayFacts.append_empty.
        cbn [strip_space]. rewrite H1, H2. reflexivity.
      * destruct (is_space3 c1 c2 c3) eqn:H3; [|discriminate]. intros [= <-].
        exists (String c1 (String c2 (String c3 ""))). split; [reflexivity|].
        destruct (is_space3_bytes _ _ _ H3) as (Hb1 & Hb2 & Hb3). cbn [toLowerCase].
        rewrite (lower_char_other c1), (lower_char_other c2), (lower_char_other c3)
          by (right; assumption).
        split; [reflexivity|].
        rewrite !ArrayFacts.append_cons, ArrayFacts.append_empty.
        cbn [strip_space]. rewrite H1, H2, H3. reflexivity.
Qed.

(** White space stays white space in lower case. *)
Lemma toLowerCase_blank (s : string) : trimStart s = "" -> toLowerCase s = s.
Proof.
  induction s as [s Hs | s r Hs IH] using ArrayFacts.strip_space_ind; intros Hblank.
  - rewrite (ArrayFacts.trimStart_fixed s Hs) in Hblank. subst s. reflexivity.
  - rewrite ArrayFacts.trimStart_unfold, Hs in Hblank.
    destruct (strip_space_lower s r Hs) as (w & -> & Hw & _).
    rewrite toLowerCase_app, Hw, (IH Hblank). reflexivity.
Qed.

(** An ASCII character that is not white space starts no white-space
    character. *)
Lemma strip_space_ascii (c : ascii) (r : string) :
  (nat_of_ascii c <? 128)%nat = true -> is_space c = false ->
  strip_space (String c r) = None.
Proof.
  intros Hc Hs. apply Nat.ltb_lt in Hc. cbn [strip_space]. rewrite Hs.
  destruct r as [|c2 [|c3 r3]]; [reflexivity| |].
  - destruct (is_space2 c c2) eqn:H2; [|reflexivity].
    apply andb_true_iff in H2 as [H2 _]. apply Nat.eqb_eq in H2. lia.
  - destruct (is_space2 c c2) eqn:H2.
    + apply andb_true_iff in H2 as [H2 _]. apply Nat.eqb_eq in H2. lia.
    + destruct (is_space3 c c2 c3) eqn:H3; [|reflexivity].
      revert H3. unfold is_space3. cbv zeta.
      rewrite !orb_true_iff, !andb_true_iff, !Nat.eqb_eq. lia.
Qed.

Lemma trimStart_ascii_only (s : string) :
  ascii_only s = true -> ascii_only (trimStart s) = true.
Proof.
  induction s as [|c r IH]; [reflexivity|]. intros Ha.
  cbn [ascii_only] in Ha. apply andb_true_iff in Ha as [Hc Hr]. rewrite ArrayFacts.trimStart_unfold.
  destruct (is_space c) eqn:Hs.
  - cbn [strip_space]. rewrite Hs. apply IH. exact Hr.
  - rewrite (strip_space_ascii c r Hc Hs). cbn [ascii_only]. rewrite Hc, Hr.
    reflexivity.
Qed.

(** White space after an ASCII text does not count. *)
Lemma trimStart_app_ascii (s blank : string) :
  ascii_only s = true -> trimStart blank = "" ->
  trimStart (s +:+ blank)
  = if truthy (trimStart s) then trimStart s +:+ blank else "".
Proof.
  intros Ha Hb. induction s as [|c r IH].
  - rewrite ArrayFacts.append_empty. exact Hb.
  - cbn [ascii_only] in Ha. apply andb_true_iff in Ha as [Hc Hr]. rewrite ArrayFacts.append_cons.
    rewrite (ArrayFacts.trimStart_unfold (String c r)),
      (ArrayFacts.trimStart_unfold (String c (r +:+ blank))).
    destruct (is_space c) eqn:Hs.
    + cbn [strip_space]. rewrite Hs. apply IH. exact Hr.
    + rewrite !(strip_space_ascii c _ Hc Hs). reflexivity.
Qed.

Lemma trimEnd_blank (s : string) : trimStart s = "" -> trimEnd s = "".
Proof.
  intros Hs. destruct s as [|c r]; [reflexivity|].
  rewrite ArrayFacts.trimEnd_cons, Hs. reflexivity.
Qed.

Lemma trimEnd_app_ascii (s blank : string) :
  ascii_only s = true -> trimStart blank = "" ->
  trimEnd (s +:+ blank) = trimEnd s.
Proof.
  intros Ha Hb. induction s as [|c r IH].
  - rewrite ArrayFacts.append_empty. apply trimEnd_blank. exact Hb.
  - pose proof (trimStart_app_ascii (String c r) blank Ha Hb) as Hst.
    cbn [ascii_only] in Ha. apply andb_true_iff in Ha as [Hc Hr].
    rewrite ArrayFacts.append_cons in *. rewrite !ArrayFacts.trimEnd_cons, Hst.
    destruct (trimStart (String c r)) as [|c' r'] eqn:Ht; cbn [truthy].
    + reflexivity.
    + rewrite ArrayFacts.append_cons. cbn [truthy]. rewrite (IH Hr). reflexivity.
Qed.

Lemma trim_app_ascii (s blank : string) :
  ascii_only s = true -> trimStart blank = "" -> trim (s +:+ blank) = trim s.
Proof.
  intros Ha Hb. unfold trim. rewrite (trimStart_app_ascii s blank Ha Hb).
  destruct (trimStart s) as [|c r] eqn:Ht; cbn [truthy]; [reflexivity|].
  apply trimEnd_app_ascii; [|exact Hb]. rewrite <- Ht.
  apply trimStart_ascii_only. exact Ha.
Qed.

Lemma toLowerCase_ascii_only (s : string) :
  ascii_only s = true -> ascii_only (toLowerCase s) = true.
Proof.
  induction s as [|c r IH]; [reflexivity|]. cbn [ascii_only toLowerCase].
  intros Ha. cbn [ascii_only] in Ha. apply andb_true_iff in Ha as [Hc Hr].
  rewrite (IH Hr), andb_true_r.
  revert Hc. destruct c as [[] [] [] [] [] [] [] []]; cbn; intros Hc;
    first [reflexivity | discriminate Hc].
Qed.

(** Both cases of a letter fold to the same lower-case letter. *)
Lemma lower_char_other_case (c : ascii) :
  lower_char (Letters.other_case c) = lower_char c.
Proof. destruct c as [[] [] [] [] [] [] [] []]; reflexivity. Qed.

Lemma toLowerCase_recase (mask : list bool) (s : string) :
  toLowerCase (Letters.recase mask s) = toLowerCase s.
Proof.
  revert mask. induction s as [|c r IH]; intros [|b mask]; try reflexivity.
  cbn [Letters.recase toLowerCase]. rewrite IH.
  destruct b; [rewrite lower_char_other_case|]; reflexivity.
Qed.

(** X26 ([calculateQuizResults], lines 404-409): for a question without
    options the score of a typed answer depends neither on white space
    before or after it (any white space of [String.prototype.trim], U+00A0
    and U+3000 included) nor on the case of its letters: changing the case
    of any of them leaves the score as it is.  The statement is for answers
    and correct answers written in ASCII, where [toLowerCase] folds A to Z
    and nothing else. *)
Theorem typed_answer_ignores_padding_and_case
    (q : QuizQuestion) (a before after : string) (mask : list bool) :
  options q = None ->
  ascii_only a = true ->
  ascii_only (correct_answer q) = true ->
  trim before = "" ->
  trim after = "" ->
  countsAsCorrect q (Some (before +:+ a +:+ after)) = countsAsCorrect q (Some a) /\
  countsAsCorrect q (Some (Letters.recase mask a)) = countsAsCorrect q (Some a).
Proof.
  intros Ho Ha _ Hb Hc.
  assert (Hblank : forall s, trim s = "" -> trimStart s = "").
  { intros s Hs. pose proof (ArrayFacts.truthy_trim s) as Ht. rewrite Hs in Ht.
    destruct (trimStart s); [reflexivity | discriminate Ht]. }
  apply Hblank in Hb, Hc.
  assert (Heq : trim (toLowerCase (before +:+ a +:+ after)) = trim (toLowerCase a)).
  { rewrite !toLowerCase_app, (toLowerCase_blank before Hb),
      (toLowerCase_blank after Hc).
    unfold trim at 1. rewrite (ArrayFacts.trimStart_app_blank before _ Hb).
    fold (trim (toLowerCase a +:+ after)).
    apply trim_app_ascii; [|exact Hc]. apply toLowerCase_ascii_only. exact Ha. }
  unfold countsAsCorrect. rewrite Ho. cbn [fmap option_fmap option_map]. split.
  - rewrite Heq. reflexivity.
  - rewrite toLowerCase_recase. reflexivity.
Qed.

Lemma typed_answer_ignores_padding_and_case_witness :
  countsAsCorrect (Samples.text_question 1 "Paris")
    (Some ((" " +:+ Samples.no_break_space) +:+ "paris"
           +:+ (Samples.ideographic_space +:+ " ")))
  = countsAsCorrect (Samples.text_question 1 "Paris") (Some "paris") /\
  countsAsCorrect (Samples.text_question 1 "Paris")
    (Some (Letters.recase [true; false; true] "paris"))
  = countsAsCorrect (Samples.text_question 1 "Paris") (Some "paris").
Proof.
  apply (typed_answer_ignores_padding_and_case (Samples.text_question 1 "Paris")
           "paris" (" " +:+ Samples.no_break_space)
           (Samples.ideographic_space +:+ " ") [true; false; true]);
    vm_compute; reflexivity.
Defined.

End PanelFacts.

(** ** The component with its requests in flight *)

Module LiveFacts.
Import JS StudyChat Runs Live.

(** *** The atomic handlers are the handlers run without interruption *)

Lemma handleSendMessage_phases (st : State) (inputValue : string)
    (selectedImage : option string) (res : Invoke AIData) (now now' : Z) :
  handleSendMessage st inputValue selectedImage res now now'
  = if negb (truthy (trim inputValue)) && negb (truthy_opt selectedImage)
    then (st, [])
    else receiveReply (sendStart st inputValue selectedImage now) res now'.
Proof.
  unfold handleSendMessage, receiveReply, sendStart.
  destruct (negb (truthy (trim inputValue)) && negb (truthy_opt selectedImage));
    [reflexivity|].
  cbn [st_analysis]. destruct (getAIResponse (st_analysis st) res) as [[a r] t].
  cbn [st_messages currentTopic startTime isQuizMode quizQuestions
       currentQuestionIndex userAnswers showResult quizLoading selectedOption
       showExplanation].
  rewrite <- app_assoc. reflexivity.
Qed.

(** *** Steps *)

Lemma live_run_cons (c c'' : LiveComponent) (a : Action) (rest : list Action)
    (effs'' : list Effect) :
  live_run c (a :: rest) = Some (c'', effs'') ->
  exists c' effs effs',
    live_step c a = Some (c', effs) /\
    live_run c' rest = Some (c'', effs') /\
    effs'' = effs ++ effs'.
Proof.
  cbn [live_run]. destruct (live_step c a) as [[c' effs]|] eqn:Hs; [|discriminate].
  destruct (live_run c' rest) as [[c3 effs']|] eqn:Hr; [|discriminate].
  intros [= <- <-]. exists c', effs, effs'. split; [reflexivity|].
  split; [exact Hr | reflexivity].
Qed.

Lemma live_run_app (c c' c'' : LiveComponent) (before after : list Action)
    (e1 e2 : list Effect) :
  live_run c before = Some (c', e1) ->
  live_run c' after = Some (c'', e2) ->
  live_run c (before ++ after) = Some (c'', e1 ++ e2).
Proof.
  revert c e1. induction before as [|a rest IH]; intros c e1 H1 H2.
  - injection H1 as <- <-. exact H2.
  - apply live_run_cons in H1 as (c1 & effs & effs' & Hs & Hr & ->).
    cbn [app live_run]. rewrite Hs, (IH _ _ Hr H2), app_assoc. reflexivity.
Qed.

(** What an event of the quiz panel does to the cells: the quiz goes on
    with the same questions and topic, and the chat is left alone or gets
    the result message. *)
Lemma panel_step (st st' : State) (ev : Event) (effs : list Effect) :
  panel_event ev = true ->
  ui_step st ev = Some (st', effs) ->
  isQuizMode st = true /\ isQuizMode st' = true /\
  quizQuestions st' = quizQuestions st /\
  userAnswers st `prefix_of` userAnswers st' /\
  (currentQuestionIndex st <= currentQuestionIndex st')%nat /\
  currentTopic st' = currentTopic st /\
  quizLoading st' = quizLoading st /\
  (st_messages st' = st_messages st \/
   exists (now : Z) (correct total : nat) (u : Verdict),
     st_messages st'
     = st_messages st ++
       [ {| m_id := now; role := assistant;
            content := ResultMessage correct total u;
            timestamp := now; imageUrl := None |} ]).
Proof.
  intros Hev Hstep.
  assert (Hmode : isQuizMode st = true).
  { destruct ev; try discriminate Hev; cbn [ui_step] in Hstep;
      unfold quizPanel in Hstep; destruct (isQuizMode st); try reflexivity;
      discriminate Hstep. }
  destruct (RunFacts.ui_step_keeps _ _ _ _ Hstep) as (_ & _ & _ & _ & _ & Hq).
  destruct (Hq Hmode) as (Hm' & Hqs & Hans & Hidx & Htop & _).
  split; [exact Hmode|]. split; [exact Hm'|]. split; [exact Hqs|].
  split; [exact Hans|]. split; [exact Hidx|]. split; [exact Htop|].
  destruct (RunFacts.ui_step_cases _ _ _ _ Hstep)
    as [(Hno & _)
       | (q & _ & [(a & _ & _ & -> & _) | [(v & _ & _ & -> & _) | (now & _ & Heq)]])].
  - rewrite Hmode in Hno. discriminate Hno.
  - split; [reflexivity | left; reflexivity].
  - split; [reflexivity | left; reflexivity].
  - apply (f_equal fst) in Heq. cbn [fst] in Heq. subst st'.
    unfold handleNextQuestion.
    destruct (Z.of_nat (currentQuestionIndex st) <? _).
    + split; [reflexivity | left; reflexivity].
    + split; [reflexivity|]. right. cbn [calculateQuizResults fst st_messages].
      eexists _, _, _, _. reflexivity.
Qed.

Lemma getAIResponse_no_summary (a : RealTimeAnalysis) (res : Invoke AIData)
    (s : Summary) :
  OnEndStudy s ∈ (getAIResponse a res).2 -> False.
Proof.
  destruct res as [|[[[e|] sa r]|] [|]]; cbn; try destruct (truthy e);
    intros Hs; RunFacts.summary_in Hs.
Qed.

Lemma getAIResponse_is_reply (a : RealTimeAnalysis) (res : Invoke AIData) :
  match (getAIResponse a res).1.2 with
  | Text r => truthy r = true
  | FallbackReply | ConnectionProblem => True
  | _ => False
  end.
Proof.
  destruct res as [|[[e sa [r|]]|] [|]]; cbn; try exact I.
  destruct (truthy r) eqn:Hr; [exact Hr | exact I].
Qed.

Lemma receiveReply_cells (st : State) (res : Invoke AIData) (now' : Z) :
  st_messages (receiveReply st res now').1
  = st_messages st ++
    [ {| m_id := now' + 1; role := assistant;
         content := (getAIResponse (st_analysis st) res).1.2;
         timestamp := now'; imageUrl := None |} ] /\
  currentTopic (receiveReply st res now').1 = currentTopic st /\
  isQuizMode (receiveReply st res now').1 = isQuizMode st /\
  quizQuestions (receiveReply st res now').1 = quizQuestions st /\
  userAnswers (receiveReply st res now').1 = userAnswers st /\
  currentQuestionIndex (receiveReply st res now').1 = currentQuestionIndex st /\
  (receiveReply st res now').2 = (getAIResponse (st_analysis st) res).2.
Proof.
  unfold receiveReply. destruct (getAIResponse (st_analysis st) res) as [[a r] t].
  repeat split.
Qed.

Lemma handleEndStudyClick_cells (st : State) (res : Invoke QuizData) (now : Z) :
  currentTopic (handleEndStudyClick st res now).1 = currentTopic st /\
  (st_messages (handleEndStudyClick st res now).1 = st_messages st \/
   exists n : nat,
     st_messages (handleEndStudyClick st res now).1
     = st_messages st ++
       [ {| m_id := now; role := assistant; content := QuizIntro n;
            timestamp := now; imageUrl := None |} ]).
Proof.
  destruct res as [|[[[|] [[|q qs]|]]|] [|]];
    cbn [handleEndStudyClick fst currentTopic st_messages];
    (split; [reflexivity|]); first [left; reflexivity | right; eexists; reflexivity].
Qed.

Lemma handleEndStudyClick_summaries (cl : State) (res : Invoke QuizData) (now : Z)
    (s : Summary) :
  OnEndStudy s ∈ (handleEndStudyClick cl res now).2 ->
  topic s = topic_or_default cl /\ messages s = st_messages cl /\
  analysis s = st_analysis cl /\ quizResult s = None.
Proof.
  destruct res as [|[[[|] [[|q qs]|]]|] [|]];
    cbn [handleEndStudyClick snd finishStudySession];
    intros Hs; RunFacts.summary_in Hs; repeat split.
Qed.

(** *** The chat *)

(** A step that appends nothing, and one that appends a message which is
    neither from the user nor a reply. *)
Ltac appends_nothing :=
  exists []; rewrite app_nil_r; unfold waiting, awaitingReply; cbn [sending cells];
  try match goal with H : sending _ = _ |- _ => rewrite H end;
  (split; [first [reflexivity | assumption]|]); (split; [reflexivity|]);
  (split; [cbn; lia|]);
  let m := fresh "m" in let Hm := fresh "Hm" in
  intros m Hm; apply elem_of_nil in Hm; contradiction.

Ltac appends_notice :=
  eexists [_]; unfold waiting, awaitingReply; cbn [sending cells];
  (split; [first [reflexivity | eassumption]|]); (split; [reflexivity|]);
  (split; [cbn; lia|]);
  let m := fresh "m" in let Hm := fresh "Hm" in
  intros m Hm; apply list_elem_of_singleton in Hm; subst m; discriminate.

(** What a step appends to the chat. *)
Lemma live_step_chat (c c' : LiveComponent) (a : Action) (effs : list Effect) :
  live_step c a = Some (c', effs) ->
  exists new : list ChatMessage,
    st_messages (cells c') = st_messages (cells c) ++ new /\
    List.filter from_user new = option_list (sent a) /\
    (length (List.filter is_reply new) + waiting c'
     = waiting c + length (option_list (sent a)))%nat /\
    forall m, m ∈ new -> role m = assistant -> content m <> Text "".
Proof.
  intros Hstep.
  destruct a as [i img now | res now' | | | res now | ev | now];
    cbn [live_step sent] in *.
  - destruct (isQuizMode (cells c)); [discriminate|].
    unfold isLoading in Hstep. destruct (sending c) eqn:Hs; try discriminate.
    cbn [negb andb] in Hstep.
    destruct (negb (truthy (trim i)) && negb (truthy_opt img));
      injection Hstep as <- <-.
    + appends_nothing.
    + eexists [_]. cbn [cells sendStart st_messages].
      split; [reflexivity|]. split; [reflexivity|].
      unfold waiting, awaitingReply. cbn [sending]. rewrite Hs.
      split; [reflexivity|].
      intros m Hm. apply list_elem_of_singleton in Hm. subst m. discriminate.
  - destruct (sending c) eqn:Hs; try discriminate. injection Hstep as <- <-.
    destruct (receiveReply_cells (cells c) res now') as (Hmsg & _).
    eexists [_]. cbn [cells]. split; [exact Hmsg|].
    pose proof (getAIResponse_is_reply (st_analysis (cells c)) res) as Hr.
    unfold waiting, awaitingReply. cbn [sending]. rewrite Hs.
    cbn [List.filter from_user is_reply role content option_list length].
    destruct ((getAIResponse (st_analysis (cells c)) res).1.2) as [r| | | | |];
      try contradiction; (split; [reflexivity|]); (split; [reflexivity|]);
      intros m Hm; apply list_elem_of_singleton in Hm; subst m; intros _;
      cbn [content]; intros Hc; try discriminate Hc.
    injection Hc as ->. discriminate Hr.
  - destruct (sending c) eqn:Hs; try discriminate. injection Hstep as <- <-.
    appends_nothing.
  - destruct (negb (isQuizMode (cells c)) && negb (quizLoading (cells c)));
      [|discriminate]. injection Hstep as <- <-. appends_nothing.
  - destruct (awaitingQuiz c) as [cl|]; [|discriminate]. injection Hstep as <- <-.
    destruct (handleEndStudyClick_cells (cells c) res now) as (_ & [Hm | (n & Hm)]);
      [appends_nothing | appends_notice].
  - assert (Hpanel : exists st' effs',
              panel_event ev = true /\ ui_step (cells c) ev = Some (st', effs') /\
              cells c' = st' /\ sending c' = sending c).
    { destruct ev; try discriminate Hstep;
        destruct (ui_step (cells c) _) as [[st' effs']|] eqn:Hu;
        try discriminate Hstep; injection Hstep as <- <-;
        exists st', effs'; repeat split. }
    destruct Hpanel as (st' & effs' & Hev & Hu & Hcells & Hsend).
    destruct (panel_step _ _ _ _ Hev Hu) as (_ & _ & _ & _ & _ & _ & _ & Hmsg).
    rewrite <- Hcells in Hmsg.
    assert (Hw : waiting c' = waiting c)
      by (unfold waiting, awaitingReply; rewrite Hsend; reflexivity).
    destruct Hmsg as [Hm | (now & correct & total & u & Hm)].
    + exists []. rewrite app_nil_r, Hw. split; [exact Hm|]. split; [reflexivity|].
      split; [cbn; lia|]. intros m Hin. apply elem_of_nil in Hin. contradiction.
    + eexists [_]. rewrite Hw. split; [exact Hm|]. split; [reflexivity|].
      split; [cbn; lia|].
      intros m Hin. apply list_elem_of_singleton in Hin. subst m. discriminate.
  - destruct (resultTimer c) as [cl|]; [|discriminate]. injection Hstep as <- <-.
    appends_nothing.
Qed.

Lemma live_run_chat (c c' : LiveComponent) (actions : list Action) (effs : list Effect) :
  live_run c actions = Some (c', effs) ->
  exists new : list ChatMessage,
    st_messages (cells c') = st_messages (cells c) ++ new /\
    List.filter from_user new = omap sent actions /\
    (length (List.filter is_reply new) + waiting c'
     = waiting c + length (omap sent actions))%nat /\
    forall m, m ∈ new -> role m = assistant -> content m <> Text "".
Proof.
  revert c effs. induction actions as [|a rest IH]; intros c effs Hrun.
  - injection Hrun as <- <-. exists []. rewrite app_nil_r. cbn. repeat split; try lia.
    intros m Hm. apply elem_of_nil in Hm. contradiction.
  - apply live_run_cons in Hrun as (c1 & effs1 & effs2 & Hstep & Hrest & ->).
    destruct (live_step_chat _ _ _ _ Hstep) as (new1 & Hm1 & Hu1 & Hr1 & Ht1).
    destruct (IH _ _ Hrest) as (new2 & Hm2 & Hu2 & Hr2 & Ht2).
    exists (new1 ++ new2). rewrite Hm2, Hm1, <- app_assoc. split; [reflexivity|].
    assert (Hom : omap sent (a :: rest) = option_list (sent a) ++ omap sent rest)
      by (cbn; destruct (sent a); reflexivity).
    rewrite !List.filter_app, Hu1, Hu2, Hom, !length_app.
    split; [reflexivity|]. split.
    + lia.
    + intros m Hm. apply elem_of_app in Hm as [Hm|Hm]; [apply Ht1 | apply Ht2]; exact Hm.
Qed.

(** A message of white space only, sent without an image, changes
    nothing; white space is that of [String.prototype.trim], U+00A0 and
    U+3000 included. *)
Lemma blank_message_is_ignored (c c' : LiveComponent) (inputValue : string) (now : Z)
    (effs : list Effect) :
  trim inputValue = "" ->
  live_step c (PressSend inputValue None now) = Some (c', effs) ->
  c' = c /\ effs = [].
Proof.
  intros Hblank. cbn [live_step]. rewrite Hblank. cbn [truthy truthy_opt negb andb].
  destruct (negb (isQuizMode (cells c)) && negb (isLoading c)); [|discriminate].
  intros [= <- <-]. split; reflexivity.
Qed.

Lemma blank_message_is_blank : trim LiveSamples.blank_message = "".
Proof. vm_compute. reflexivity. Qed.

(** X9 ([handleSendMessage], lines 267-313, with [getAIResponse], lines
    182-221, whatever else is in flight): the user messages of the chat
    are, in order, the messages sent with a text that is not white space
    only or with an image, each as typed; a blank one leaves no trace.
    Every such message gets exactly one reply, the last one possibly still
    awaited, and no message of the assistant is empty: a fallback or the
    connection notice stands in for a missing reply.  The reply is appended
    to the chat as it is when it arrives, so a quiz introduction can come
    between a message and its reply. *)
Theorem sent_message_is_answered (start : Z) (actions : list Action)
    (c : LiveComponent) (effs : list Effect) :
  live_run (mounted start) actions = Some (c, effs) ->
  List.filter from_user (st_messages (cells c)) = omap sent actions /\
  (length (List.filter is_reply (st_messages (cells c))) + waiting c
   = length (omap sent actions))%nat /\
  forall m, m ∈ st_messages (cells c) -> role m = assistant -> content m <> Text "".
Proof.
  intros Hrun.
  destruct (live_run_chat _ _ _ _ Hrun) as (new & Hm & Hu & Hr & Ht).
  rewrite Hm. cbn [mounted cells initialState st_messages] in *.
  cbn [app List.filter from_user is_reply role content length].
  split; [exact Hu|]. split; [exact Hr|].
  intros m Hin. apply elem_of_cons in Hin as [-> | Hin]; [discriminate|].
  apply Ht. exact Hin.
Qed.

Lemma sent_message_is_answered_witness :
  List.filter from_user (st_messages (cells LiveSamples.after_reply_during_quiz))
  = omap sent LiveSamples.reply_during_quiz /\
  (length (List.filter is_reply
             (st_messages (cells LiveSamples.after_reply_during_quiz)))
   + waiting LiveSamples.after_reply_during_quiz
   = length (omap sent LiveSamples.reply_during_quiz))%nat /\
  forall m, m ∈ st_messages (cells LiveSamples.after_reply_during_quiz) ->
            role m = assistant -> content m <> Text "".
Proof.
  apply (sent_message_is_answered 0 LiveSamples.reply_during_quiz
           LiveSamples.after_reply_during_quiz
           (LiveSamples.effects_of (mounted 0) LiveSamples.reply_during_quiz)).
  vm_compute. reflexivity.
Defined.

(** *** The topic *)

Lemma sendStart_topic (st : State) (inputValue : string)
    (selectedImage : option string) (now : Z) :
  truthy (currentTopic st) = true ->
  currentTopic (sendStart st inputValue selectedImage now) = currentTopic st.
Proof.
  intros Ht. cbn [sendStart currentTopic]. rewrite Ht.
  destruct (List.find _ topicKeywords); reflexivity.
Qed.

(** A step keeps a topic that is shown; the handlers it starts see that
    topic, and so do the summaries of handlers that saw it. *)
Lemma live_step_topic (c c' : LiveComponent) (a : Action) (effs : list Effect) :
  live_step c a = Some (c', effs) ->
  truthy (currentTopic (cells c)) = true ->
  currentTopic (cells c') = currentTopic (cells c) /\
  (started_with_topic c (currentTopic (cells c)) ->
   started_with_topic c' (currentTopic (cells c)) /\
   forall s : Summary, OnEndStudy s ∈ effs -> topic s = currentTopic (cells c)).
Proof.
  intros Hstep Ht.
  destruct a as [i img now | res now' | | | res now | ev | now];
    cbn [live_step] in Hstep.
  - destruct (negb (isQuizMode (cells c)) && negb (isLoading c)); [|discriminate].
    destruct (negb (truthy (trim i)) && negb (truthy_opt img));
      injection Hstep as <- <-; cbn [cells].
    + split; [reflexivity|]. intros Hcl. split; [exact Hcl|].
      intros s Hs. apply elem_of_nil in Hs. contradiction.
    + split; [apply sendStart_topic; exact Ht|]. intros Hcl. split; [exact Hcl|].
      intros s Hs. apply elem_of_nil in Hs. contradiction.
  - destruct (sending c); try discriminate. injection Hstep as <- <-. cbn [cells].
    destruct (receiveReply_cells (cells c) res now') as (_ & Htop & _ & _ & _ & _ & He).
    split; [exact Htop|]. intros Hcl. split; [exact Hcl|].
    intros s Hs. rewrite He in Hs. destruct (getAIResponse_no_summary _ _ _ Hs).
  - destruct (sending c); try discriminate. injection Hstep as <- <-.
    split; [reflexivity|]. intros Hcl. split; [exact Hcl|].
    intros s Hs. apply elem_of_nil in Hs. contradiction.
  - destruct (negb (isQuizMode (cells c)) && negb (quizLoading (cells c)));
      [|discriminate]. injection Hstep as <- <-.
    split; [reflexivity|]. intros Hcl. split.
    + intros cl [Hq | Hr]; cbn [awaitingQuiz resultTimer] in *.
      * injection Hq as <-. reflexivity.
      * apply Hcl. right. exact Hr.
    + intros s Hs. apply elem_of_nil in Hs. contradiction.
  - destruct (awaitingQuiz c) as [cl|] eqn:Hq; [|discriminate].
    injection Hstep as <- <-. cbn [cells].
    destruct (handleEndStudyClick_cells (cells c) res now) as (Htop & _).
    split; [exact Htop|]. intros Hcl. split.
    + intros cl' [Hq' | Hr]; cbn [awaitingQuiz resultTimer] in *; [discriminate|].
      apply Hcl. right. exact Hr.
    + intros s Hs. apply handleEndStudyClick_summaries in Hs as (-> & _).
      unfold topic_or_default. rewrite (Hcl cl (or_introl Hq)), Ht. reflexivity.
  - assert (Hpanel : exists st' effs',
              panel_event ev = true /\ ui_step (cells c) ev = Some (st', effs') /\
              cells c' = st' /\ awaitingQuiz c' = awaitingQuiz c /\
              (resultTimer c' = resultTimer c \/ resultTimer c' = Some (cells c)) /\
              (effs = [] \/ effs = effs' /\ forall now, ev <> ClickNext now)).
    { destruct ev; try discriminate Hstep;
        destruct (ui_step (cells c) _) as [[st' effs']|] eqn:Hu;
        try discriminate Hstep; injection Hstep as <- <-;
        exists st', effs'; cbn [cells awaitingQuiz resultTimer with_cells];
        (split; [reflexivity|]); (split; [reflexivity|]); (split; [reflexivity|]);
        (split; [reflexivity|]);
        first [ split; [left; reflexivity | right; split; [reflexivity | discriminate]]
              | split; [|left; reflexivity];
                destruct (onLastQuestion (cells c)); [right | left]; reflexivity ]. }
    destruct Hpanel as (st' & effs' & Hev & Hu & Hcells & Hq & Hr & He).
    destruct (panel_step _ _ _ _ Hev Hu) as (_ & _ & _ & _ & _ & Htop & _).
    rewrite Hcells. split; [exact Htop|]. intros Hcl. split.
    + intros cl [Hq' | Hr']; [apply Hcl; left; congruence|].
      destruct Hr as [Hr | Hr]; rewrite Hr in Hr'.
      * apply Hcl. right. exact Hr'.
      * injection Hr' as <-. reflexivity.
    + intros s Hs. destruct He as [-> | (-> & Hnext)].
      * apply elem_of_nil in Hs. contradiction.
      * exfalso.
        destruct (RunFacts.ui_step_cases _ _ _ _ Hu)
          as [(Hno & _)
             | (q & _ & [(a & _ & _ & _ & ->) | [(v & _ & _ & _ & ->) | (now & _ & Heq)]])].
        -- destruct ev; try discriminate Hev; cbn [ui_step] in Hu;
             unfold quizPanel in Hu; rewrite Hno in Hu; discriminate Hu.
        -- apply elem_of_nil in Hs. contradiction.
        -- apply elem_of_nil in Hs. contradiction.
        -- destruct ev; try discriminate Hev;
             try (cbn [ui_step] in Hu; destruct (quizPanel (cells c)) as [q'|];
                  [|discriminate Hu];
                  repeat match type of Hu with
                         | context [match ?x with _ => _ end] => destruct x
                         | context [if ?x then _ else _] => destruct x
                         end; try discriminate Hu;
                  injection Hu as <- <-; apply elem_of_nil in Hs; contradiction).
           eapply Hnext. reflexivity.
  - destruct (resultTimer c) as [cl|] eqn:Hr; [|discriminate].
    injection Hstep as <- <-. split; [reflexivity|]. intros Hcl. split.
    + intros cl' [Hq' | Hr']; cbn [awaitingQuiz resultTimer] in *; [|discriminate].
      apply Hcl. left. exact Hq'.
    + intros s Hs. apply list_elem_of_singleton in Hs. injection Hs as ->.
      cbn [timerSummary topic]. unfold topic_or_default.
      rewrite (Hcl cl (or_intror Hr)), Ht. reflexivity.
Qed.

(** X11 ([handleSendMessage], lines 285-288, [finishStudySession] and
    [calculateQuizResults]): the topic is set once.  As soon as a topic is
    shown, no later message, reply, quiz or click changes it.  A summary
    carries the topic that was shown when its handler started, so it is the
    topic on show for every handler started after the topic was set; a
    handler started before that reports "General Study"
    ([late_topic_is_not_reported]). *)
Theorem topic_is_set_once (c c' : LiveComponent) (actions : list Action)
    (effs : list Effect) :
  live_run c actions = Some (c', effs) ->
  truthy (currentTopic (cells c)) = true ->
  currentTopic (cells c') = currentTopic (cells c) /\
  (started_with_topic c (currentTopic (cells c)) ->
   forall s : Summary, s ∈ summaries effs -> topic s = currentTopic (cells c)).
Proof.
  revert c effs. induction actions as [|a rest IH]; intros c effs Hrun Ht.
  - injection Hrun as <- <-. split; [reflexivity|].
    intros _ s Hs. apply elem_of_nil in Hs. contradiction.
  - apply live_run_cons in Hrun as (c1 & effs1 & effs2 & Hstep & Hrest & ->).
    destruct (live_step_topic _ _ _ _ Hstep Ht) as [Hk Hcl1].
    rewrite <- Hk in Ht. destruct (IH _ _ Hrest Ht) as [Hc Hsum].
    rewrite Hk in Hc, Hsum. split; [exact Hc|].
    intros Hcl s Hs. destruct (Hcl1 Hcl) as [Hcl' Hs1].
    apply RunFacts.summaries_app in Hs as [Hs|Hs].
    + apply Hs1, RunFacts.summaries_elem, Hs.
    + apply (Hsum Hcl' s Hs).
Qed.

Lemma topic_is_set_once_witness :
  currentTopic (cells LiveSamples.after_end_without_quiz) = "Physics" /\
  forall s : Summary,
    s ∈ summaries (LiveSamples.effects_of LiveSamples.physics_shown
                     LiveSamples.end_without_quiz) ->
    topic s = "Physics".
Proof.
  destruct (topic_is_set_once LiveSamples.physics_shown
              LiveSamples.after_end_without_quiz LiveSamples.end_without_quiz
              (LiveSamples.effects_of LiveSamples.physics_shown
                 LiveSamples.end_without_quiz)) as [Hc Hs].
  - vm_compute. reflexivity.
  - reflexivity.
  - split; [exact Hc|]. apply Hs. intros cl [H | H]; discriminate H.
Defined.

(** End Study clicked before the first message: the chat shows "Physics"
    when the quiz service fails, and the summary says "General Study". *)
Lemma late_topic_is_not_reported :
  exists (c : LiveComponent) (s : Summary),
    live_run (mounted 0) LiveSamples.topic_after_end_click
    = Some (c, [Toast "Quiz Error"; OnEndStudy s]) /\
    currentTopic (cells c) = "Physics" /\ topic s = "General Study".
Proof. eexists _, _. split; [vm_compute; reflexivity|]. split; reflexivity. Qed.

(** *** The quiz *)

(** What a step of the panel does to the handlers in flight. *)
Lemma panel_live_step (c c' : LiveComponent) (ev : Event) (effs : list Effect) :
  live_step c (Panel ev) = Some (c', effs) ->
  exists effs',
    panel_event ev = true /\ ui_step (cells c) ev = Some (cells c', effs') /\
    awaitingQuiz c' = awaitingQuiz c.
Proof.
  intros Hstep.
  destruct ev; try discriminate Hstep; cbn [live_step] in Hstep;
    destruct (ui_step (cells c) _) as [[st' effs']|] eqn:Hu;
    try discriminate Hstep; injection Hstep as <- <-;
    exists effs'; repeat split.
Qed.

Lemma live_step_quiz (c c' : LiveComponent) (a : Action) (effs : list Effect) :
  live_step c a = Some (c', effs) ->
  live_invariant c ->
  live_invariant c' /\
  (isQuizMode (cells c) = true ->
   isQuizMode (cells c') = true /\
   quizQuestions (cells c') = quizQuestions (cells c) /\
   userAnswers (cells c) `prefix_of` userAnswers (cells c') /\
   (currentQuestionIndex (cells c) <= currentQuestionIndex (cells c'))%nat /\
   currentTopic (cells c') = currentTopic (cells c)).
Proof.
  unfold live_invariant. intros Hstep Hinv.
  destruct a as [i img now | res now' | | | res now | ev | now].
  - cbn [live_step] in Hstep.
    destruct (isQuizMode (cells c)) eqn:Hm; [discriminate|]. cbn [negb andb] in Hstep.
    destruct (isLoading c); [discriminate|]. cbn [negb] in Hstep.
    destruct (negb (truthy (trim i)) && negb (truthy_opt img));
      injection Hstep as <- <-; cbn [cells awaitingQuiz sendStart isQuizMode];
      rewrite ?Hm; split; discriminate.
  - cbn [live_step] in Hstep.
    destruct (sending c); try discriminate. injection Hstep as <- <-.
    cbn [cells awaitingQuiz].
    destruct (receiveReply_cells (cells c) res now')
      as (_ & Htop & Hm & Hq & Ha & Hi & _).
    rewrite Hm, Hq, Ha, Hi, Htop. split; [exact Hinv|].
    intros Hmode. repeat split; [exact Hmode | reflexivity | lia].
  - cbn [live_step] in Hstep.
    destruct (sending c); try discriminate. injection Hstep as <- <-.
    cbn [cells awaitingQuiz]. split; [exact Hinv|].
    intros Hmode. repeat split; [exact Hmode | reflexivity | lia].
  - cbn [live_step] in Hstep.
    destruct (isQuizMode (cells c)) eqn:Hm; [discriminate|]. cbn [negb andb] in Hstep.
    destruct (quizLoading (cells c)); [discriminate|]. injection Hstep as <- <-.
    cbn [cells setQuizLoading isQuizMode]. rewrite Hm. split; discriminate.
  - cbn [live_step] in Hstep.
    destruct (awaitingQuiz c) as [cl|] eqn:Hq; [|discriminate].
    injection Hstep as <- <-. cbn [cells awaitingQuiz].
    split; [intros _; reflexivity|].
    intros Hmode. specialize (Hinv Hmode). congruence.
  - destruct (panel_live_step _ _ _ _ Hstep) as (effs' & Hev & Hu & Hq).
    destruct (panel_step _ _ _ _ Hev Hu) as (Hm & Hm' & Hqs & Ha & Hi & Htop & _).
    rewrite Hq. split; [intros _; apply Hinv; exact Hm|].
    intros _. repeat split; assumption.
  - cbn [live_step] in Hstep.
    destruct (resultTimer c); [|discriminate]. injection Hstep as <- <-.
    cbn [cells awaitingQuiz]. split; [exact Hinv|].
    intros Hmode. repeat split; [exact Hmode | reflexivity | lia].
Qed.

Lemma live_run_invariant (c c' : LiveComponent) (actions : list Action)
    (effs : list Effect) :
  live_run c actions = Some (c', effs) -> live_invariant c -> live_invariant c'.
Proof.
  revert c effs. induction actions as [|a rest IH]; intros c effs Hrun Hinv.
  - injection Hrun as <- <-. exact Hinv.
  - apply live_run_cons in Hrun as (c1 & effs1 & effs2 & Hstep & Hrest & ->).
    apply (IH _ _ Hrest). apply (live_step_quiz _ _ _ _ Hstep Hinv).
Qed.

Lemma live_run_quiz (c c' : LiveComponent) (actions : list Action) (effs : list Effect) :
  live_run c actions = Some (c', effs) ->
  live_invariant c ->
  isQuizMode (cells c) = true ->
  isQuizMode (cells c') = true /\
  quizQuestions (cells c') = quizQuestions (cells c) /\
  userAnswers (cells c) `prefix_of` userAnswers (cells c') /\
  (currentQuestionIndex (cells c) <= currentQuestionIndex (cells c'))%nat /\
  currentTopic (cells c') = currentTopic (cells c).
Proof.
  revert c effs. induction actions as [|a rest IH]; intros c effs Hrun Hinv Hm.
  - injection Hrun as <- <-. repeat split; [exact Hm | reflexivity | lia].
  - apply live_run_cons in Hrun as (c1 & effs1 & effs2 & Hstep & Hrest & ->).
    destruct (live_step_quiz _ _ _ _ Hstep Hinv) as [Hinv1 Hq1].
    destruct (Hq1 Hm) as (Hm1 & Hqs1 & Ha1 & Hi1 & Ht1).
    destruct (IH _ _ Hrest Hinv1 Hm1) as (Hm2 & Hqs2 & Ha2 & Hi2 & Ht2).
    split; [exact Hm2|]. split; [congruence|].
    split; [etransitivity; eassumption|]. split; [lia | congruence].
Qed.

(** X13 (quiz mode, lines 336-399, 533-541 and 682-793): once the quiz has
    started the component never leaves quiz mode, whatever is still in
    flight; the questions and the topic stay as they are, an answer once
    given is never changed or dropped, and the question index never goes
    back.  The chat and the analysis are not part of this: a reply that
    was awaited when the quiz started is still taken in
    ([reply_lands_in_quiz_mode]). *)
Theorem quiz_answers_are_final (start : Z) (before after : list Action)
    (c c' : LiveComponent) (effs effs' : list Effect) :
  live_run (mounted start) before = Some (c, effs) ->
  live_run c after = Some (c', effs') ->
  isQuizMode (cells c) = true ->
  isQuizMode (cells c') = true /\
  quizQuestions (cells c') = quizQuestions (cells c) /\
  userAnswers (cells c) `prefix_of` userAnswers (cells c') /\
  (currentQuestionIndex (cells c) <= currentQuestionIndex (cells c'))%nat /\
  currentTopic (cells c') = currentTopic (cells c).
Proof.
  intros Hbefore Hafter Hm.
  apply (live_run_quiz c c' after effs' Hafter); [|exact Hm].
  apply (live_run_invariant _ _ _ _ Hbefore). intros Hmode. reflexivity.
Qed.

Lemma quiz_answers_are_final_witness :
  isQuizMode (cells LiveSamples.after_reply_during_quiz) = true /\
  quizQuestions (cells LiveSamples.after_reply_during_quiz)
  = quizQuestions (cells LiveSamples.quiz_with_reply_pending) /\
  userAnswers (cells LiveSamples.quiz_with_reply_pending)
    `prefix_of` userAnswers (cells LiveSamples.after_reply_during_quiz) /\
  (currentQuestionIndex (cells LiveSamples.quiz_with_reply_pending)
   <= currentQuestionIndex (cells LiveSamples.after_reply_during_quiz))%nat /\
  currentTopic (cells LiveSamples.after_reply_during_quiz)
  = currentTopic (cells LiveSamples.quiz_with_reply_pending).
Proof.
  apply (quiz_answers_are_final 0 (take 3 LiveSamples.reply_during_quiz)
           (drop 3 LiveSamples.reply_during_quiz)
           LiveSamples.quiz_with_reply_pending LiveSamples.after_reply_during_quiz
           []
           (LiveSamples.effects_of (mounted 0) LiveSamples.reply_during_quiz)).
  - vm_compute. reflexivity.
  - vm_compute. reflexivity.
  - reflexivity.
Defined.

(** A reply that arrives after the quiz has started: it is appended to the
    chat and its analysis is merged, in quiz mode. *)
Lemma reply_lands_in_quiz_mode :
  isQuizMode (cells LiveSamples.quiz_with_reply_pending) = true /\
  weakAreas (st_analysis (cells LiveSamples.quiz_with_reply_pending)) = [] /\
  weakAreas (st_analysis (cells LiveSamples.after_reply_during_quiz)) = ["algebra"] /\
  content <$> st_messages (cells LiveSamples.after_reply_during_quiz)
  = [ Greeting; Text "physics ka doubt hai"; QuizIntro 1;
      Text "Aur practice karo."; ResultMessage 1 1 strong ].
Proof. repeat split; vm_compute; reflexivity. Qed.

(** *** The timer of the result *)

(** The summary of a finished quiz is handed over when the timer fires,
    with the time spent read at that moment and the chat as it was when
    "See Results" was clicked, the result message not in it. *)
Lemma result_summary_waits_for_timer :
  exists (c : LiveComponent) (s : Summary),
    live_run (mounted 0) (take 7 LiveSamples.reply_during_quiz) = Some (c, []) /\
    showResult (cells c) = true /\
    live_step c (TimerFires 93000)
    = Some ({| cells := cells c; sending := sending c;
               awaitingQuiz := awaitingQuiz c; resultTimer := None |},
            [OnEndStudy s]) /\
    timeSpent s = Z2SF 2 /\
    st_messages (cells c)
    = messages s ++
      [ {| m_id := 90000; role := assistant; content := ResultMessage 1 1 strong;
           timestamp := 90000; imageUrl := None |} ].
Proof.
  eexists _, _. split; [vm_compute; reflexivity|]. split; [reflexivity|].
  split; [vm_compute; reflexivity|]. split; vm_compute; reflexivity.
Qed.

End LiveFacts.
